(** * BlueGuard AI prediction service: threat aggregation core

    A shallow embedding of the aggregation and recommendation logic of
    [Backend/ml_service/ai_service.py] (class [BlueGuardPredictor]) and
    [Backend/ml_service/ai_service_simple.py] (class
    [BlueGuardPredictorSimplified]), with the properties of its
    natural-language specification stated and proved over it.

    Modelling conventions.
    - Python values that arrive as JSON are the inductive [pyval]; a Python
      [dict] is an association list in insertion order with first-match
      lookup, which is what iteration over [.items()] observes.
    - Where the code only compares a number with a threshold, Python
      numbers ([int], [float], [numpy.float64]) are exact rationals [Q].
      Every threshold the code compares against (0.5, 1.0, 1.5, 2.0, 2.5,
      3.5) is a binary float, and a mean of small integer ranks lies on
      the same side of such a threshold as a float as it does as a
      rational, so the branches taken agree.
    - Where the code computes with floats and returns the result, as
      [_estimate_carbon_loss] does, a Python [float] is an IEEE 754
      binary64 number with the operations of the processor (module
      [Binary64]): products and quotients are rounded as the code rounds
      them, and an [int] too large for a [float] raises [OverflowError].
    - An exception is a value of [exn]; code that may raise returns a
      [result], and [try ... except Exception] is [try_except]. *)

From Stdlib Require Import List String Ascii ZArith QArith Lqa Lia Bool.
From Stdlib Require Import Permutation.
From Stdlib Require Import PrimFloat SpecFloat FloatOps FloatAxioms.
Import ListNotations.
Open Scope string_scope.
Open Scope list_scope.
Set Warnings "-inexact-float".

(** ** Python values, exceptions and dictionaries *)

Module Py.

Inductive exn : Type :=
| TypeError
| AttributeError
| OverflowError
| External (msg : string).

Inductive result (A : Type) : Type :=
| Ok (a : A)
| Raise (e : exn).

Arguments Ok {A} a.
Arguments Raise {A} e.

Definition bind {A B : Type} (c : result A) (k : A -> result B) : result B :=
  match c with
  | Ok a => k a
  | Raise e => Raise e
  end.

Definition try_except {A : Type} (c : result A) (handler : exn -> A) : A :=
  match c with
  | Ok a => a
  | Raise e => handler e
  end.

#[warnings="-register-all"]
Inductive pyval : Type :=
| PNone
| PBool (b : bool)
| PNum (q : Q)
| PStr (s : string)
| PList (l : list pyval)
| PDict (d : list (string * pyval)).

Definition dict : Type := list (string * pyval).

(** [d.get(k)] / [d[k]] on the entries of a dict: the first entry under [k]. *)
Fixpoint dict_get (d : dict) (k : string) : option pyval :=
  match d with
  | [] => None
  | (k', v) :: d' => if String.eqb k' k then Some v else dict_get d' k
  end.

(** [k in d] *)
Definition dict_has (d : dict) (k : string) : bool :=
  match dict_get d k with
  | Some _ => true
  | None => false
  end.

(** [d[k] = v]: an existing key keeps its position, a new key goes last. *)
Fixpoint dict_set (d : dict) (k : string) (v : pyval) : dict :=
  match d with
  | [] => [(k, v)]
  | (k', v') :: d' =>
      if String.eqb k' k then (k, v) :: d' else (k', v') :: dict_set d' k v
  end.

(** [del d[k]] for every entry under [k]. *)
Definition dict_remove (d : dict) (k : string) : dict :=
  filter (fun kv => negb (String.eqb (fst kv) k)) d.

(** [x.get(k, default)]: only a dict has the method. *)
Definition py_get (x : pyval) (k : string) (default : pyval) : result pyval :=
  match x with
  | PDict d =>
      match dict_get d k with
      | Some v => Ok v
      | None => Ok default
      end
  | _ => Raise AttributeError
  end.

(** The numeric reading of a value: [bool] is a subclass of [int]. *)
Definition as_number (v : pyval) : option Q :=
  match v with
  | PNum q => Some q
  | PBool true => Some 1%Q
  | PBool false => Some 0%Q
  | _ => None
  end.

Definition Qltb (x y : Q) : bool := negb (Qle_bool y x).

(** [v * r] for a float [r] *)
Definition py_mul_float (v : pyval) (r : Q) : result Q :=
  match as_number v with
  | Some q => Ok (q * r)%Q
  | None => Raise TypeError
  end.

(** [v > r] for a float [r] *)
Definition py_gt_float (v : pyval) (r : Q) : result bool :=
  match as_number v with
  | Some q => Ok (Qltb r q)
  | None => Raise TypeError
  end.

(** [v / r] for a number [r] other than zero *)
Definition py_div (v : pyval) (r : Q) : result Q :=
  match as_number v with
  | Some q => Ok (q / r)%Q
  | None => Raise TypeError
  end.

(** [s.lower()] on ASCII text; any other value has no such method. *)
Definition lower_ascii (c : ascii) : ascii :=
  let n := nat_of_ascii c in
  if Nat.leb 65 n && Nat.leb n 90 then ascii_of_nat (n + 32) else c.

Fixpoint lower (s : string) : string :=
  match s with
  | EmptyString => EmptyString
  | String c s' => String (lower_ascii c) (lower s')
  end.

Definition py_lower (v : pyval) : result string :=
  match v with
  | PStr s => Ok (lower s)
  | _ => Raise AttributeError
  end.

(** [v == s] for a string literal [s] *)
Definition py_eq_str (v : pyval) (s : string) : bool :=
  match v with
  | PStr s' => String.eqb s' s
  | _ => false
  end.

(** [v in [s1, s2, ...]] for a list of string literals *)
Definition py_in_strs (v : pyval) (l : list string) : bool :=
  existsb (py_eq_str v) l.

(** [s in t] for two strings: [s] occurs in [t] *)
Fixpoint str_contains (t s : string) : bool :=
  String.prefix s t
  || match t with
     | EmptyString => false
     | String _ t' => str_contains t' s
     end.

(** Lists and dicts are unhashable; using one as a dict key raises. *)
Definition hashable (v : pyval) : bool :=
  match v with
  | PList _ | PDict _ => false
  | _ => true
  end.

(** [for x in items: s = body(s, x)], stopping at the first exception. *)
Fixpoint for_each {S A : Type} (items : list A) (body : S -> A -> result S)
    (s : S) : result S :=
  match items with
  | [] => Ok s
  | x :: rest =>
      match body s x with
      | Ok s' => for_each rest body s'
      | Raise e => Raise e
      end
  end.

(** [table.get(v, default)] for a literal table with string keys. *)
Definition table_get {A : Type} (table : list (string * A)) (v : pyval)
    (default : A) : result A :=
  match v with
  | PStr s =>
      match find (fun kv => String.eqb (fst kv) s) table with
      | Some kv => Ok (snd kv)
      | None => Ok default
      end
  | PList _ | PDict _ => Raise TypeError
  | _ => Ok default
  end.

End Py.

Import Py.

Declare Scope py_scope.
Delimit Scope py_scope with py.
Notation "x <- c ;; k" := (bind c (fun x => k))
  (at level 61, c at next level, right associativity) : py_scope.
Open Scope py_scope.

(** ** The functions shared verbatim by the two service variants *)

Module Core.

(** [_categorize_surge_risk(self, surge_height)] *)
Definition _categorize_surge_risk (surge_height : Q) : string :=
  if Qltb surge_height 0.5 then "low"
  else if Qltb surge_height 1.0 then "medium"
  else if Qltb surge_height 2.0 then "high"
  else "critical".

(** The dict returned by [_estimate_carbon_loss], one field per key. *)
Record carbon_loss_estimate : Type := mkCarbonLoss {
  potential_loss_tons_co2 : Q;
  economic_value_usd : Q;
  recovery_time_years : Q
}.

Definition loss_multipliers : list (string * Q) :=
  [("minimal", 0.05%Q); ("moderate", 0.15%Q);
   ("significant", 0.35%Q); ("severe", 0.60%Q)].

(** [_estimate_carbon_loss(self, threat_level, ecosystem_data)], with the
    numbers of the estimate as exact rationals, for the result of the
    predictor that calls it; [Binary64._estimate_carbon_loss] below has
    them as the floats that the code returns. *)
Definition _estimate_carbon_loss (threat_level : pyval)
    (ecosystem_data : pyval) : result carbon_loss_estimate :=
  base_carbon <- py_get ecosystem_data "carbon_storage" (PNum 100) ;;
  loss_rate <- table_get loss_multipliers threat_level 0.25%Q ;;
  carbon_loss <- py_mul_float base_carbon loss_rate ;;
  Ok {| potential_loss_tons_co2 := carbon_loss;
        economic_value_usd := (carbon_loss * 50)%Q;
        recovery_time_years := (carbon_loss / 10)%Q |}.

Definition risk_scores : list (string * Z) :=
  [("low", 1%Z); ("minimal", 1%Z);
   ("medium", 2%Z); ("moderate", 2%Z);
   ("high", 3%Z); ("significant", 3%Z);
   ("critical", 4%Z); ("severe", 4%Z)].

(** [np.mean(scores)] of a list of Python ints *)
Definition np_mean (scores : list Z) : Q :=
  (inject_Z (fold_right Z.add 0%Z scores)
   / inject_Z (Z.of_nat (List.length scores)))%Q.

(** The body of the loop of [_calculate_overall_risk]. *)
Definition score_entry (scores : list Z) (item : string * pyval)
    : result (list Z) :=
  let '(threat_type, threat_data) := item in
  match threat_data with
  | PDict d =>
      if negb (dict_has d "error") then
        match dict_get d "risk_level" with
        | Some lvl =>
            s <- table_get risk_scores lvl 2%Z ;; Ok (scores ++ [s])
        | None =>
            match dict_get d "threat_level" with
            | Some lvl =>
                s <- table_get risk_scores lvl 2%Z ;; Ok (scores ++ [s])
            | None => Ok scores
            end
        end
      else Ok scores
  | _ => Ok scores
  end.

(** [_calculate_overall_risk(self, threats)] *)
Definition _calculate_overall_risk (threats : dict) : result string :=
  scores <- for_each threats score_entry [] ;;
  match scores with
  | [] => Ok "unknown"
  | _ =>
      let avg_score := np_mean scores in
      if Qltb avg_score 1.5 then Ok "low"
      else if Qltb avg_score 2.5 then Ok "medium"
      else if Qltb avg_score 3.5 then Ok "high"
      else Ok "critical"
  end.

End Core.

Import Core.

(** ** The carbon estimate in floating point

    [_estimate_carbon_loss] multiplies and divides, and returns what the
    floats give. A number [PNum q] is the [int] [q] when [q] is an integer
    and the [float] nearest to [q] otherwise, as [json] reads a number
    with a fraction; a [float] whose value is an integer converts as that
    [int] does, to itself. The infinities and NaN are results of the
    arithmetic only: no [pyval] is one of them. *)

Module Binary64.

(** [float(n)] of an [int], as an operation with a [float] converts it: the
    nearest double, ties to even, and [OverflowError] when that is beyond
    the largest double. *)
Definition float_of_int (n : Z) : result float :=
  match binary_normalize prec emax n 0 false with
  | S754_infinity _ => Raise OverflowError
  | x => Ok (SF2Prim x)
  end.

(** The double that a fraction is read as: the nearest one, ties to even. *)
Definition float_of_fraction (q : Q) : float :=
  let '(m, e, l) :=
    SFdiv_core_binary prec emax (Z.abs (Qnum q)) 0 (Zpos (Qden q)) 0 in
  SF2Prim (binary_round_aux prec emax (Z.ltb (Qnum q) 0) m e l).

Definition is_integer (q : Q) : bool :=
  (Qnum q mod Zpos (Qden q) =? 0)%Z.

(** The operand that a value becomes in arithmetic with a [float]; [bool]
    is a subclass of [int]. *)
Definition as_float (v : pyval) : result float :=
  match v with
  | PBool true => Ok 1%float
  | PBool false => Ok 0%float
  | PNum q =>
      if is_integer q then float_of_int (Qnum q / Zpos (Qden q))
      else Ok (float_of_fraction q)
  | _ => Raise TypeError
  end.

(** The dict returned by [_estimate_carbon_loss], one field per key. *)
Record carbon_loss_estimate : Type := mkCarbonLoss {
  potential_loss_tons_co2 : float;
  economic_value_usd : float;
  recovery_time_years : float
}.

Definition loss_multipliers : list (string * float) :=
  [("minimal", 0.05%float); ("moderate", 0.15%float);
   ("significant", 0.35%float); ("severe", 0.60%float)].

(** [_estimate_carbon_loss(self, threat_level, ecosystem_data)] *)
Definition _estimate_carbon_loss (threat_level : pyval)
    (ecosystem_data : pyval) : result carbon_loss_estimate :=
  base_carbon <- py_get ecosystem_data "carbon_storage" (PNum 100) ;;
  loss_rate <- table_get loss_multipliers threat_level 0.25%float ;;
  base <- as_float base_carbon ;;
  let carbon_loss := (base * loss_rate)%float in
  Ok {| potential_loss_tons_co2 := carbon_loss;
        economic_value_usd := (carbon_loss * 50)%float;
        recovery_time_years := (carbon_loss / 10)%float |}.

End Binary64.

(** ** External collaborators

    The fitted models, the clock and the random source are not part of the
    aggregation logic; they are the fields of an environment. A model that
    is absent from [self.models] is [None]. A model's [predict] stands for
    [scaler.transform] (when a scaler is loaded), [np.array], the library
    call and the [[0]] that selects the single prediction. *)

Record classifier : Type := mkClassifier {
  predict_proba : option (list pyval -> result (list Q));
  predict : list pyval -> result pyval
}.

Record env : Type := mkEnv {
  now_iso : string;                        (* datetime.now().isoformat() *)
  hour_iso : nat -> string;       (* (now + timedelta(hours=i)).isoformat() *)
  str_exn : exn -> string;                 (* str(e) *)
  models_loaded : bool;                    (* self.models_loaded *)
  storm_surge : option (list pyval -> result Q);
  coastal_erosion : option classifier;
  blue_carbon_threat : option classifier;
  (* ai_service.py, lines 174-197: padding, feature extraction and the LSTM *)
  weather_prediction : option (pyval -> result (list Q));
  (* ai_service_simple.py, lines 228-233: the recent average temperature *)
  avg_temperature : pyval -> result Q;
  np_random : nat -> Q;                    (* the i-th np.random.random() *)
  np_sin_cycle : nat -> Q                  (* np.sin(2 * np.pi * i / 24) *)
}.

(** [np.max(a)] of a one-dimensional array; an empty one raises. *)
Definition np_max (a : list Q) : result Q :=
  match a with
  | [] => Raise (External "zero-size array to reduction operation maximum")
  | x :: rest => Ok (fold_left (fun m y => if Qltb m y then y else m) rest x)
  end.

(** [{level: float(prob) for level, prob in zip(levels, probs)}] *)
Definition zip_probabilities (levels : list string) (probs : list Q) : pyval :=
  PDict (map (fun lp => (fst lp, PNum (snd lp))) (combine levels probs)).

Definition carbon_loss_dict (c : carbon_loss_estimate) : pyval :=
  PDict [("potential_loss_tons_co2", PNum (potential_loss_tons_co2 c));
         ("economic_value_usd", PNum (economic_value_usd c));
         ("recovery_time_years", PNum (recovery_time_years c))].

(** [mapping.get(sediment_type.lower(), 0)] of [_encode_sediment_type] *)
Definition _encode_sediment_type (sediment_type : pyval) : result pyval :=
  let mapping :=
    [("sand", 0%Z); ("clay", 1%Z); ("rock", 2%Z); ("mixed", 3%Z)] in
  s <- py_lower sediment_type ;;
  c <- table_get mapping (PStr s) 0%Z ;;
  Ok (PNum (inject_Z c)).

(** The five [.get(key, default)] calls that build one feature row. *)
Fixpoint get_all (data : pyval) (keys : list (string * pyval))
    : result (list pyval) :=
  match keys with
  | [] => Ok []
  | (k, default) :: rest =>
      v <- py_get data k default ;;
      vs <- get_all data rest ;;
      Ok (v :: vs)
  end.

(** The three feature rows, shared by the two variants. *)
Definition storm_surge_features (weather_data : pyval) : result (list pyval) :=
  get_all weather_data
    [("wind_speed", PNum 10); ("pressure", PNum 1013);
     ("tide_height", PNum 2.0); ("wave_height", PNum 1.0);
     ("temperature", PNum 25)].

Definition coastal_erosion_features (coastal_data : pyval)
    : result (list pyval) :=
  wave_energy <- py_get coastal_data "wave_energy" (PNum 5) ;;
  sediment_type <- py_get coastal_data "sediment_type" (PStr "sand") ;;
  sediment <- _encode_sediment_type sediment_type ;;
  rest <- get_all coastal_data
            [("vegetation_cover", PNum 50); ("slope_angle", PNum 10);
             ("storm_frequency", PNum 3)] ;;
  Ok (wave_energy :: sediment :: rest).

Definition blue_carbon_features (ecosystem_data : pyval)
    : result (list pyval) :=
  get_all ecosystem_data
    [("water_quality", PNum 75); ("pollution_levels", PNum 2);
     ("human_activity", PNum 5); ("climate_factors", PNum 0);
     ("biodiversity_index", PNum 70)].

(** [min(0.95, 0.6 + (weather_data.get('wind_speed', 10) / 50) * 0.3)] *)
Definition surge_confidence (weather_data : pyval) : result Q :=
  wind_speed <- py_get weather_data "wind_speed" (PNum 10) ;;
  ratio <- py_div wind_speed 50 ;;
  let c := (0.6 + ratio * 0.3)%Q in
  Ok (if Qltb c 0.95 then c else 0.95%Q).

Definition risk_levels : list string := ["low"; "medium"; "high"; "critical"].
Definition threat_levels : list string :=
  ["minimal"; "moderate"; "significant"; "severe"].

(** The statements of [comprehensive_threat_analysis], which both files
    share; the variants differ in the predictors, the aggregate confidence
    and the recommendation generator they are given. *)
Section Orchestrator.

Variable E : env.
Variables predict_storm_surge predict_coastal_erosion
          predict_blue_carbon_threat predict_weather_sequence : pyval -> pyval.
Variable generate_recommendations : dict -> result (list string).
Variable confidence : Q.

(** [if section in input_data:
        results['threats'][key] = predictor(input_data[section])] *)
Definition analyse_section (input_data : dict) (section key : string)
    (predictor : pyval -> pyval) (threats : dict) : dict :=
  match dict_get input_data section with
  | Some data => dict_set threats key (predictor data)
  | None => threats
  end.

Definition collect_threats (input_data : dict) : dict :=
  let threats := [] in
  let threats :=
    analyse_section input_data "weather" "storm_surge"
      predict_storm_surge threats in
  let threats :=
    analyse_section input_data "coastal" "coastal_erosion"
      predict_coastal_erosion threats in
  let threats :=
    analyse_section input_data "ecosystem" "blue_carbon"
      predict_blue_carbon_threat threats in
  analyse_section input_data "historical_weather" "weather_forecast"
    predict_weather_sequence threats.

(** The rest of the [try] block over the collected [results['threats']],
    and the [except] clause. *)
Definition assemble (threats : dict) : dict :=
  let results :=
    [("timestamp", PStr (now_iso E)); ("overall_risk", PStr "low");
     ("confidence", PNum confidence); ("threats", PDict [])] in
  let results := dict_set results "threats" (PDict threats) in
  match _calculate_overall_risk threats with
  | Raise e => dict_set results "error" (PStr (str_exn E e))
  | Ok overall_risk =>
      let results := dict_set results "overall_risk" (PStr overall_risk) in
      match generate_recommendations threats with
      | Raise e => dict_set results "error" (PStr (str_exn E e))
      | Ok recommendations =>
          dict_set results "recommendations"
            (PList (map PStr recommendations))
      end
  end.

Definition analysis (input_data : dict) : dict :=
  assemble (collect_threats input_data).

(** [section in input_data], and [input_data[section]] when it holds, for
    an [input_data] of any type, as the body of a request can be. A list
    is searched for an element equal to the name and a string for the
    name as a substring, and neither can be indexed by a string; [None],
    a [bool] and a number cannot be searched. *)
Definition find_section (input_data : pyval) (section : string)
    : result (option pyval) :=
  match input_data with
  | PDict d => Ok (dict_get d section)
  | PList l =>
      if existsb (fun v => py_eq_str v section) l then Raise TypeError
      else Ok None
  | PStr s => if str_contains s section then Raise TypeError else Ok None
  | _ => Raise TypeError
  end.

(** One [if section in input_data: ...] statement of the [try] block: the
    threats collected so far, and the exception that ended the block. *)
Definition analyse_section_of (input_data : pyval) (section key : string)
    (predictor : pyval -> pyval) (state : dict * option exn)
    : dict * option exn :=
  match state with
  | (threats, Some e) => state
  | (threats, None) =>
      match find_section input_data section with
      | Ok (Some data) => (dict_set threats key (predictor data), None)
      | Ok None => (threats, None)
      | Raise e => (threats, Some e)
      end
  end.

Definition collect_threats_of (input_data : pyval) : dict * option exn :=
  let state := ([], None) in
  let state :=
    analyse_section_of input_data "weather" "storm_surge"
      predict_storm_surge state in
  let state :=
    analyse_section_of input_data "coastal" "coastal_erosion"
      predict_coastal_erosion state in
  let state :=
    analyse_section_of input_data "ecosystem" "blue_carbon"
      predict_blue_carbon_threat state in
  analyse_section_of input_data "historical_weather" "weather_forecast"
    predict_weather_sequence state.

(** [comprehensive_threat_analysis] on an [input_data] of any type. *)
Definition analysis_of (input_data : pyval) : dict :=
  match collect_threats_of input_data with
  | (threats, None) => assemble threats
  | (threats, Some e) =>
      dict_set
        [("timestamp", PStr (now_iso E)); ("overall_risk", PStr "low");
         ("confidence", PNum confidence); ("threats", PDict threats)]
        "error" (PStr (str_exn E e))
  end.

End Orchestrator.

(** ** [ai_service.py]: class [BlueGuardPredictor] *)

Module AiService.

Definition predict_storm_surge (E : env) (weather_data : pyval) : pyval :=
  try_except
    (match models_loaded E, storm_surge E with
     | true, Some model =>
         features <- storm_surge_features weather_data ;;
         surge_height <- model features ;;
         confidence <- surge_confidence weather_data ;;
         Ok (PDict [("surge_height", PNum surge_height);
                    ("confidence", PNum confidence);
                    ("risk_level",
                     PStr (_categorize_surge_risk surge_height))])
     | _, _ =>
         Ok (PDict [("error", PStr "Storm surge model not available");
                    ("surge_height", PNum 0)])
     end)
    (fun e => PDict [("error", PStr (str_exn E e)); ("surge_height", PNum 0)]).

Definition predict_coastal_erosion (E : env) (coastal_data : pyval) : pyval :=
  try_except
    (match models_loaded E, coastal_erosion E with
     | true, Some model =>
         features <- coastal_erosion_features coastal_data ;;
         risk_probabilities <-
           match predict_proba model with
           | Some proba => proba features
           | None => Raise AttributeError
           end ;;
         risk_level <- predict model features ;;
         confidence <- np_max risk_probabilities ;;
         Ok (PDict [("risk_level", risk_level);
                    ("confidence", PNum confidence);
                    ("probabilities",
                     zip_probabilities risk_levels risk_probabilities)])
     | _, _ =>
         Ok (PDict [("error", PStr "Erosion model not available");
                    ("risk_level", PStr "unknown")])
     end)
    (fun e => PDict [("error", PStr (str_exn E e));
                     ("risk_level", PStr "unknown")]).

Definition predict_blue_carbon_threat (E : env) (ecosystem_data : pyval)
    : pyval :=
  try_except
    (match models_loaded E, blue_carbon_threat E with
     | true, Some model =>
         features <- blue_carbon_features ecosystem_data ;;
         threat_probabilities <-
           match predict_proba model with
           | Some proba => proba features
           | None => Raise AttributeError
           end ;;
         threat_level <- predict model features ;;
         confidence <- np_max threat_probabilities ;;
         carbon_loss <- _estimate_carbon_loss threat_level ecosystem_data ;;
         Ok (PDict [("threat_level", threat_level);
                    ("confidence", PNum confidence);
                    ("probabilities",
                     zip_probabilities threat_levels threat_probabilities);
                    ("carbon_loss_estimate", carbon_loss_dict carbon_loss)])
     | _, _ =>
         Ok (PDict [("error", PStr "Blue carbon model not available");
                    ("threat_level", PStr "unknown")])
     end)
    (fun e => PDict [("error", PStr (str_exn E e));
                     ("threat_level", PStr "unknown")]).

(** The list comprehension over [enumerate(zip(timestamps, predictions), 1)] *)
Definition forecast_entries (E : env) (predictions : list Q) : list pyval :=
  let timestamps := map (hour_iso E) (seq 1 24) in
  map (fun entry : nat * (string * Q) =>
         let '(i, (ts, temp)) := entry in
         PDict [("timestamp", PStr ts); ("temperature", PNum temp);
                ("hour_offset", PNum (inject_Z (Z.of_nat i)))])
      (combine (seq 1 24) (combine timestamps predictions)).

Definition predict_weather_sequence (E : env) (historical_data : pyval)
    : pyval :=
  try_except
    (match models_loaded E, weather_prediction E with
     | true, Some model =>
         predictions <- model historical_data ;;
         Ok (PDict [("predictions", PList (forecast_entries E predictions));
                    ("confidence", PNum 0.8)])
     | _, _ =>
         Ok (PDict [("error", PStr "Weather prediction model not available")])
     end)
    (fun e => PDict [("error", PStr (str_exn E e))]).

(** The body of the loop of [_generate_recommendations]. *)
Definition recommend_entry (recommendations : list string)
    (item : string * pyval) : result (list string) :=
  let '(threat_type, threat_data) := item in
  match threat_data with
  | PDict d =>
      if negb (dict_has d "error") then
        if String.eqb threat_type "storm_surge" then
          surge_height <- py_get threat_data "surge_height" (PNum 0) ;;
          above <- py_gt_float surge_height 1.0 ;;
          if above then
            Ok (recommendations
                ++ ["Issue storm surge warning - evacuate low-lying areas";
                    "Deploy emergency response teams"])
          else
            above <- py_gt_float surge_height 0.5 ;;
            if above then
              Ok (recommendations ++ ["Monitor coastal conditions closely"])
            else Ok recommendations
        else if String.eqb threat_type "coastal_erosion" then
          risk_level <- py_get threat_data "risk_level" (PStr "low") ;;
          if py_in_strs risk_level ["high"; "critical"] then
            Ok (recommendations
                ++ ["Implement emergency coastal protection measures";
                    "Restrict beach access in high-risk areas"])
          else Ok recommendations
        else if String.eqb threat_type "blue_carbon" then
          threat_level <- py_get threat_data "threat_level" (PStr "minimal") ;;
          if py_in_strs threat_level ["significant"; "severe"] then
            Ok (recommendations
                ++ ["Activate blue carbon ecosystem protection protocols";
                    "Deploy rapid response conservation team"])
          else Ok recommendations
        else Ok recommendations
      else Ok recommendations
  | _ => Ok recommendations
  end.

(** [_generate_recommendations(self, threats)] *)
Definition _generate_recommendations (threats : dict)
    : result (list string) :=
  for_each threats recommend_entry [].

(** [comprehensive_threat_analysis(self, input_data)] *)
Definition comprehensive_threat_analysis (E : env) (input_data : dict)
    : dict :=
  analysis E (predict_storm_surge E) (predict_coastal_erosion E)
    (predict_blue_carbon_threat E) (predict_weather_sequence E)
    _generate_recommendations 0.8%Q input_data.

(** [comprehensive_threat_analysis(self, input_data)] on an [input_data]
    of any type *)
Definition comprehensive_threat_analysis_of (E : env) (input_data : pyval)
    : dict :=
  analysis_of E (predict_storm_surge E) (predict_coastal_erosion E)
    (predict_blue_carbon_threat E) (predict_weather_sequence E)
    _generate_recommendations 0.8%Q input_data.

End AiService.

(** ** [ai_service_simple.py]: class [BlueGuardPredictorSimplified] *)

Module AiServiceSimple.

Definition predict_storm_surge (E : env) (weather_data : pyval) : pyval :=
  try_except
    (match storm_surge E with
     | Some model =>
         features <- storm_surge_features weather_data ;;
         surge_height <- model features ;;
         confidence <- surge_confidence weather_data ;;
         Ok (PDict [("surge_height",
                     PNum (if Qltb 0 surge_height then surge_height else 0%Q));
                    ("confidence", PNum confidence);
                    ("risk_level",
                     PStr (_categorize_surge_risk surge_height))])
     | None =>
         Ok (PDict [("error", PStr "Storm surge model not available");
                    ("surge_height", PNum 0)])
     end)
    (fun e => PDict [("error", PStr (str_exn E e)); ("surge_height", PNum 0)]).

(** The [if hasattr(model, 'predict_proba'): ... else: ...] block: the
    [probabilities] dict and the confidence. *)
Definition probabilities_of (model : classifier) (levels : list string)
    (features : list pyval) : result (pyval * Q) :=
  match predict_proba model with
  | Some proba =>
      probs <- proba features ;;
      confidence <- np_max probs ;;
      Ok (zip_probabilities levels probs, confidence)
  | None => Ok (PDict [], 0.7%Q)
  end.

Definition predict_coastal_erosion (E : env) (coastal_data : pyval) : pyval :=
  try_except
    (match coastal_erosion E with
     | Some model =>
         features <- coastal_erosion_features coastal_data ;;
         pc <- probabilities_of model risk_levels features ;;
         risk_level <- predict model features ;;
         Ok (PDict [("risk_level", risk_level);
                    ("confidence", PNum (snd pc));
                    ("probabilities", fst pc)])
     | None =>
         Ok (PDict [("error", PStr "Erosion model not available");
                    ("risk_level", PStr "unknown")])
     end)
    (fun e => PDict [("error", PStr (str_exn E e));
                     ("risk_level", PStr "unknown")]).

Definition predict_blue_carbon_threat (E : env) (ecosystem_data : pyval)
    : pyval :=
  try_except
    (match blue_carbon_threat E with
     | Some model =>
         features <- blue_carbon_features ecosystem_data ;;
         pc <- probabilities_of model threat_levels features ;;
         threat_level <- predict model features ;;
         carbon_loss <- _estimate_carbon_loss threat_level ecosystem_data ;;
         Ok (PDict [("threat_level", threat_level);
                    ("confidence", PNum (snd pc));
                    ("probabilities", fst pc);
                    ("carbon_loss_estimate", carbon_loss_dict carbon_loss)])
     | None =>
         Ok (PDict [("error", PStr "Blue carbon model not available");
                    ("threat_level", PStr "unknown")])
     end)
    (fun e => PDict [("error", PStr (str_exn E e));
                     ("threat_level", PStr "unknown")]).

(** One pass of [for i in range(1, 25)] *)
Definition trend_entry (E : env) (avg_temp : Q) (i : nat) : pyval :=
  let temp_variation := ((np_random E i - 0.5) * 4)%Q in
  let daily_cycle := (3 * np_sin_cycle E i)%Q in
  PDict [("timestamp", PStr (hour_iso E i));
         ("temperature", PNum (avg_temp + temp_variation + daily_cycle)%Q);
         ("hour_offset", PNum (inject_Z (Z.of_nat i)))].

Definition predict_weather_sequence (E : env) (historical_data : pyval)
    : pyval :=
  try_except
    (avg_temp <- avg_temperature E historical_data ;;
     let predictions := map (trend_entry E avg_temp) (seq 1 24) in
     Ok (PDict [("predictions", PList predictions);
                ("confidence", PNum 0.6)]))
    (fun e => PDict [("error", PStr (str_exn E e))]).

(** The body of the loop of [_generate_recommendations]. *)
Definition recommend_entry (recommendations : list string)
    (item : string * pyval) : result (list string) :=
  let '(threat_type, threat_data) := item in
  match threat_data with
  | PDict d =>
      if negb (dict_has d "error") then
        if String.eqb threat_type "storm_surge" then
          surge_height <- py_get threat_data "surge_height" (PNum 0) ;;
          above <- py_gt_float surge_height 1.0 ;;
          if above then
            Ok (recommendations
                ++ ["Issue storm surge warning - evacuate low-lying areas"])
          else
            above <- py_gt_float surge_height 0.5 ;;
            if above then
              Ok (recommendations ++ ["Monitor coastal conditions closely"])
            else Ok recommendations
        else if String.eqb threat_type "coastal_erosion" then
          risk_level <- py_get threat_data "risk_level" (PStr "low") ;;
          if py_in_strs risk_level ["high"; "critical"] then
            Ok (recommendations
                ++ ["Implement emergency coastal protection measures"])
          else Ok recommendations
        else if String.eqb threat_type "blue_carbon" then
          threat_level <- py_get threat_data "threat_level" (PStr "minimal") ;;
          if py_in_strs threat_level ["significant"; "severe"] then
            Ok (recommendations
                ++ ["Activate blue carbon ecosystem protection protocols"])
          else Ok recommendations
        else Ok recommendations
      else Ok recommendations
  | _ => Ok recommendations
  end.

(** [_generate_recommendations(self, threats)] *)
Definition _generate_recommendations (threats : dict)
    : result (list string) :=
  recommendations <- for_each threats recommend_entry [] ;;
  match recommendations with
  | [] => Ok (recommendations ++ ["Continue routine monitoring"])
  | _ => Ok recommendations
  end.

(** [comprehensive_threat_analysis(self, input_data)] *)
Definition comprehensive_threat_analysis (E : env) (input_data : dict)
    : dict :=
  analysis E (predict_storm_surge E) (predict_coastal_erosion E)
    (predict_blue_carbon_threat E) (predict_weather_sequence E)
    _generate_recommendations 0.7%Q input_data.

(** [comprehensive_threat_analysis(self, input_data)] on an [input_data]
    of any type *)
Definition comprehensive_threat_analysis_of (E : env) (input_data : pyval)
    : dict :=
  analysis_of E (predict_storm_surge E) (predict_coastal_erosion E)
    (predict_blue_carbon_threat E) (predict_weather_sequence E)
    _generate_recommendations 0.7%Q input_data.

End AiServiceSimple.

(** ** The specification's vocabulary

    Definitions that follow the words of the specification; the theorems
    below compare the embedded code against them. *)

Module Spec.

(** Section 4.2: the base value, 100 when the entry is absent; defined when
    that value is a number. *)
Definition carbon_storage (ecosystem : dict) : option Q :=
  match dict_get ecosystem "carbon_storage" with
  | None => Some 100%Q
  | Some v => as_number v
  end.

(** Section 4.2: the loss rate of a threat label, as the float it is. *)
Definition rate (label : pyval) : float :=
  match label with
  | PStr s =>
      if String.eqb s "minimal" then 0.05%float
      else if String.eqb s "moderate" then 0.15%float
      else if String.eqb s "significant" then 0.35%float
      else if String.eqb s "severe" then 0.60%float
      else 0.25%float
  | _ => 0.25%float
  end.

(** Section 4.2: the base value, 100 when the entry is absent. *)
Definition base_carbon (ecosystem : dict) : pyval :=
  match dict_get ecosystem "carbon_storage" with
  | Some v => v
  | None => PNum 100
  end.

(** Section 3: the rank of a label in either vocabulary, 2 when the label
    is not recognized. *)
Definition rank (label : pyval) : Z :=
  match label with
  | PStr s =>
      if String.eqb s "low" || String.eqb s "minimal" then 1
      else if String.eqb s "medium" || String.eqb s "moderate" then 2
      else if String.eqb s "high" || String.eqb s "significant" then 3
      else if String.eqb s "critical" || String.eqb s "severe" then 4
      else 2
  | _ => 2
  end%Z.

(** Section 7: a result that carries an [error] key. *)
Definition carries_error (result : pyval) : bool :=
  match result with
  | PDict d => dict_has d "error"
  | _ => false
  end.

(** A result that takes part in aggregation: a mapping without [error]. *)
Definition usable (result : pyval) : option dict :=
  match result with
  | PDict d => if dict_has d "error" then None else Some d
  | _ => None
  end.

(** Section 4.3: the ordinal label of a result, [risk_level] preferred. *)
Definition label_of (d : dict) : option pyval :=
  match dict_get d "risk_level" with
  | Some l => Some l
  | None => dict_get d "threat_level"
  end.

(** Section 4.3: the ranks collected from a mapping, in iteration order. *)
Definition ranks_of_entry (item : string * pyval) : list Z :=
  match usable (snd item) with
  | Some d =>
      match label_of d with
      | Some l => [rank l]
      | None => []
      end
  | None => []
  end.

Definition ranks (threats : dict) : list Z := flat_map ranks_of_entry threats.

(** Labels are ordinal values: a label that is a list or a mapping is not
    one, and the rank table cannot be asked about it. *)
Definition label_typed_entry (item : string * pyval) : bool :=
  match usable (snd item) with
  | Some d =>
      match label_of d with
      | Some l => hashable l
      | None => true
      end
  | None => true
  end.

Definition labels_typed (threats : dict) : bool :=
  forallb label_typed_entry threats.

Definition sum (l : list Z) : Z := fold_right Z.add 0%Z l.

(** The arithmetic mean of a list of ranks. *)
Definition mean (l : list Z) : Q :=
  (inject_Z (sum l) / inject_Z (Z.of_nat (List.length l)))%Q.

(** Section 4.3: the label of a mean rank. *)
Definition classify_mean (m : Q) : string :=
  if Qltb m 1.5 then "low"
  else if Qltb m 2.5 then "medium"
  else if Qltb m 3.5 then "high"
  else "critical".

(** The order low < medium < high < critical of the overall labels. *)
Definition level_index (label : string) : option nat :=
  if String.eqb label "low" then Some 1%nat
  else if String.eqb label "medium" then Some 2%nat
  else if String.eqb label "high" then Some 3%nat
  else if String.eqb label "critical" then Some 4%nat
  else None.

Definition level_le (a b : string) : Prop :=
  exists i j, level_index a = Some i /\ level_index b = Some j /\ (i <= j)%nat.

(** Section 4.4: the surge height of a storm-surge result, 0 when absent;
    defined when that value is a number. *)
Definition surge_height (d : dict) : option Q :=
  match dict_get d "surge_height" with
  | None => Some 0%Q
  | Some v => as_number v
  end.

Definition in_category (category : string) (item : string * pyval)
    : option dict :=
  if String.eqb (fst item) category then usable (snd item) else None.

(** Section 4.4, storm_surge: [surge_height > 1.0]. *)
Definition warning_fires (item : string * pyval) : bool :=
  match in_category "storm_surge" item with
  | Some d =>
      match surge_height d with
      | Some h => Qltb 1.0 h
      | None => false
      end
  | None => false
  end.

(** Section 4.4, storm_surge: [0.5 < surge_height <= 1.0]. *)
Definition monitor_fires (item : string * pyval) : bool :=
  match in_category "storm_surge" item with
  | Some d =>
      match surge_height d with
      | Some h => Qltb 0.5 h && Qle_bool h 1.0
      | None => false
      end
  | None => false
  end.

(** Section 4.4, coastal_erosion: [risk_level] in {high, critical}. *)
Definition protection_fires (item : string * pyval) : bool :=
  match in_category "coastal_erosion" item with
  | Some d =>
      match dict_get d "risk_level" with
      | Some (PStr l) => String.eqb l "high" || String.eqb l "critical"
      | _ => false
      end
  | None => false
  end.

(** Section 4.4, blue_carbon: [threat_level] in {significant, severe}. *)
Definition protocol_fires (item : string * pyval) : bool :=
  match in_category "blue_carbon" item with
  | Some d =>
      match dict_get d "threat_level" with
      | Some (PStr l) => String.eqb l "significant" || String.eqb l "severe"
      | _ => false
      end
  | None => false
  end.

Definition rule_fires (item : string * pyval) : bool :=
  warning_fires item || monitor_fires item
  || protection_fires item || protocol_fires item.

(** The rules for which [ai_service.py] appends a second string. *)
Definition escalation_fires (item : string * pyval) : bool :=
  warning_fires item || protection_fires item || protocol_fires item.

(** The fixed strings of a variant: what a storm-surge warning, a coastal
    protection and a blue-carbon protocol rule append. *)
Record wording : Type := mkWording {
  warning : list string;
  protection : list string;
  protocol : list string
}.

Definition monitor : string := "Monitor coastal conditions closely".
Definition fallback : string := "Continue routine monitoring".

Definition full_wording : wording :=
  {| warning := ["Issue storm surge warning - evacuate low-lying areas";
                 "Deploy emergency response teams"];
     protection := ["Implement emergency coastal protection measures";
                    "Restrict beach access in high-risk areas"];
     protocol := ["Activate blue carbon ecosystem protection protocols";
                  "Deploy rapid response conservation team"] |}.

Definition simple_wording : wording :=
  {| warning := ["Issue storm surge warning - evacuate low-lying areas"];
     protection := ["Implement emergency coastal protection measures"];
     protocol := ["Activate blue carbon ecosystem protection protocols"] |}.

(** Section 4.4: what one category contributes, each rule on its own. *)
Definition recommendations_of_entry (w : wording) (item : string * pyval)
    : list string :=
  (if warning_fires item then warning w else [])
  ++ (if monitor_fires item then [monitor] else [])
  ++ (if protection_fires item then protection w else [])
  ++ (if protocol_fires item then protocol w else []).

(** Section 4.4, ordering: the contributions in iteration order. *)
Definition recommendations (w : wording) (threats : dict) : list string :=
  flat_map (recommendations_of_entry w) threats.

(** Section 3: [surge_height] is numeric wherever the generator reads it. *)
Definition surge_typed_entry (item : string * pyval) : bool :=
  match in_category "storm_surge" item with
  | Some d =>
      match surge_height d with
      | Some _ => true
      | None => false
      end
  | None => true
  end.

Definition surge_typed (threats : dict) : bool :=
  forallb surge_typed_entry threats.

(** A wording in which every rule says something. *)
Definition speaks (w : wording) : Prop :=
  warning w <> [] /\ protection w <> [] /\ protocol w <> [].

(** Section 8, partial failure: the blue-carbon model is not available, or
    raises whatever feature row it is given. *)
Definition blue_carbon_fails (E : env) : Prop :=
  match blue_carbon_threat E with
  | None => True
  | Some model => forall features, exists e, predict model features = Raise e
  end.

(** Section 8, partial failure: the analysis whose only result is an
    error-carrying blue-carbon result. *)
Definition degraded (results : dict) : Prop :=
  (exists msg,
      dict_get results "threats"
      = Some (PDict [("blue_carbon",
                      PDict [("error", PStr msg);
                             ("threat_level", PStr "unknown")])]))
  /\ dict_get results "overall_risk" = Some (PStr "unknown")
  /\ dict_has results "error" = false.

(** A deployment whose blue-carbon model raises on every request and whose
    other models are missing. *)
Definition failing_deployment : env :=
  {| now_iso := "2025-01-01T00:00:00";
     hour_iso := fun i => "2025-01-01T00:00:00";
     str_exn := fun e =>
       match e with
       | TypeError => "TypeError"
       | AttributeError => "AttributeError"
       | OverflowError => "OverflowError"
       | External msg => msg
       end;
     models_loaded := true;
     storm_surge := None;
     coastal_erosion := None;
     blue_carbon_threat :=
       Some {| predict_proba := Some (fun _ => Ok [0.7; 0.1; 0.1; 0.1]%Q);
               predict := fun _ => Raise (External "model is not fitted") |};
     weather_prediction := None;
     avg_temperature := fun _ => Ok 25%Q;
     np_random := fun _ => 0.5%Q;
     np_sin_cycle := fun _ => 0%Q |}.

(** Section 4.5: the two shapes of a weather forecast, an error or the
    predictions with their confidence. Neither has a label. *)
Definition forecast_shaped (v : pyval) : Prop :=
  (exists msg, v = PDict [("error", PStr msg)])
  \/ (exists predictions c,
         v = PDict [("predictions", predictions); ("confidence", PNum c)]).

(** Two analyses that differ in the [weather_forecast] entry of [threats]
    at most, the first one having it. The [timestamp] is the clock's. *)
Definition same_but_forecast (with_history without_history : dict) : Prop :=
  (forall key,
      In key ["overall_risk"; "recommendations"; "confidence"; "error"] ->
      dict_get with_history key = dict_get without_history key)
  /\ exists threats threats',
      dict_get with_history "threats" = Some (PDict threats)
      /\ dict_get without_history "threats" = Some (PDict threats')
      /\ dict_remove threats "weather_forecast" = threats'.

(** The mapping without its error-carrying entries. *)
Definition without_errors (threats : dict) : dict :=
  filter (fun item => negb (carries_error (snd item))) threats.

End Spec.

(** ** [ai_service_simple.py], lines 228-233: the recent average

    The first statements of [predict_weather_sequence] of the simplified
    service, which the environment field [avg_temperature] stands for. *)

Module History.

(** [bool(v)] *)
Definition py_truthy (v : pyval) : bool :=
  match v with
  | PNone => false
  | PBool b => b
  | PNum q => negb (Qeq_bool q 0)
  | PStr s => negb (String.eqb s "")
  | PList [] => false
  | PList (_ :: _) => true
  | PDict [] => false
  | PDict (_ :: _) => true
  end.

(** [l[-n:]] *)
Definition last_n {A : Type} (n : nat) (l : list A) : list A :=
  skipn (List.length l - n) l.

Definition default_history : list pyval :=
  [PDict [("temperature", PNum 25); ("pressure", PNum 1013);
          ("wind_speed", PNum 10)]].

(** One step of [sum(d.get('temperature', 25) for d in recent_data)] *)
Definition add_temperature (total : Q) (d : pyval) : result Q :=
  temperature <- py_get d "temperature" (PNum 25) ;;
  match as_number temperature with
  | Some t => Ok (total + t)%Q
  | None => Raise TypeError
  end.

(** [sum(...) / len(recent_data)] over a list *)
Definition average_of (recent_data : list pyval) : result Q :=
  total <- for_each recent_data add_temperature 0%Q ;;
  Ok (total / inject_Z (Z.of_nat (List.length recent_data)))%Q.

(** The average that the forecast starts from. A number or [True] has no
    [len]; the characters of a string and the keys of a mapping have no
    [get]; a mapping cannot be sliced ([TypeError] or [KeyError], by the
    version of the interpreter). *)
Definition recent_average (historical_data : pyval) : result Q :=
  if negb (py_truthy historical_data) then average_of default_history
  else
    match historical_data with
    | PList l =>
        average_of (if Nat.leb 24 (List.length l) then last_n 24 l else l)
    | PStr _ => Raise AttributeError
    | PDict d =>
        if Nat.leb 24 (List.length d)
        then Raise (External "a dict cannot be sliced")
        else Raise AttributeError
    | _ => Raise TypeError
    end.

End History.

(** ** [train_models.py] and [train_models_simple.py]: the labels of the
    synthetic training data

    Both trainers label the rows they draw in the same way. The random
    columns are the argument; the labels are computed from them, the
    scores in [numpy]'s [float64] arithmetic, which is that of IEEE 754
    doubles. *)

Module Trainer.






(** One row of the columns drawn by [_generate_blue_carbon_data], all of
    them [float64]. *)
Record carbon_draw : Type := mkCarbonDraw {
  water_quality : float;
  pollution_levels : float;
  human_activity : float;
  climate_factors : float;
  biodiversity_index : float
}.

Definition threat_score (r : carbon_draw) : float :=
  ((100 - water_quality r) / 100 + pollution_levels r / 5
   + human_activity r / 10 + abs (climate_factors r)
   + (100 - biodiversity_index r) / 100)%float.

(** The body of [for score in threat_scores] *)
Definition threat_category (score : float) : string :=
  if (score <? 1.5)%float then "minimal"
  else if (score <? 2.5)%float then "moderate"
  else if (score <? 3.5)%float then "significant"
  else "severe".

(** [_generate_blue_carbon_data], after the draws: the column
    [threat_category] beside the drawn ones. *)
Definition _generate_blue_carbon_data (draws : list carbon_draw)
    : list (carbon_draw * string) :=
  map (fun r => (r, threat_category (threat_score r))) draws.

End Trainer.

(** ** Further vocabulary

    Predicates used by the properties of the code beyond the
    specification's sentences. *)

Module Shape.

(** The first string of each rule, which is all the simplified generator
    appends for it. *)
Definition primary (s : string) : bool :=
  existsb (String.eqb s)
    (Spec.warning Spec.simple_wording ++ [Spec.monitor]
     ++ Spec.protection Spec.simple_wording
     ++ Spec.protocol Spec.simple_wording).

(** Text without a byte above 127, on which [lower] is [str.lower]. *)
Definition is_ascii (s : string) : bool :=
  forallb (fun c => Nat.ltb (nat_of_ascii c) 128) (list_ascii_of_string s).

(** The wind speed that the storm-surge confidence reads, 10 when absent;
    defined when that value is a number. *)
Definition wind_speed (weather : dict) : option Q :=
  match dict_get weather "wind_speed" with
  | None => Some 10%Q
  | Some v => as_number v
  end.

(** The result of a storm-surge prediction that did not fail. *)
Definition surge_result (height confidence : Q) : pyval :=
  PDict [("surge_height", PNum height); ("confidence", PNum confidence);
         ("risk_level", PStr (_categorize_surge_risk height))].

(** The input sections and the category each one fills, in the order in
    which [comprehensive_threat_analysis] looks at them. *)
Definition categories : list (string * string) :=
  [("weather", "storm_surge"); ("coastal", "coastal_erosion");
   ("ecosystem", "blue_carbon"); ("historical_weather", "weather_forecast")].

(** What one section of the input contributes to [threats]. *)
Definition entry (input_data : dict) (section key : string)
    (predictor : pyval -> pyval) : dict :=
  match dict_get input_data section with
  | Some data => [(key, predictor data)]
  | None => []
  end.

Definition present_categories (input_data : dict) : list string :=
  map snd (filter (fun sk => dict_has input_data (fst sk)) categories).

(** A body that is not a mapping and stops the analysis: one that cannot
    be searched, or one in which the name of a section is found. *)
Definition stops_analysis (body : pyval) : bool :=
  match body with
  | PDict _ => false
  | PList l =>
      existsb (fun section => existsb (fun v => py_eq_str v section) l)
        (map fst categories)
  | PStr s =>
      existsb (fun section => str_contains s section)
        (map fst categories)
  | _ => true
  end.

(** A coastal-erosion model whose labels are hashable, as the elements of
    a one-dimensional prediction are. *)
Definition erosion_labels_hashable (E : env) : Prop :=
  match coastal_erosion E with
  | Some model =>
      forall features l, predict model features = Ok l -> hashable l = true
  | None => True
  end.

(** Classifiers that answer with class numbers, as models fitted on
    label-encoded targets do. *)
Definition answers_in_numbers (model : option classifier) : Prop :=
  match model with
  | Some m =>
      forall features l, predict m features = Ok l -> exists n, l = PNum n
  | None => True
  end.

(** What a classifier's result looks like: an error with the sentinel
    label, or the label that the model predicted, first among the keys. *)
Definition labelled_result (model : option classifier) (key : string)
    (r : pyval) : Prop :=
  (exists msg, r = PDict [("error", PStr msg); (key, PStr "unknown")])
  \/ (exists m features l rest,
         model = Some m /\ predict m features = Ok l
         /\ r = PDict ((key, l) :: rest)
         /\ dict_get rest "error" = None
         /\ dict_get rest "risk_level" = None
         /\ dict_get rest "threat_level" = None).

(** An entry from which neither classifier rule draws a recommendation. *)
Definition classifiers_quiet (item : string * pyval) : bool :=
  negb (Spec.protection_fires item) && negb (Spec.protocol_fires item).

(** The entry of hour [i] of a forecast. *)
Definition forecast_entry (E : env) (i : nat) (temperature : Q) : pyval :=
  PDict [("timestamp", PStr (hour_iso E i));
         ("temperature", PNum temperature);
         ("hour_offset", PNum (inject_Z (Z.of_nat i)))].

(** An entry that gives the aggregator no rank and the generators no
    recommendation, and stops neither. *)
Definition inert (item : string * pyval) : bool :=
  match Spec.ranks_of_entry item with [] => true | _ => false end
  && Spec.label_typed_entry item
  && Spec.surge_typed_entry item
  && negb (Spec.rule_fires item).

(** The five values of [overall_risk] that an aggregation can give. *)
Definition overall_labels : list string :=
  ["unknown"; "low"; "medium"; "high"; "critical"].

(** The strings that the storm-surge rules and the fallback can give. *)
Definition surge_vocabulary : list string :=
  ["Issue storm surge warning - evacuate low-lying areas";
   "Deploy emergency response teams";
   "Monitor coastal conditions closely";
   "Continue routine monitoring"].

(** An analysis that ran to its end: no top-level [error], a list of
    recommendations, and an [overall_risk] among the five labels. *)
Definition completed (results : dict) : Prop :=
  dict_has results "error" = false
  /\ (exists recs,
         dict_get results "recommendations" = Some (PList (map PStr recs)))
  /\ exists level,
      dict_get results "overall_risk" = Some (PStr level)
      /\ In level overall_labels.

Definition str_of_exn (e : exn) : string :=
  match e with
  | TypeError => "TypeError"
  | AttributeError => "AttributeError"
  | OverflowError => "OverflowError"
  | External msg => msg
  end.

(** A deployment for examples: every model is loaded; the classifiers
    answer with the class number 2, the surge model with 1.2 metres. *)
Definition encoded_deployment : env :=
  {| now_iso := "2025-01-01T00:00:00";
     hour_iso := fun i => "2025-01-01T00:00:00";
     str_exn := str_of_exn;
     models_loaded := true;
     storm_surge := Some (fun _ => Ok 1.2%Q);
     coastal_erosion :=
       Some {| predict_proba := Some (fun _ => Ok [0.1; 0.2; 0.6; 0.1]%Q);
               predict := fun _ => Ok (PNum 2) |};
     blue_carbon_threat :=
       Some {| predict_proba := Some (fun _ => Ok [0.1; 0.1; 0.1; 0.7]%Q);
               predict := fun _ => Ok (PNum 3) |};
     weather_prediction := Some (fun _ => Ok [24.5; 25.0; 25.5]%Q);
     avg_temperature := fun _ => Ok 25%Q;
     np_random := fun _ => 0.5%Q;
     np_sin_cycle := fun _ => 0%Q |}.

(** A deployment whose coastal-erosion model predicts several outputs at
    once, so that its first prediction is an array. *)
Definition multi_output_deployment : env :=
  {| now_iso := "2025-01-01T00:00:00";
     hour_iso := fun i => "2025-01-01T00:00:00";
     str_exn := str_of_exn;
     models_loaded := true;
     storm_surge := None;
     coastal_erosion :=
       Some {| predict_proba := Some (fun _ => Ok [0.1; 0.2; 0.6; 0.1]%Q);
               predict := fun _ => Ok (PList [PStr "high"; PStr "low"]) |};
     blue_carbon_threat := None;
     weather_prediction := None;
     avg_temperature := fun _ => Ok 25%Q;
     np_random := fun _ => 0.5%Q;
     np_sin_cycle := fun _ => 0%Q |}.

(** A deployment whose coastal-erosion model has no [predict_proba], as a
    regressor or a linear support-vector classifier has none. *)
Definition plain_deployment : env :=
  {| now_iso := "2025-01-01T00:00:00";
     hour_iso := fun i => "2025-01-01T00:00:00";
     str_exn := str_of_exn;
     models_loaded := true;
     storm_surge := None;
     coastal_erosion :=
       Some {| predict_proba := None;
               predict := fun _ => Ok (PStr "high") |};
     blue_carbon_threat := None;
     weather_prediction := None;
     avg_temperature := fun _ => Ok 25%Q;
     np_random := fun _ => 0.5%Q;
     np_sin_cycle := fun _ => 0%Q |}.

End Shape.

(** ** Comparisons of rationals *)

Lemma Qltb_lt (x y : Q) : Qltb x y = true <-> (x < y)%Q.
Proof.
  unfold Qltb. rewrite negb_true_iff, <- not_true_iff_false, Qle_bool_iff.
  split; [apply Qnot_le_lt | apply Qlt_not_le].
Qed.

Lemma Qltb_ge (x y : Q) : Qltb x y = false <-> (y <= x)%Q.
Proof.
  unfold Qltb. rewrite negb_false_iff. apply Qle_bool_iff.
Qed.

Lemma Qltb_spec (x y : Q) : BoolSpec (x < y)%Q (y <= x)%Q (Qltb x y).
Proof.
  destruct (Qltb x y) eqn:H; constructor;
    [apply Qltb_lt | apply Qltb_ge]; exact H.
Qed.

(** ** The risk categorizer *)

Section Categorizer.

Ltac split_thresholds x :=
  unfold _categorize_surge_risk;
  destruct (Qltb_spec x 0.5); destruct (Qltb_spec x 1.0);
  destruct (Qltb_spec x 2.0).

(** C2. [_categorize_surge_risk] is a function on all rationals (so it has
    no failure mode) and its four labels are the four half-open intervals:
    "low" exactly below 0.5, which includes every negative input, "medium"
    exactly on [0.5, 1.0), "high" exactly on [1.0, 2.0), "critical" exactly
    from 2.0 on; 0.5 is "medium", 0.999 is "medium", 1.0 is "high" and 2.5
    is "critical". *)
Theorem categorize_surge_risk_intervals :
  (forall x : Q,
      (_categorize_surge_risk x = "low" <-> x < 0.5)
      /\ (_categorize_surge_risk x = "medium" <-> 0.5 <= x /\ x < 1.0)
      /\ (_categorize_surge_risk x = "high" <-> 1.0 <= x /\ x < 2.0)
      /\ (_categorize_surge_risk x = "critical" <-> 2.0 <= x))%Q
  /\ (forall x : Q, x < 0 -> _categorize_surge_risk x = "low")%Q
  /\ _categorize_surge_risk 0.5 = "medium"
  /\ _categorize_surge_risk 0.999 = "medium"
  /\ _categorize_surge_risk 1.0 = "high"
  /\ _categorize_surge_risk 2.5 = "critical".
Proof.
  split; [| split; [| repeat split]].
  - intros x. split_thresholds x;
      repeat split; intros; try discriminate; try reflexivity;
      try lra; exfalso; lra.
  - intros x Hneg. split_thresholds x; try reflexivity; exfalso; lra.
Qed.

(** A negative surge height, as the unclamped model output can be. *)
Lemma categorize_surge_risk_intervals_witness :
  _categorize_surge_risk (-0.3) = "low".
Proof.
  apply (proj1 (proj2 categorize_surge_risk_intervals)). reflexivity.
Defined.

End Categorizer.

(** ** The carbon-loss estimator *)

Section CarbonLoss.

Lemma rate_lookup (t : pyval) :
  hashable t = true ->
  table_get Binary64.loss_multipliers t 0.25%float = Ok (Spec.rate t).
Proof.
  destruct t as [| b | q | s | l | d]; intros H;
    try discriminate H; try reflexivity.
  unfold table_get, Binary64.loss_multipliers, Spec.rate. cbn [find fst snd].
  rewrite (String.eqb_sym "minimal"), (String.eqb_sym "moderate"),
    (String.eqb_sym "significant"), (String.eqb_sym "severe").
  destruct (String.eqb s "minimal"); [reflexivity |].
  destruct (String.eqb s "moderate"); [reflexivity |].
  destruct (String.eqb s "significant"); [reflexivity |].
  destruct (String.eqb s "severe"); reflexivity.
Qed.

Lemma rate_lookup_unhashable (t : pyval) :
  hashable t = false ->
  table_get Binary64.loss_multipliers t 0.25%float = Raise TypeError.
Proof.
  destruct t; intros H; try discriminate H; reflexivity.
Qed.

(** What the estimator does on a mapping, for a label that the table can
    be asked about. *)
Lemma estimate_on_mapping64 (t : pyval) (eco : dict) :
  hashable t = true ->
  Binary64._estimate_carbon_loss t (PDict eco)
  = match Binary64.as_float (Spec.base_carbon eco) with
    | Ok c =>
        Ok {| Binary64.potential_loss_tons_co2 := (c * Spec.rate t)%float;
              Binary64.economic_value_usd := (c * Spec.rate t * 50)%float;
              Binary64.recovery_time_years := (c * Spec.rate t / 10)%float |}
    | Raise e => Raise e
    end.
Proof.
  intros H. unfold Binary64._estimate_carbon_loss, py_get, Spec.base_carbon.
  destruct (dict_get eco "carbon_storage") as [v |]; cbn [bind];
    rewrite (rate_lookup t H); cbn [bind];
    match goal with
    | |- context [Binary64.as_float ?x] => destruct (Binary64.as_float x)
    end; reflexivity.
Qed.

Lemma float_of_int_raises (n : Z) (e : exn) :
  Binary64.float_of_int n = Raise e -> e = OverflowError.
Proof.
  unfold Binary64.float_of_int.
  destruct (binary_normalize prec emax n 0 false); intros H;
    try discriminate H.
  now injection H as <-.
Qed.

(** A value is a number, and then converts unless it is an integer beyond
    the doubles, or it is not a number. *)
Lemma as_float_outcomes (v : pyval) :
  match as_number v with
  | Some q =>
      (exists c, Binary64.as_float v = Ok c)
      \/ (Binary64.as_float v = Raise OverflowError
          /\ exists n, v = PNum q /\ (q == inject_Z n)%Q
                       /\ Binary64.float_of_int n = Raise OverflowError)
  | None => Binary64.as_float v = Raise TypeError
  end.
Proof.
  destruct v as [| [|] | q | s | l | d]; cbn [as_number Binary64.as_float];
    try reflexivity; try (left; eexists; reflexivity).
  destruct (Binary64.is_integer q) eqn:Hint; [| left; eexists; reflexivity].
  assert (Hq : (q == inject_Z (Qnum q / Z.pos (Qden q)))%Q).
  { unfold Binary64.is_integer in Hint. apply Z.eqb_eq in Hint.
    unfold Qeq, inject_Z. cbn [Qnum Qden].
    rewrite Z.mul_1_r.
    rewrite (Z.div_mod (Qnum q) (Z.pos (Qden q))) at 1 by discriminate.
    rewrite Hint. ring. }
  destruct (Binary64.float_of_int (Qnum q / Z.pos (Qden q))) as [c | e]
    eqn:Hf; [left; eexists; reflexivity |].
  pose proof (float_of_int_raises _ e Hf) as He. subst e.
  right. split; [reflexivity |].
  exists (Qnum q / Z.pos (Qden q))%Z. split; [reflexivity |].
  split; [exact Hq | exact Hf].
Qed.

(** C4, as the code has it. For every hashable threat label [t] and every
    ecosystem mapping whose [carbon_storage], taken to be 100 when the key
    is absent, converts to the float [c], [_estimate_carbon_loss] returns
    the three fields [potential_loss_tons_co2 = c * rate t], with [rate]
    the table minimal 0.05, moderate 0.15, significant 0.35, severe 0.60
    and 0.25 for any other label, [economic_value_usd = potential_loss *
    50] and [recovery_time_years = potential_loss / 10], each product and
    quotient being the float one. *)
Theorem estimate_carbon_loss_formula (t : pyval) (eco : dict) (c : float) :
  hashable t = true ->
  Binary64.as_float (Spec.base_carbon eco) = Ok c ->
  exists r,
    Binary64._estimate_carbon_loss t (PDict eco) = Ok r
    /\ Binary64.potential_loss_tons_co2 r = (c * Spec.rate t)%float
    /\ Binary64.economic_value_usd r
       = (Binary64.potential_loss_tons_co2 r * 50)%float
    /\ Binary64.recovery_time_years r
       = (Binary64.potential_loss_tons_co2 r / 10)%float.
Proof.
  intros H Hc. rewrite (estimate_on_mapping64 t eco H), Hc.
  eexists. split; [reflexivity |]. repeat split.
Qed.

(** "severe" over a stored 100 gives (60.0, 3000.0, 6.0) and a label
    outside the table over a stored 100 gives 25.0; "significant" over a
    stored 3 gives the float product 1.0499999999999998. *)
Lemma estimate_carbon_loss_formula_witness :
  (exists r,
      Binary64._estimate_carbon_loss (PStr "severe")
        (PDict [("carbon_storage", PNum 100)]) = Ok r
      /\ Binary64.potential_loss_tons_co2 r = 60.0%float
      /\ Binary64.economic_value_usd r = 3000.0%float
      /\ Binary64.recovery_time_years r = 6.0%float)
  /\ (exists r,
         Binary64._estimate_carbon_loss (PStr "catastrophic")
           (PDict [("carbon_storage", PNum 100)]) = Ok r
         /\ Binary64.potential_loss_tons_co2 r = 25.0%float)
  /\ (exists r,
         Binary64._estimate_carbon_loss (PStr "significant")
           (PDict [("carbon_storage", PNum 3)]) = Ok r
         /\ Binary64.potential_loss_tons_co2 r = 1.0499999999999998%float).
Proof.
  split; [| split].
  - destruct (estimate_carbon_loss_formula (PStr "severe")
                [("carbon_storage", PNum 100)] 100%float eq_refl eq_refl)
      as (r & Hr & Hp & He & Hy).
    exists r. split; [exact Hr |].
    rewrite Hy, He, Hp. repeat split; reflexivity.
  - destruct (estimate_carbon_loss_formula (PStr "catastrophic")
                [("carbon_storage", PNum 100)] 100%float eq_refl eq_refl)
      as (r & Hr & Hp & _).
    exists r. split; [exact Hr |]. rewrite Hp. reflexivity.
  - destruct (estimate_carbon_loss_formula (PStr "significant")
                [("carbon_storage", PNum 3)] 3%float eq_refl eq_refl)
      as (r & Hr & Hp & _).
    exists r. split; [exact Hr |]. rewrite Hp. reflexivity.
Defined.

(** C4, as stated, fails: an [int] beyond the range of a [float] is an
    ecosystem input for which the product raises, so that no field is
    returned. *)
Lemma estimate_carbon_loss_overflows :
  as_number (PNum (inject_Z (10 ^ 400))) = Some (inject_Z (10 ^ 400))
  /\ Binary64._estimate_carbon_loss (PStr "severe")
       (PDict [("carbon_storage", PNum (inject_Z (10 ^ 400)))])
     = Raise OverflowError
  /\ ~ (exists r,
           Binary64._estimate_carbon_loss (PStr "severe")
             (PDict [("carbon_storage", PNum (inject_Z (10 ^ 400)))])
           = Ok r).
Proof.
  assert (H : Binary64._estimate_carbon_loss (PStr "severe")
                (PDict [("carbon_storage", PNum (inject_Z (10 ^ 400)))])
              = Raise OverflowError) by (vm_compute; reflexivity).
  split; [reflexivity |]. split; [exact H |].
  intros (r & Hr). rewrite H in Hr. discriminate Hr.
Qed.

(** C9, as the code has it. On an ecosystem mapping and for a hashable
    label, the estimator returns its three fields when [carbon_storage] is
    missing, with the base value 100, and when it is a number that
    converts to a float, with that float. A [carbon_storage] that is
    present and not a number is not replaced by the default: the
    multiplication raises [TypeError]. A number either converts or is an
    integer beyond the range of a float, for which the multiplication
    raises [OverflowError]. *)
Theorem estimate_carbon_loss_total_on_numbers (t : pyval) (eco : dict) :
  hashable t = true ->
  (dict_get eco "carbon_storage" = None ->
   exists r,
     Binary64._estimate_carbon_loss t (PDict eco) = Ok r
     /\ Binary64.potential_loss_tons_co2 r = (100 * Spec.rate t)%float)
  /\ (forall v c,
         dict_get eco "carbon_storage" = Some v ->
         Binary64.as_float v = Ok c ->
         exists r,
           Binary64._estimate_carbon_loss t (PDict eco) = Ok r
           /\ Binary64.potential_loss_tons_co2 r = (c * Spec.rate t)%float)
  /\ (forall v,
         dict_get eco "carbon_storage" = Some v -> as_number v = None ->
         Binary64._estimate_carbon_loss t (PDict eco) = Raise TypeError)
  /\ (forall v q,
         dict_get eco "carbon_storage" = Some v -> as_number v = Some q ->
         (exists r, Binary64._estimate_carbon_loss t (PDict eco) = Ok r)
         \/ (Binary64._estimate_carbon_loss t (PDict eco)
             = Raise OverflowError
             /\ exists n,
                 v = PNum q /\ (q == inject_Z n)%Q
                 /\ Binary64.float_of_int n = Raise OverflowError)).
Proof.
  intros H. rewrite (estimate_on_mapping64 t eco H). unfold Spec.base_carbon.
  split; [| split; [| split]].
  - intros ->. eexists. split; reflexivity.
  - intros v c -> ->. eexists. split; reflexivity.
  - intros v -> Hnum. pose proof (as_float_outcomes v) as Hv.
    rewrite Hnum in Hv. now rewrite Hv.
  - intros v q -> Hnum. pose proof (as_float_outcomes v) as Hv.
    rewrite Hnum in Hv. destruct Hv as [(c & ->) | (-> & Hn)].
    + left. eexists. reflexivity.
    + right. split; [reflexivity | exact Hn].
Qed.

(** A mapping without the entry, a stored number, a stored [None] and a
    stored 10^400. *)
Lemma estimate_carbon_loss_total_on_numbers_witness :
  (exists r,
      Binary64._estimate_carbon_loss (PStr "moderate")
        (PDict [("water_quality", PNum 60)]) = Ok r
      /\ Binary64.potential_loss_tons_co2 r = 15%float)
  /\ (exists r,
         Binary64._estimate_carbon_loss (PNum 2)
           (PDict [("carbon_storage", PNum 80.5)]) = Ok r
         /\ Binary64.potential_loss_tons_co2 r = 20.125%float)
  /\ Binary64._estimate_carbon_loss (PStr "moderate")
       (PDict [("carbon_storage", PNone)]) = Raise TypeError.
Proof.
  split; [| split].
  - destruct (proj1 (estimate_carbon_loss_total_on_numbers (PStr "moderate")
                       [("water_quality", PNum 60)] eq_refl) eq_refl)
      as (r & Hr & Hp).
    exists r. split; [exact Hr | rewrite Hp; reflexivity].
  - destruct (proj1 (proj2 (estimate_carbon_loss_total_on_numbers (PNum 2)
                              [("carbon_storage", PNum 80.5)] eq_refl))
                (PNum 80.5) 80.5%float eq_refl eq_refl)
      as (r & Hr & Hp).
    exists r. split; [exact Hr | rewrite Hp; reflexivity].
  - apply (proj1 (proj2 (proj2 (estimate_carbon_loss_total_on_numbers
                                  (PStr "moderate")
                                  [("carbon_storage", PNone)] eq_refl)))
             PNone); reflexivity.
Defined.

(** C9, as stated, fails: a [carbon_storage] that is a string is present
    and not a number, and the estimator returns no fields for it. *)
Lemma estimate_carbon_loss_non_numeric_raises :
  dict_get [("carbon_storage", PStr "unknown")] "carbon_storage"
  = Some (PStr "unknown")
  /\ as_number (PStr "unknown") = None
  /\ Binary64._estimate_carbon_loss (PStr "severe")
       (PDict [("carbon_storage", PStr "unknown")]) = Raise TypeError
  /\ ~ (exists r,
           Binary64._estimate_carbon_loss (PStr "severe")
             (PDict [("carbon_storage", PStr "unknown")]) = Ok r).
Proof.
  repeat split. intros (r & Hr). discriminate Hr.
Qed.

End CarbonLoss.

(** ** The overall-risk aggregator *)

Section OverallRisk.

Lemma rank_lookup (l : pyval) :
  hashable l = true -> table_get risk_scores l 2%Z = Ok (Spec.rank l).
Proof.
  destruct l as [| b | q | s | l | d]; intros H;
    try reflexivity; try discriminate H.
  unfold table_get, risk_scores, Spec.rank. cbn [find fst snd].
  rewrite (String.eqb_sym "low"), (String.eqb_sym "minimal"),
    (String.eqb_sym "medium"), (String.eqb_sym "moderate"),
    (String.eqb_sym "high"), (String.eqb_sym "significant"),
    (String.eqb_sym "critical"), (String.eqb_sym "severe").
  destruct (String.eqb s "low"); [reflexivity |].
  destruct (String.eqb s "minimal"); [reflexivity |].
  destruct (String.eqb s "medium"); [reflexivity |].
  destruct (String.eqb s "moderate"); [reflexivity |].
  destruct (String.eqb s "high"); [reflexivity |].
  destruct (String.eqb s "significant"); [reflexivity |].
  destruct (String.eqb s "critical"); [reflexivity |].
  destruct (String.eqb s "severe"); reflexivity.
Qed.

Lemma rank_lookup_unhashable (l : pyval) :
  hashable l = false -> table_get risk_scores l 2%Z = Raise TypeError.
Proof.
  destruct l; intros H; try discriminate H; reflexivity.
Qed.

(** One pass of the loop appends the ranks of the entry, or raises on a
    label that cannot be a key of the rank table. *)
Lemma score_entry_typed (scores : list Z) (item : string * pyval) :
  Spec.label_typed_entry item = true ->
  score_entry scores item = Ok (scores ++ Spec.ranks_of_entry item).
Proof.
  destruct item as [k v].
  unfold Spec.label_typed_entry, Spec.ranks_of_entry, Spec.usable,
    Spec.label_of, score_entry. cbn [snd].
  destruct v as [| b | q | s | l | d]; try (intros _; now rewrite app_nil_r).
  destruct (dict_has d "error"); cbn [negb];
    [intros _; now rewrite app_nil_r |].
  destruct (dict_get d "risk_level") as [l |].
  - intros H. now rewrite (rank_lookup l H).
  - destruct (dict_get d "threat_level") as [l |].
    + intros H. now rewrite (rank_lookup l H).
    + intros _. now rewrite app_nil_r.
Qed.

Lemma score_entry_untyped (scores : list Z) (item : string * pyval) :
  Spec.label_typed_entry item = false ->
  score_entry scores item = Raise TypeError.
Proof.
  destruct item as [k v].
  unfold Spec.label_typed_entry, Spec.usable, Spec.label_of, score_entry.
  cbn [snd].
  destruct v as [| b | q | s | l | d]; try discriminate.
  destruct (dict_has d "error"); cbn [negb]; [discriminate |].
  destruct (dict_get d "risk_level") as [l |].
  - intros H. now rewrite (rank_lookup_unhashable l H).
  - destruct (dict_get d "threat_level") as [l |]; [| discriminate].
    intros H. now rewrite (rank_lookup_unhashable l H).
Qed.

Lemma collect_scores_typed (threats : dict) :
  forall scores,
    Spec.labels_typed threats = true ->
    for_each threats score_entry scores = Ok (scores ++ Spec.ranks threats).
Proof.
  induction threats as [| item rest IH]; intros scores H.
  - cbn. now rewrite app_nil_r.
  - cbn [Spec.labels_typed forallb] in H.
    apply andb_true_iff in H. destruct H as [Hitem Hrest].
    cbn [for_each]. rewrite (score_entry_typed scores item Hitem).
    rewrite (IH _ Hrest).
    unfold Spec.ranks. cbn [flat_map]. now rewrite app_assoc.
Qed.

Lemma collect_scores_returns (threats : dict) :
  forall scores r,
    for_each threats score_entry scores = Ok r ->
    Spec.labels_typed threats = true.
Proof.
  induction threats as [| item rest IH]; intros scores r H.
  - reflexivity.
  - cbn [for_each] in H. cbn [Spec.labels_typed forallb].
    destruct (Spec.label_typed_entry item) eqn:Hitem.
    + rewrite (score_entry_typed scores item Hitem) in H.
      cbn [andb]. exact (IH _ _ H).
    + rewrite (score_entry_untyped scores item Hitem) in H. discriminate H.
Qed.

Lemma overall_risk_of_ranks (threats : dict) :
  Spec.labels_typed threats = true ->
  _calculate_overall_risk threats
  = Ok (match Spec.ranks threats with
        | [] => "unknown"
        | _ => Spec.classify_mean (Spec.mean (Spec.ranks threats))
        end).
Proof.
  intros H. unfold _calculate_overall_risk.
  rewrite (collect_scores_typed threats [] H). cbn [bind app].
  destruct (Spec.ranks threats) as [| r rs]; [reflexivity |].
  unfold Spec.classify_mean.
  change (np_mean (r :: rs)) with (Spec.mean (r :: rs)).
  destruct (Qltb (Spec.mean (r :: rs)) 1.5); [reflexivity |].
  destruct (Qltb (Spec.mean (r :: rs)) 2.5); [reflexivity |].
  destruct (Qltb (Spec.mean (r :: rs)) 3.5); reflexivity.
Qed.

Lemma classify_mean_bands (m : Q) :
  ((m < 1.5 -> Spec.classify_mean m = "low")
   /\ (1.5 <= m -> m < 2.5 -> Spec.classify_mean m = "medium")
   /\ (2.5 <= m -> m < 3.5 -> Spec.classify_mean m = "high")
   /\ (3.5 <= m -> Spec.classify_mean m = "critical"))%Q.
Proof.
  unfold Spec.classify_mean.
  destruct (Qltb_spec m 1.5); destruct (Qltb_spec m 2.5);
    destruct (Qltb_spec m 3.5);
    repeat split; intros; try reflexivity; exfalso; lra.
Qed.

(** C1. Over a mapping whose labels are ordinal values,
    [_calculate_overall_risk] collects one rank for every result without an
    [error] key that has a [risk_level] or else a [threat_level] field,
    with the shared rank table and rank 2 for a label outside it; it
    returns "unknown" when no rank is collected, and otherwise classifies
    the arithmetic mean of the ranks: "low" below 1.5, "medium" below 2.5,
    "high" below 3.5, "critical" from there on. *)
Theorem calculate_overall_risk_mean (threats : dict) :
  Spec.labels_typed threats = true ->
  exists label,
    _calculate_overall_risk threats = Ok label
    /\ (Spec.ranks threats = [] -> label = "unknown")
    /\ (Spec.ranks threats <> [] ->
        let m := Spec.mean (Spec.ranks threats) in
        (m < 1.5 -> label = "low")
        /\ (1.5 <= m -> m < 2.5 -> label = "medium")
        /\ (2.5 <= m -> m < 3.5 -> label = "high")
        /\ (3.5 <= m -> label = "critical"))%Q.
Proof.
  intros H. eexists. split; [apply (overall_risk_of_ranks threats H) |].
  destruct (Spec.ranks threats) as [| r rs].
  - split; [reflexivity | intros Hne; now elim Hne].
  - split; [discriminate |]. intros _. apply classify_mean_bands.
Qed.

(** Two results at "high" and one at "low": mean 7/3, "medium". *)
Lemma calculate_overall_risk_mean_witness :
  _calculate_overall_risk
    [("storm_surge", PDict [("surge_height", PNum 1.2);
                            ("risk_level", PStr "high")]);
     ("coastal_erosion", PDict [("risk_level", PStr "high")]);
     ("blue_carbon", PDict [("threat_level", PStr "low")])]
  = Ok "medium".
Proof.
  destruct (calculate_overall_risk_mean
              [("storm_surge", PDict [("surge_height", PNum 1.2);
                                      ("risk_level", PStr "high")]);
               ("coastal_erosion", PDict [("risk_level", PStr "high")]);
               ("blue_carbon", PDict [("threat_level", PStr "low")])]
              eq_refl) as (label & Hcalc & _ & Hmean).
  rewrite Hcalc. f_equal.
  apply (proj1 (proj2 (Hmean ltac:(discriminate)))).
  - vm_compute. discriminate.
  - vm_compute. reflexivity.
Defined.

Lemma sum_app (l1 l2 : list Z) :
  Spec.sum (l1 ++ l2) = (Spec.sum l1 + Spec.sum l2)%Z.
Proof.
  unfold Spec.sum.
  induction l1 as [| x l1 IH]; cbn [app fold_right]; [reflexivity |].
  rewrite IH. lia.
Qed.

Lemma sum_permutation (l1 l2 : list Z) :
  Permutation l1 l2 -> Spec.sum l1 = Spec.sum l2.
Proof.
  unfold Spec.sum.
  induction 1 as [| x l1 l2 _ IH | x y l | l1 l2 l3 _ IH1 _ IH2];
    cbn [fold_right].
  - reflexivity.
  - rewrite IH. reflexivity.
  - lia.
  - congruence.
Qed.

(** C3, as the code has it. Whenever the ranks collected from a mapping
    are 3, 3 and 1 in some order (labels high, high and low), the mean is
    7/3 and [_calculate_overall_risk] returns "medium". *)
Theorem calculate_overall_risk_high_high_low (threats : dict) :
  Spec.labels_typed threats = true ->
  Permutation (Spec.ranks threats) [3; 3; 1]%Z ->
  _calculate_overall_risk threats = Ok "medium".
Proof.
  intros Htyped Hperm.
  rewrite (overall_risk_of_ranks threats Htyped).
  pose proof (Permutation_length Hperm) as Hlen.
  pose proof (sum_permutation _ _ Hperm) as Hsum.
  destruct (Spec.ranks threats) as [| r rs]; [discriminate Hlen |].
  unfold Spec.mean. rewrite Hlen, Hsum. reflexivity.
Qed.

Lemma calculate_overall_risk_high_high_low_witness :
  _calculate_overall_risk
    [("blue_carbon", PDict [("threat_level", PStr "minimal")]);
     ("storm_surge", PDict [("risk_level", PStr "high")]);
     ("coastal_erosion", PDict [("risk_level", PStr "high")])]
  = Ok "medium".
Proof.
  apply calculate_overall_risk_high_high_low; [reflexivity |].
  change (Permutation [1; 3; 3]%Z [3; 3; 1]%Z).
  apply (Permutation_cons_app [3; 3]%Z [] 1%Z), Permutation_refl.
Defined.

(** C3, as stated, fails: three error-free results labelled high, high and
    low are aggregated to "medium", not to "high". *)
Lemma overall_risk_of_high_high_low_is_medium :
  _calculate_overall_risk
    [("storm_surge", PDict [("risk_level", PStr "high")]);
     ("coastal_erosion", PDict [("risk_level", PStr "high")]);
     ("blue_carbon", PDict [("risk_level", PStr "low")])]
  = Ok "medium"
  /\ _calculate_overall_risk
       [("storm_surge", PDict [("risk_level", PStr "high")]);
        ("coastal_erosion", PDict [("risk_level", PStr "high")]);
        ("blue_carbon", PDict [("risk_level", PStr "low")])]
     <> Ok "high".
Proof.
  split; [reflexivity | discriminate].
Qed.

Lemma ranks_app (l1 l2 : dict) :
  Spec.ranks (l1 ++ l2) = Spec.ranks l1 ++ Spec.ranks l2.
Proof. apply flat_map_app. Qed.

Lemma mean_monotone (l1 l2 : list Z) :
  List.length l1 = List.length l2 -> l1 <> [] ->
  (Spec.sum l1 <= Spec.sum l2)%Z ->
  (Spec.mean l1 <= Spec.mean l2)%Q.
Proof.
  intros Hlen Hne Hsum. unfold Spec.mean. rewrite <- Hlen.
  assert (Hpos : (0 < inject_Z (Z.of_nat (List.length l1)))%Q).
  { change 0%Q with (inject_Z 0). rewrite <- Zlt_Qlt.
    destruct l1; [now elim Hne | cbn [List.length]; lia]. }
  apply Qmult_le_compat_r.
  - now rewrite <- Zle_Qle.
  - apply Qlt_le_weak, Qinv_lt_0_compat, Hpos.
Qed.

Lemma classify_mean_monotone (m1 m2 : Q) :
  (m1 <= m2)%Q ->
  Spec.level_le (Spec.classify_mean m1) (Spec.classify_mean m2).
Proof.
  intros H. unfold Spec.classify_mean.
  destruct (Qltb_spec m1 1.5); destruct (Qltb_spec m1 2.5);
    destruct (Qltb_spec m1 3.5);
    destruct (Qltb_spec m2 1.5); destruct (Qltb_spec m2 2.5);
    destruct (Qltb_spec m2 3.5);
    try (exfalso; lra);
    (eexists; eexists; split; [reflexivity | split; [reflexivity | lia]]).
Qed.

(** C10. Replacing the result of one category, error-free and labelled,
    by an error-free result whose label has a strictly higher rank, never
    lowers the label that [_calculate_overall_risk] returns, in the order
    low < medium < high < critical. *)
Theorem calculate_overall_risk_monotone
    (before after : dict) (k : string) (d d' : dict) (l l' : pyval)
    (overall : string) :
  Spec.usable (PDict d) = Some d -> Spec.label_of d = Some l ->
  Spec.usable (PDict d') = Some d' -> Spec.label_of d' = Some l' ->
  hashable l' = true ->
  (Spec.rank l < Spec.rank l')%Z ->
  _calculate_overall_risk (before ++ (k, PDict d) :: after) = Ok overall ->
  exists overall',
    _calculate_overall_risk (before ++ (k, PDict d') :: after) = Ok overall'
    /\ Spec.level_le overall overall'.
Proof.
  intros Hd Hl Hd' Hl' Hhash Hrank Hcalc.
  assert (Htyped : Spec.labels_typed (before ++ (k, PDict d) :: after) = true).
  { unfold _calculate_overall_risk in Hcalc.
    destruct (for_each (before ++ (k, PDict d) :: after) score_entry [])
      as [scores | e] eqn:Hloop; [| discriminate Hcalc].
    exact (collect_scores_returns _ _ _ Hloop). }
  assert (Htyped' :
            Spec.labels_typed (before ++ (k, PDict d') :: after) = true).
  { unfold Spec.labels_typed in *. rewrite forallb_app in *.
    cbn [forallb] in *.
    apply andb_true_iff in Htyped. destruct Htyped as [Hb Ha].
    apply andb_true_iff in Ha. destruct Ha as [_ Ha].
    rewrite Hb, Ha. unfold Spec.label_typed_entry. cbn [snd].
    rewrite Hd', Hl', Hhash. reflexivity. }
  rewrite (overall_risk_of_ranks _ Htyped) in Hcalc.
  rewrite (overall_risk_of_ranks _ Htyped').
  assert (Hr : Spec.ranks (before ++ (k, PDict d) :: after)
               = Spec.ranks before ++ Spec.rank l :: Spec.ranks after).
  { rewrite ranks_app. unfold Spec.ranks at 2. cbn [flat_map].
    unfold Spec.ranks_of_entry at 1. cbn [snd]. now rewrite Hd, Hl. }
  assert (Hr' : Spec.ranks (before ++ (k, PDict d') :: after)
                = Spec.ranks before ++ Spec.rank l' :: Spec.ranks after).
  { rewrite ranks_app. unfold Spec.ranks at 2. cbn [flat_map].
    unfold Spec.ranks_of_entry at 1. cbn [snd]. now rewrite Hd', Hl'. }
  rewrite Hr in Hcalc. rewrite Hr'.
  eexists. split; [reflexivity |].
  destruct (Spec.ranks before ++ Spec.rank l :: Spec.ranks after)
    as [| r rs] eqn:E; [now destruct (Spec.ranks before) |].
  destruct (Spec.ranks before ++ Spec.rank l' :: Spec.ranks after)
    as [| r' rs'] eqn:E'; [now destruct (Spec.ranks before) |].
  injection Hcalc as <-. rewrite <- E, <- E'.
  apply classify_mean_monotone, mean_monotone.
  - rewrite !length_app. reflexivity.
  - now destruct (Spec.ranks before).
  - rewrite !sum_app. cbn. lia.
Qed.

(** A coastal result moved from "medium" to "critical" lifts the overall
    label from "medium" to "high". *)
Lemma calculate_overall_risk_monotone_witness :
  exists overall',
    _calculate_overall_risk
      ([("storm_surge", PDict [("risk_level", PStr "medium")])]
       ++ ("coastal_erosion", PDict [("risk_level", PStr "critical")])
       :: [("blue_carbon", PDict [("threat_level", PStr "moderate")])])
    = Ok overall'
    /\ Spec.level_le "medium" overall'.
Proof.
  apply (calculate_overall_risk_monotone
           [("storm_surge", PDict [("risk_level", PStr "medium")])]
           [("blue_carbon", PDict [("threat_level", PStr "moderate")])]
           "coastal_erosion"
           [("risk_level", PStr "medium")] [("risk_level", PStr "critical")]
           (PStr "medium") (PStr "critical") "medium");
    try reflexivity.
Defined.

End OverallRisk.

(** ** The recommendation generators *)

Section Recommendations.

Lemma for_each_appends {A : Type}
    (body : list A -> string * pyval -> result (list A))
    (contribution : string * pyval -> list A)
    (typed : string * pyval -> bool) :
  (forall acc item, typed item = true ->
                    body acc item = Ok (acc ++ contribution item)) ->
  forall threats acc,
    forallb typed threats = true ->
    for_each threats body acc = Ok (acc ++ flat_map contribution threats).
Proof.
  intros Hbody. induction threats as [| item rest IH]; intros acc H.
  - cbn. now rewrite app_nil_r.
  - cbn [forallb] in H. apply andb_true_iff in H. destruct H as [Hitem Hrest].
    cbn [for_each flat_map]. rewrite (Hbody acc item Hitem).
    rewrite (IH _ Hrest). now rewrite app_assoc.
Qed.

Lemma Qle_bool_negb (x y : Q) : Qle_bool x y = negb (Qltb y x).
Proof. unfold Qltb. now rewrite negb_involutive. Qed.

(** The case analysis that one pass of either loop performs. *)
Ltac skip_pass k :=
  intros _; destruct (String.eqb k "storm_surge");
  destruct (String.eqb k "coastal_erosion");
  destruct (String.eqb k "blue_carbon"); now rewrite app_nil_r.

Ltac surge_pass d :=
  unfold py_get, py_gt_float;
  destruct (dict_get d "surge_height") as [h |]; cbn [bind];
  [ destruct (as_number h) as [x |]; [intros _ | discriminate];
    cbn [bind]; rewrite (Qle_bool_negb x);
    destruct (Qltb 1.0 x); destruct (Qltb 0.5 x); cbn;
    rewrite ?app_nil_r; reflexivity
  | intros _; cbn; now rewrite app_nil_r ].

Ltac label_pass d key :=
  unfold py_get, py_in_strs, py_eq_str;
  destruct (dict_get d key) as [[| b | q | s | l | d'] |];
  cbn [bind existsb orb app]; rewrite ?app_nil_r; try reflexivity;
  rewrite orb_false_r;
  match goal with
  | |- context [(String.eqb s ?a || String.eqb s ?b)%bool] =>
      destruct (String.eqb s a || String.eqb s b)%bool
  end; cbn; rewrite ?app_nil_r; reflexivity.

Ltac loop_pass k v :=
  unfold Spec.surge_typed_entry, Spec.recommendations_of_entry,
    Spec.warning_fires, Spec.monitor_fires, Spec.protection_fires,
    Spec.protocol_fires, Spec.in_category, Spec.usable, Spec.surge_height;
  cbn [fst snd];
  destruct v as [| b | q | s | l | d]; try skip_pass k;
  destruct (dict_has d "error"); cbn [negb]; [skip_pass k |];
  destruct (String.eqb k "storm_surge") eqn:Hsurge;
  [ apply String.eqb_eq in Hsurge; subst k;
    cbn [String.eqb Ascii.eqb Bool.eqb]; surge_pass d |];
  intros _;
  destruct (String.eqb k "coastal_erosion") eqn:Hcoast;
  [ apply String.eqb_eq in Hcoast; subst k;
    cbn [String.eqb Ascii.eqb Bool.eqb]; label_pass d "risk_level" |];
  destruct (String.eqb k "blue_carbon") eqn:Hcarbon;
  [ label_pass d "threat_level" | now rewrite app_nil_r ].

Lemma full_pass (recs : list string) (item : string * pyval) :
  Spec.surge_typed_entry item = true ->
  AiService.recommend_entry recs item
  = Ok (recs ++ Spec.recommendations_of_entry Spec.full_wording item).
Proof.
  destruct item as [k v]. unfold AiService.recommend_entry.
  loop_pass k v.
Qed.

Lemma simple_pass (recs : list string) (item : string * pyval) :
  Spec.surge_typed_entry item = true ->
  AiServiceSimple.recommend_entry recs item
  = Ok (recs ++ Spec.recommendations_of_entry Spec.simple_wording item).
Proof.
  destruct item as [k v]. unfold AiServiceSimple.recommend_entry.
  loop_pass k v.
Qed.

Lemma full_loop (threats : dict) :
  Spec.surge_typed threats = true ->
  AiService._generate_recommendations threats
  = Ok (Spec.recommendations Spec.full_wording threats).
Proof.
  intros H. unfold AiService._generate_recommendations.
  apply (for_each_appends AiService.recommend_entry
           (Spec.recommendations_of_entry Spec.full_wording)
           Spec.surge_typed_entry full_pass threats [] H).
Qed.

Lemma simple_loop (threats : dict) :
  Spec.surge_typed threats = true ->
  AiServiceSimple._generate_recommendations threats
  = Ok (match Spec.recommendations Spec.simple_wording threats with
        | [] => [Spec.fallback]
        | recs => recs
        end).
Proof.
  intros H. unfold AiServiceSimple._generate_recommendations.
  rewrite (for_each_appends AiServiceSimple.recommend_entry
             (Spec.recommendations_of_entry Spec.simple_wording)
             Spec.surge_typed_entry simple_pass threats [] H).
  cbn [bind app]. unfold Spec.recommendations.
  now destruct (flat_map (Spec.recommendations_of_entry Spec.simple_wording)
                  threats).
Qed.

(** C5. Over a mapping whose surge heights are numbers, both generators
    visit the categories in the mapping's insertion order and append, for
    an entry without an [error] key: under [storm_surge] the warning
    recommendations exactly when [surge_height > 1.0] and "Monitor coastal
    conditions closely" exactly when [0.5 < surge_height <= 1.0]; under
    [coastal_erosion] the protection recommendations exactly when
    [risk_level] is "high" or "critical"; under [blue_carbon] the protocol
    recommendations exactly when [threat_level] is "significant" or
    "severe". [ai_service.py] returns that list; [ai_service_simple.py]
    returns it with one string per rule, or the fallback when it is
    empty. *)
Theorem generate_recommendations_in_order (threats : dict) :
  Spec.surge_typed threats = true ->
  AiService._generate_recommendations threats
  = Ok (Spec.recommendations Spec.full_wording threats)
  /\ AiServiceSimple._generate_recommendations threats
     = Ok (match Spec.recommendations Spec.simple_wording threats with
           | [] => [Spec.fallback]
           | recs => recs
           end).
Proof.
  intros H. split; [apply full_loop | apply simple_loop]; exact H.
Qed.

(** A surge of 1.5 followed by a critical erosion risk: the storm-surge
    recommendations come before the erosion recommendations. *)
Lemma generate_recommendations_in_order_witness :
  AiService._generate_recommendations
    [("storm_surge", PDict [("surge_height", PNum 1.5)]);
     ("coastal_erosion", PDict [("risk_level", PStr "critical")])]
  = Ok ["Issue storm surge warning - evacuate low-lying areas";
        "Deploy emergency response teams";
        "Implement emergency coastal protection measures";
        "Restrict beach access in high-risk areas"]
  /\ AiServiceSimple._generate_recommendations
       [("storm_surge", PDict [("surge_height", PNum 1.5)]);
        ("coastal_erosion", PDict [("risk_level", PStr "critical")])]
     = Ok ["Issue storm surge warning - evacuate low-lying areas";
           "Implement emergency coastal protection measures"].
Proof.
  exact (generate_recommendations_in_order
           [("storm_surge", PDict [("surge_height", PNum 1.5)]);
            ("coastal_erosion", PDict [("risk_level", PStr "critical")])]
           eq_refl).
Defined.

Lemma quiet_entry (w : Spec.wording) (item : string * pyval) :
  Spec.rule_fires item = false -> Spec.recommendations_of_entry w item = [].
Proof.
  unfold Spec.rule_fires, Spec.recommendations_of_entry. intros H.
  apply orb_false_iff in H. destruct H as [H Hprotocol].
  apply orb_false_iff in H. destruct H as [H Hprotection].
  apply orb_false_iff in H. destruct H as [Hwarning Hmonitor].
  now rewrite Hwarning, Hmonitor, Hprotection, Hprotocol.
Qed.

Lemma quiet_mapping (w : Spec.wording) (threats : dict) :
  existsb Spec.rule_fires threats = false ->
  Spec.recommendations w threats = [].
Proof.
  unfold Spec.recommendations.
  induction threats as [| item rest IH]; [reflexivity |].
  cbn [existsb flat_map]. intros H.
  apply orb_false_iff in H. destruct H as [Hitem Hrest].
  now rewrite (quiet_entry w item Hitem), (IH Hrest).
Qed.

Lemma loud_entry (w : Spec.wording) (item : string * pyval) :
  Spec.speaks w ->
  Spec.rule_fires item = true -> Spec.recommendations_of_entry w item <> [].
Proof.
  intros (Hw & Hp & Hc).
  unfold Spec.rule_fires, Spec.recommendations_of_entry.
  destruct (Spec.warning_fires item).
  { intros _ E. apply app_eq_nil in E. now destruct E. }
  destruct (Spec.monitor_fires item); [discriminate |].
  destruct (Spec.protection_fires item).
  { intros _ E. cbn [app] in E. apply app_eq_nil in E. now destruct E. }
  destruct (Spec.protocol_fires item); [| discriminate].
  intros _ E. cbn [app] in E. now apply Hc.
Qed.

Lemma loud_mapping (w : Spec.wording) (threats : dict) :
  Spec.speaks w ->
  existsb Spec.rule_fires threats = true ->
  Spec.recommendations w threats <> [].
Proof.
  intros Hw. unfold Spec.recommendations.
  induction threats as [| item rest IH]; [discriminate |].
  cbn [existsb flat_map]. intros H E.
  apply app_eq_nil in E. destruct E as [Eitem Erest].
  apply orb_true_iff in H. destruct H as [H | H].
  - exact (loud_entry w item Hw H Eitem).
  - exact (IH H Erest).
Qed.

Lemma entry_vocabulary (w : Spec.wording) (item : string * pyval) (s : string) :
  In s (Spec.recommendations_of_entry w item) ->
  In s (Spec.warning w ++ [Spec.monitor]
        ++ Spec.protection w ++ Spec.protocol w).
Proof.
  unfold Spec.recommendations_of_entry. rewrite !in_app_iff.
  destruct (Spec.warning_fires item); destruct (Spec.monitor_fires item);
    destruct (Spec.protection_fires item);
    destruct (Spec.protocol_fires item); cbn [In]; tauto.
Qed.

Lemma mapping_vocabulary (w : Spec.wording) (threats : dict) (s : string) :
  In s (Spec.recommendations w threats) ->
  In s (Spec.warning w ++ [Spec.monitor]
        ++ Spec.protection w ++ Spec.protocol w).
Proof.
  unfold Spec.recommendations. rewrite in_flat_map.
  intros (item & _ & H). exact (entry_vocabulary w item s H).
Qed.

Lemma full_speaks : Spec.speaks Spec.full_wording.
Proof. repeat split; discriminate. Qed.

Lemma simple_speaks : Spec.speaks Spec.simple_wording.
Proof. repeat split; discriminate. Qed.

Lemma fallback_not_full :
  ~ In Spec.fallback
      (Spec.warning Spec.full_wording ++ [Spec.monitor]
       ++ Spec.protection Spec.full_wording ++ Spec.protocol Spec.full_wording).
Proof.
  cbn. intros H.
  repeat (destruct H as [H | H]; [discriminate H |]). exact H.
Qed.

Lemma fallback_not_simple :
  ~ In Spec.fallback
      (Spec.warning Spec.simple_wording ++ [Spec.monitor]
       ++ Spec.protection Spec.simple_wording
       ++ Spec.protocol Spec.simple_wording).
Proof.
  cbn. intros H.
  repeat (destruct H as [H | H]; [discriminate H |]). exact H.
Qed.

Lemma filter_flat_map {A B : Type} (keep : B -> bool) (f : A -> list B)
    (l : list A) :
  filter keep (flat_map f l) = flat_map (fun x => filter keep (f x)) l.
Proof.
  induction l as [| x l IH]; [reflexivity |].
  cbn [flat_map]. now rewrite filter_app, IH.
Qed.

Lemma primary_of_entry (item : string * pyval) :
  filter Shape.primary
    (Spec.recommendations_of_entry Spec.full_wording item)
  = Spec.recommendations_of_entry Spec.simple_wording item.
Proof.
  unfold Spec.recommendations_of_entry.
  destruct (Spec.warning_fires item); destruct (Spec.monitor_fires item);
    destruct (Spec.protection_fires item);
    destruct (Spec.protocol_fires item); reflexivity.
Qed.

Lemma primary_of_mapping (threats : dict) :
  filter Shape.primary (Spec.recommendations Spec.full_wording threats)
  = Spec.recommendations Spec.simple_wording threats.
Proof.
  unfold Spec.recommendations. rewrite filter_flat_map.
  now rewrite (flat_map_ext _ _ primary_of_entry).
Qed.

(** The second string of a rule makes the full contribution longer. *)
Lemma entry_lengths (item : string * pyval) :
  (List.length (Spec.recommendations_of_entry Spec.simple_wording item)
   <= List.length (Spec.recommendations_of_entry Spec.full_wording item))%nat
  /\ (Spec.escalation_fires item = true ->
      (List.length (Spec.recommendations_of_entry Spec.simple_wording item)
       < List.length (Spec.recommendations_of_entry Spec.full_wording item))%nat)
  /\ (Spec.escalation_fires item = false ->
      Spec.recommendations_of_entry Spec.simple_wording item
      = Spec.recommendations_of_entry Spec.full_wording item).
Proof.
  unfold Spec.escalation_fires, Spec.recommendations_of_entry.
  destruct (Spec.warning_fires item); destruct (Spec.monitor_fires item);
    destruct (Spec.protection_fires item);
    destruct (Spec.protocol_fires item); cbn;
    repeat split; intros; try discriminate; try reflexivity; lia.
Qed.

Lemma mapping_lengths (threats : dict) :
  (List.length (Spec.recommendations Spec.simple_wording threats)
   <= List.length (Spec.recommendations Spec.full_wording threats))%nat
  /\ (existsb Spec.escalation_fires threats = true ->
      (List.length (Spec.recommendations Spec.simple_wording threats)
       < List.length (Spec.recommendations Spec.full_wording threats))%nat)
  /\ (existsb Spec.escalation_fires threats = false ->
      Spec.recommendations Spec.simple_wording threats
      = Spec.recommendations Spec.full_wording threats).
Proof.
  unfold Spec.recommendations.
  induction threats as [| item rest (IHle & IHlt & IHeq)].
  { split; [apply Nat.le_refl |]. split; [discriminate | reflexivity]. }
  destruct (entry_lengths item) as (Hle & Hlt & Heq).
  cbn [existsb flat_map]. rewrite !length_app.
  split; [lia |]. split; intros H.
  - apply orb_true_iff in H. destruct H as [H | H].
    + specialize (Hlt H). lia.
    + specialize (IHlt H). lia.
  - apply orb_false_iff in H. destruct H as [Hitem Hrest].
    now rewrite (Heq Hitem), (IHeq Hrest).
Qed.

(** C8, as the code has it. On a mapping in which no threshold rule fires
    the generator of [ai_service.py] returns the empty list and the
    generator of [ai_service_simple.py] returns ["Continue routine
    monitoring"]. On a mapping in which a rule fires both return a list
    that is not empty and does not contain the fallback string, and the
    list of [ai_service_simple.py] is the list of [ai_service.py] without
    the second string of each storm-surge warning, coastal-protection and
    blue-carbon rule: the two lists are equal exactly when none of these
    three rules fires. *)
Theorem generate_recommendations_fallback (threats : dict) :
  Spec.surge_typed threats = true ->
  (existsb Spec.rule_fires threats = false ->
   AiService._generate_recommendations threats = Ok []
   /\ AiServiceSimple._generate_recommendations threats
      = Ok ["Continue routine monitoring"])
  /\ (existsb Spec.rule_fires threats = true ->
      exists full simple,
        AiService._generate_recommendations threats = Ok full
        /\ AiServiceSimple._generate_recommendations threats = Ok simple
        /\ full <> [] /\ simple <> []
        /\ ~ In "Continue routine monitoring" full
        /\ ~ In "Continue routine monitoring" simple
        /\ simple = filter Shape.primary full
        /\ (full = simple <-> existsb Spec.escalation_fires threats = false)).
Proof.
  intros H. rewrite (full_loop threats H), (simple_loop threats H).
  split; intros Hfires.
  - now rewrite !quiet_mapping.
  - pose proof (loud_mapping _ threats full_speaks Hfires) as Hfull.
    pose proof (loud_mapping _ threats simple_speaks Hfires) as Hsimple.
    exists (Spec.recommendations Spec.full_wording threats),
      (Spec.recommendations Spec.simple_wording threats).
    split; [reflexivity |].
    split; [now destruct (Spec.recommendations Spec.simple_wording threats) |].
    split; [exact Hfull |]. split; [exact Hsimple |].
    split; [intros Hin;
            exact (fallback_not_full (mapping_vocabulary _ _ _ Hin)) |].
    split; [intros Hin;
            exact (fallback_not_simple (mapping_vocabulary _ _ _ Hin)) |].
    split; [symmetry; apply primary_of_mapping |].
    destruct (mapping_lengths threats) as (_ & Hlt & Heq).
    split.
    + intros Hsame.
      destruct (existsb Spec.escalation_fires threats); [| reflexivity].
      specialize (Hlt eq_refl). rewrite Hsame in Hlt. lia.
    + intros Hnone. symmetry. exact (Heq Hnone).
Qed.

Lemma generate_recommendations_fallback_witness :
  (AiService._generate_recommendations
     [("storm_surge", PDict [("surge_height", PNum 0.2);
                             ("risk_level", PStr "low")])] = Ok []
   /\ AiServiceSimple._generate_recommendations
        [("storm_surge", PDict [("surge_height", PNum 0.2);
                                ("risk_level", PStr "low")])]
      = Ok ["Continue routine monitoring"])
  /\ (exists full simple,
         AiService._generate_recommendations
           [("blue_carbon", PDict [("threat_level", PStr "severe")]);
            ("storm_surge", PDict [("surge_height", PNum 0.8)])] = Ok full
         /\ AiServiceSimple._generate_recommendations
              [("blue_carbon", PDict [("threat_level", PStr "severe")]);
               ("storm_surge", PDict [("surge_height", PNum 0.8)])]
            = Ok simple
         /\ full <> [] /\ simple <> []
         /\ ~ In "Continue routine monitoring" full
         /\ ~ In "Continue routine monitoring" simple
         /\ simple = filter Shape.primary full
         /\ (full = simple
             <-> existsb Spec.escalation_fires
                   [("blue_carbon", PDict [("threat_level", PStr "severe")]);
                    ("storm_surge", PDict [("surge_height", PNum 0.8)])]
                 = false)).
Proof.
  split.
  - exact (proj1 (generate_recommendations_fallback
                    [("storm_surge", PDict [("surge_height", PNum 0.2);
                                            ("risk_level", PStr "low")])]
                    eq_refl) eq_refl).
  - exact (proj2 (generate_recommendations_fallback
                    [("blue_carbon", PDict [("threat_level", PStr "severe")]);
                     ("storm_surge", PDict [("surge_height", PNum 0.8)])]
                    eq_refl) eq_refl).
Defined.

(** C8, as stated, fails: the generators also disagree where a rule
    fires. A severe blue-carbon threat draws two strings from
    [ai_service.py] and one from [ai_service_simple.py]. *)
Lemma generate_recommendations_differ_where_a_rule_fires :
  existsb Spec.rule_fires
    [("blue_carbon", PDict [("threat_level", PStr "severe")])] = true
  /\ AiService._generate_recommendations
       [("blue_carbon", PDict [("threat_level", PStr "severe")])]
     = Ok ["Activate blue carbon ecosystem protection protocols";
           "Deploy rapid response conservation team"]
  /\ AiServiceSimple._generate_recommendations
       [("blue_carbon", PDict [("threat_level", PStr "severe")])]
     = Ok ["Activate blue carbon ecosystem protection protocols"]
  /\ AiService._generate_recommendations
       [("blue_carbon", PDict [("threat_level", PStr "severe")])]
     <> AiServiceSimple._generate_recommendations
          [("blue_carbon", PDict [("threat_level", PStr "severe")])].
Proof.
  repeat split. discriminate.
Qed.

End Recommendations.

(** ** Error-carrying results and the orchestrator *)

Section Degradation.

Lemma for_each_filter {S A : Type} (body : S -> A -> result S)
    (keep : A -> bool) :
  (forall s x, keep x = false -> body s x = Ok s) ->
  forall items s,
    for_each items body s = for_each (filter keep items) body s.
Proof.
  intros Hskip. induction items as [| x rest IH]; intros s; [reflexivity |].
  cbn [filter]. destruct (keep x) eqn:Hx; cbn [for_each].
  - destruct (body s x); [apply IH | reflexivity].
  - rewrite (Hskip s x Hx). apply IH.
Qed.

Lemma for_each_app {S A : Type} (body : S -> A -> result S)
    (l1 l2 : list A) (s : S) :
  for_each (l1 ++ l2) body s
  = (s' <- for_each l1 body s ;; for_each l2 body s').
Proof.
  revert s. induction l1 as [| x l1 IH]; intros s; [reflexivity |].
  cbn [app for_each]. destruct (body s x); [apply IH | reflexivity].
Qed.

Ltac skip_error item :=
  let k := fresh "k" in
  let v := fresh "v" in
  destruct item as [k v]; cbn [snd]; unfold Spec.carries_error;
  destruct v as [| ? | ? | ? | ? | d]; try discriminate;
  destruct (dict_has d "error"); [reflexivity | discriminate].

Lemma score_entry_skips (scores : list Z) (item : string * pyval) :
  negb (Spec.carries_error (snd item)) = false ->
  score_entry scores item = Ok scores.
Proof. unfold score_entry. skip_error item. Qed.

Lemma full_pass_skips (recs : list string) (item : string * pyval) :
  negb (Spec.carries_error (snd item)) = false ->
  AiService.recommend_entry recs item = Ok recs.
Proof. unfold AiService.recommend_entry. skip_error item. Qed.

Lemma simple_pass_skips (recs : list string) (item : string * pyval) :
  negb (Spec.carries_error (snd item)) = false ->
  AiServiceSimple.recommend_entry recs item = Ok recs.
Proof. unfold AiServiceSimple.recommend_entry. skip_error item. Qed.

Lemma full_blue_carbon_fails (E : env) (eco : pyval) :
  Spec.blue_carbon_fails E ->
  exists msg,
    AiService.predict_blue_carbon_threat E eco
    = PDict [("error", PStr msg); ("threat_level", PStr "unknown")].
Proof.
  unfold Spec.blue_carbon_fails, AiService.predict_blue_carbon_threat.
  destruct (models_loaded E); destruct (blue_carbon_threat E) as [model |];
    intros H; try (eexists; reflexivity).
  destruct (blue_carbon_features eco) as [features | e];
    [| eexists; reflexivity].
  cbn [bind]. destruct (H features) as [e He].
  destruct (predict_proba model) as [proba |]; [| eexists; reflexivity].
  destruct (proba features) as [probs | e']; [| eexists; reflexivity].
  cbn [bind]. rewrite He. eexists; reflexivity.
Qed.

Lemma simple_blue_carbon_fails (E : env) (eco : pyval) :
  Spec.blue_carbon_fails E ->
  exists msg,
    AiServiceSimple.predict_blue_carbon_threat E eco
    = PDict [("error", PStr msg); ("threat_level", PStr "unknown")].
Proof.
  unfold Spec.blue_carbon_fails, AiServiceSimple.predict_blue_carbon_threat.
  destruct (blue_carbon_threat E) as [model |];
    intros H; try (eexists; reflexivity).
  destruct (blue_carbon_features eco) as [features | e];
    [| eexists; reflexivity].
  cbn [bind]. destruct (H features) as [e He].
  unfold AiServiceSimple.probabilities_of.
  destruct (predict_proba model) as [proba |].
  - destruct (proba features) as [probs | e']; [| eexists; reflexivity].
    cbn [bind]. destruct (np_max probs); [| eexists; reflexivity].
    cbn [bind]. rewrite He. eexists; reflexivity.
  - cbn [bind]. rewrite He. eexists; reflexivity.
Qed.

(** C6. Both the aggregator and the two generators return, over a mapping,
    what they return over the mapping without its error-carrying entries;
    and when only the [ecosystem] section is present and the blue-carbon
    prediction fails, the analysis has [threats.blue_carbon.error] set,
    [overall_risk] "unknown" and no top-level [error] key. *)
Theorem error_results_are_ignored :
  (forall threats : dict,
      _calculate_overall_risk threats
      = _calculate_overall_risk (Spec.without_errors threats)
      /\ AiService._generate_recommendations threats
         = AiService._generate_recommendations (Spec.without_errors threats)
      /\ AiServiceSimple._generate_recommendations threats
         = AiServiceSimple._generate_recommendations
             (Spec.without_errors threats))
  /\ (forall (E : env) (input_data : dict) (eco : pyval),
         dict_get input_data "weather" = None ->
         dict_get input_data "coastal" = None ->
         dict_get input_data "ecosystem" = Some eco ->
         dict_get input_data "historical_weather" = None ->
         Spec.blue_carbon_fails E ->
         Spec.degraded (AiService.comprehensive_threat_analysis E input_data)
         /\ Spec.degraded
              (AiServiceSimple.comprehensive_threat_analysis E input_data)).
Proof.
  split.
  - intros threats.
    unfold _calculate_overall_risk, AiService._generate_recommendations,
      AiServiceSimple._generate_recommendations, Spec.without_errors.
    rewrite <- (for_each_filter score_entry _ score_entry_skips threats []).
    rewrite <- (for_each_filter AiService.recommend_entry _
                  full_pass_skips threats []).
    rewrite <- (for_each_filter AiServiceSimple.recommend_entry _
                  simple_pass_skips threats []).
    repeat split.
  - intros E input_data eco Hweather Hcoastal Heco Hhistory Hfails.
    unfold AiService.comprehensive_threat_analysis,
      AiServiceSimple.comprehensive_threat_analysis, analysis,
      collect_threats, analyse_section.
    rewrite Hweather, Hcoastal, Heco, Hhistory.
    destruct (full_blue_carbon_fails E eco Hfails) as [msg Hfull].
    destruct (simple_blue_carbon_fails E eco Hfails) as [msg' Hsimple].
    rewrite Hfull, Hsimple.
    split; (split; [eexists; reflexivity | split; reflexivity]).
Qed.

Lemma error_results_are_ignored_witness :
  Spec.degraded
    (AiService.comprehensive_threat_analysis Spec.failing_deployment
       [("ecosystem", PDict [("water_quality", PNum 60)])])
  /\ Spec.degraded
       (AiServiceSimple.comprehensive_threat_analysis Spec.failing_deployment
          [("ecosystem", PDict [("water_quality", PNum 60)])]).
Proof.
  apply (proj2 error_results_are_ignored Spec.failing_deployment
           [("ecosystem", PDict [("water_quality", PNum 60)])]
           (PDict [("water_quality", PNum 60)])); try reflexivity.
  intros features. eexists. reflexivity.
Defined.

Lemma dict_get_set (d : dict) (k k' : string) (v : pyval) :
  dict_get (dict_set d k v) k'
  = if String.eqb k k' then Some v else dict_get d k'.
Proof.
  induction d as [| [k0 v0] d IH]; cbn [dict_set dict_get]; [reflexivity |].
  destruct (String.eqb k0 k) eqn:E0; cbn [dict_get].
  - apply String.eqb_eq in E0. subst k0.
    now destruct (String.eqb k k').
  - destruct (String.eqb k0 k') eqn:E1; [| exact IH].
    destruct (String.eqb k k') eqn:E2; [| reflexivity].
    apply String.eqb_eq in E1, E2. subst. now rewrite String.eqb_refl in E0.
Qed.

Lemma dict_get_remove (d : dict) (k k' : string) :
  dict_get (dict_remove d k) k'
  = if String.eqb k k' then None else dict_get d k'.
Proof.
  unfold dict_remove.
  induction d as [| [k0 v0] d IH]; cbn [filter dict_get fst];
    [now destruct (String.eqb k k') |].
  destruct (String.eqb k0 k) eqn:E0; cbn [negb dict_get].
  - apply String.eqb_eq in E0. subst k0. rewrite IH.
    now destruct (String.eqb k k').
  - rewrite IH. destruct (String.eqb k0 k') eqn:E1; [| reflexivity].
    destruct (String.eqb k k') eqn:E2; [| reflexivity].
    apply String.eqb_eq in E1, E2. subst. now rewrite String.eqb_refl in E0.
Qed.

Lemma dict_set_fresh (d : dict) (k : string) (v : pyval) :
  dict_get d k = None -> dict_set d k v = d ++ [(k, v)].
Proof.
  induction d as [| [k0 v0] d IH]; cbn [dict_get dict_set app];
    [reflexivity |].
  destruct (String.eqb k0 k); [discriminate |].
  intros H. now rewrite (IH H).
Qed.

Lemma dict_remove_fresh (d : dict) (k : string) (v : pyval) :
  dict_get d k = None -> dict_remove (d ++ [(k, v)]) k = d.
Proof.
  unfold dict_remove.
  induction d as [| [k0 v0] d IH]; cbn [dict_get app filter fst].
  - now rewrite String.eqb_refl.
  - destruct (String.eqb k0 k); [discriminate |].
    intros H. cbn [negb]. now rewrite (IH H).
Qed.

Lemma full_forecast_shaped (E : env) (hw : pyval) :
  Spec.forecast_shaped (AiService.predict_weather_sequence E hw).
Proof.
  unfold AiService.predict_weather_sequence.
  destruct (models_loaded E); destruct (weather_prediction E) as [model |];
    try (left; eexists; reflexivity).
  destruct (model hw); [right | left]; repeat eexists.
Qed.

Lemma simple_forecast_shaped (E : env) (hw : pyval) :
  Spec.forecast_shaped (AiServiceSimple.predict_weather_sequence E hw).
Proof.
  unfold AiServiceSimple.predict_weather_sequence.
  destruct (avg_temperature E hw); [right | left]; repeat eexists.
Qed.

Lemma score_entry_forecast (scores : list Z) (v : pyval) :
  Spec.forecast_shaped v ->
  score_entry scores ("weather_forecast", v) = Ok scores.
Proof.
  intros [(msg & ->) | (p & c & ->)]; reflexivity.
Qed.

Lemma full_pass_forecast (recs : list string) (v : pyval) :
  AiService.recommend_entry recs ("weather_forecast", v) = Ok recs.
Proof.
  unfold AiService.recommend_entry.
  destruct v as [| ? | ? | ? | ? | d]; try reflexivity.
  now destruct (dict_has d "error").
Qed.

Lemma simple_pass_forecast (recs : list string) (v : pyval) :
  AiServiceSimple.recommend_entry recs ("weather_forecast", v) = Ok recs.
Proof.
  unfold AiServiceSimple.recommend_entry.
  destruct v as [| ? | ? | ? | ? | d]; try reflexivity.
  now destruct (dict_has d "error").
Qed.

Lemma for_each_last {S A : Type} (body : S -> A -> result S)
    (items : list A) (x : A) (s : S) :
  (forall s', body s' x = Ok s') ->
  for_each (items ++ [x]) body s = for_each items body s.
Proof.
  intros Hx. rewrite for_each_app.
  destruct (for_each items body s) as [s' |]; [| reflexivity].
  cbn [bind for_each]. now rewrite Hx.
Qed.

Section Frame.

Variable E : env.
Variables surge erosion carbon forecast : pyval -> pyval.
Variable generate : dict -> result (list string).
Variable confidence : Q.
Variables (input_data : dict) (hw : pyval).

Let present := dict_set input_data "historical_weather" hw.
Let absent := dict_remove input_data "historical_weather".

(** The first three sections do not see [historical_weather]. *)
Lemma threats_frame :
  exists core,
    dict_get core "weather_forecast" = None
    /\ collect_threats surge erosion carbon forecast absent = core
    /\ collect_threats surge erosion carbon forecast present
       = core ++ [("weather_forecast", forecast hw)].
Proof.
  unfold collect_threats, analyse_section, present, absent.
  rewrite !dict_get_set, !dict_get_remove. cbn [String.eqb Ascii.eqb Bool.eqb].
  eexists. split; [| split; [reflexivity |]].
  2: { apply dict_set_fresh.
       destruct (dict_get input_data "weather");
         destruct (dict_get input_data "coastal");
         destruct (dict_get input_data "ecosystem"); reflexivity. }
  destruct (dict_get input_data "weather");
    destruct (dict_get input_data "coastal");
    destruct (dict_get input_data "ecosystem"); reflexivity.
Qed.

Hypothesis forecast_has_no_label : forall v, Spec.forecast_shaped (forecast v).
Hypothesis generate_skips_forecast :
  forall threats v,
    generate (threats ++ [("weather_forecast", forecast v)]) = generate threats.

Lemma analysis_frame :
  let with_history :=
    analysis E surge erosion carbon forecast generate confidence present in
  let without_history :=
    analysis E surge erosion carbon forecast generate confidence absent in
  Spec.same_but_forecast with_history without_history.
Proof.
  unfold Spec.same_but_forecast.
  destruct threats_frame as (core & Hfresh & Habsent & Hpresent).
  unfold analysis. rewrite Habsent, Hpresent. unfold assemble.
  assert (Hrisk : _calculate_overall_risk
                    (core ++ [("weather_forecast", forecast hw)])
                  = _calculate_overall_risk core).
  { unfold _calculate_overall_risk. rewrite for_each_last; [reflexivity |].
    intros s. apply score_entry_forecast, forecast_has_no_label. }
  rewrite Hrisk, generate_skips_forecast.
  assert (Hkeys :
            forall (P : string -> Prop) key,
              In key ["overall_risk"; "recommendations"; "confidence";
                      "error"] ->
              P "overall_risk" -> P "recommendations" -> P "confidence" ->
              P "error" -> P key).
  { intros P key [<- | [<- | [<- | [<- | []]]]]; auto. }
  destruct (_calculate_overall_risk core) as [risk | e];
    [destruct (generate core) as [recs | e] |];
    (split;
     [ intros key Hkey; pattern key; apply (Hkeys _ key Hkey); reflexivity
     | do 2 eexists; (split; [reflexivity | split; [reflexivity |]]);
       apply dict_remove_fresh, Hfresh ]).
Qed.

End Frame.

(** C7. For every input, the analysis of the input with a
    [historical_weather] section and the analysis of the same input
    without it have the same [overall_risk] and the same
    [recommendations] (and the same [confidence] and top-level [error]),
    and their [threats] differ in the [weather_forecast] entry only; in
    both variants. *)
Theorem historical_weather_frame (E : env) (input_data : dict) (hw : pyval) :
  Spec.same_but_forecast
    (AiService.comprehensive_threat_analysis E
       (dict_set input_data "historical_weather" hw))
    (AiService.comprehensive_threat_analysis E
       (dict_remove input_data "historical_weather"))
  /\ Spec.same_but_forecast
       (AiServiceSimple.comprehensive_threat_analysis E
          (dict_set input_data "historical_weather" hw))
       (AiServiceSimple.comprehensive_threat_analysis E
          (dict_remove input_data "historical_weather")).
Proof.
  split.
  - apply analysis_frame.
    + apply full_forecast_shaped.
    + intros threats v. unfold AiService._generate_recommendations.
      apply for_each_last. intros recs. apply full_pass_forecast.
  - apply analysis_frame.
    + apply simple_forecast_shaped.
    + intros threats v. unfold AiServiceSimple._generate_recommendations.
      rewrite for_each_last; [reflexivity |].
      intros recs. apply simple_pass_forecast.
Qed.

End Degradation.

(** ** Further properties of the shared functions *)

Section CoreProperties.

(** X1. A higher surge never gets a lower risk label. *)
Theorem categorize_surge_risk_monotone (x y : Q) :
  (x <= y)%Q ->
  Spec.level_le (_categorize_surge_risk x) (_categorize_surge_risk y).
Proof.
  intros H. unfold _categorize_surge_risk.
  destruct (Qltb_spec x 0.5); destruct (Qltb_spec x 1.0);
    destruct (Qltb_spec x 2.0);
    destruct (Qltb_spec y 0.5); destruct (Qltb_spec y 1.0);
    destruct (Qltb_spec y 2.0);
    try (exfalso; lra);
    (eexists; eexists; split; [reflexivity | split; [reflexivity | lia]]).
Qed.

Lemma categorize_surge_risk_monotone_witness :
  Spec.level_le (_categorize_surge_risk 0.7) (_categorize_surge_risk 2.4).
Proof.
  apply categorize_surge_risk_monotone. vm_compute. discriminate.
Defined.

Lemma table_get_hashable {A : Type} (table : list (string * A)) (l : pyval)
    (default : A) :
  hashable l = true -> exists r, table_get table l default = Ok r.
Proof.
  destruct l as [| b | q | s | xs | d]; intros H; try discriminate H;
    cbn [table_get]; try (eexists; reflexivity).
  destruct (find _ table); eexists; reflexivity.
Qed.

Lemma table_get_unhashable {A : Type} (table : list (string * A)) (l : pyval)
    (default : A) :
  hashable l = false -> table_get table l default = Raise TypeError.
Proof.
  destruct l; intros H; try discriminate H; reflexivity.
Qed.

Lemma estimate_on_mapping (l : pyval) (d : dict) :
  _estimate_carbon_loss l (PDict d)
  = match table_get loss_multipliers l 0.25%Q, Spec.carbon_storage d with
    | Ok rate, Some c =>
        Ok {| potential_loss_tons_co2 := (c * rate)%Q;
              economic_value_usd := (c * rate * 50)%Q;
              recovery_time_years := (c * rate / 10)%Q |}
    | _, _ => Raise TypeError
    end.
Proof.
  unfold _estimate_carbon_loss, py_get, Spec.carbon_storage.
  destruct (dict_get d "carbon_storage") as [v |]; cbn [bind].
  - destruct (hashable l) eqn:Hh.
    + destruct (table_get_hashable loss_multipliers l 0.25%Q Hh) as [r ->].
      cbn [bind]. unfold py_mul_float. now destruct (as_number v).
    + now rewrite (table_get_unhashable loss_multipliers l 0.25%Q Hh).
  - destruct (hashable l) eqn:Hh.
    + destruct (table_get_hashable loss_multipliers l 0.25%Q Hh) as [r ->].
      reflexivity.
    + now rewrite (table_get_unhashable loss_multipliers l 0.25%Q Hh).
Qed.

Lemma estimate_needs_mapping64 (l eco : pyval) :
  (forall d, eco <> PDict d) ->
  Binary64._estimate_carbon_loss l eco = Raise AttributeError.
Proof.
  intros H. destruct eco as [| b | q | s | xs | d]; try reflexivity.
  now elim (H d).
Qed.

Lemma estimate_needs_label (l : pyval) (d : dict) :
  hashable l = false ->
  Binary64._estimate_carbon_loss l (PDict d) = Raise TypeError.
Proof.
  intros H. unfold Binary64._estimate_carbon_loss, py_get.
  destruct (dict_get d "carbon_storage"); cbn [bind];
    now rewrite (rate_lookup_unhashable l H).
Qed.

(** X2. [_estimate_carbon_loss] returns its three fields exactly when the
    ecosystem data is a mapping, the threat label is hashable and
    [carbon_storage], 100 when absent, converts to a float. Data that is
    not a mapping raises [AttributeError], whatever the label; on a
    mapping an unhashable label raises [TypeError], whatever
    [carbon_storage] is; with a hashable label, a [carbon_storage] that
    is not a number raises [TypeError] and one that is a number beyond
    the range of a float raises [OverflowError]. *)
Theorem estimate_carbon_loss_outcomes (l eco : pyval) :
  ((exists r, Binary64._estimate_carbon_loss l eco = Ok r)
   <-> hashable l = true
       /\ exists d c,
           eco = PDict d
           /\ Binary64.as_float (Spec.base_carbon d) = Ok c)
  /\ ((forall d, eco <> PDict d) ->
      Binary64._estimate_carbon_loss l eco = Raise AttributeError)
  /\ (forall d,
         eco = PDict d -> hashable l = false ->
         Binary64._estimate_carbon_loss l eco = Raise TypeError)
  /\ (forall d,
         eco = PDict d -> hashable l = true ->
         match as_number (Spec.base_carbon d) with
         | None => Binary64._estimate_carbon_loss l eco = Raise TypeError
         | Some _ =>
             (exists r, Binary64._estimate_carbon_loss l eco = Ok r)
             \/ Binary64._estimate_carbon_loss l eco = Raise OverflowError
         end).
Proof.
  split; [split | split; [| split]].
  - intros (r & Hr). destruct eco as [| b | q | s | xs | d];
      try discriminate Hr.
    destruct (hashable l) eqn:Hh.
    + split; [reflexivity |]. exists d.
      rewrite (estimate_on_mapping64 l d Hh) in Hr.
      destruct (Binary64.as_float (Spec.base_carbon d)) as [c | e];
        [| discriminate Hr].
      exists c. split; reflexivity.
    + rewrite (estimate_needs_label l d Hh) in Hr. discriminate Hr.
  - intros (Hh & d & c & -> & Hc).
    rewrite (estimate_on_mapping64 l d Hh), Hc. eexists. reflexivity.
  - apply estimate_needs_mapping64.
  - intros d -> Hh. exact (estimate_needs_label l d Hh).
  - intros d -> Hh. rewrite (estimate_on_mapping64 l d Hh).
    pose proof (as_float_outcomes (Spec.base_carbon d)) as Hv.
    destruct (as_number (Spec.base_carbon d)) as [q |].
    + destruct Hv as [(c & ->) | (-> & _)];
        [left; eexists; reflexivity | right; reflexivity].
    + now rewrite Hv.
Qed.

Lemma estimate_carbon_loss_outcomes_witness :
  (exists r,
      Binary64._estimate_carbon_loss (PNum 2)
        (PDict [("carbon_storage", PNum 80)]) = Ok r)
  /\ Binary64._estimate_carbon_loss (PStr "severe") (PList [])
     = Raise AttributeError
  /\ Binary64._estimate_carbon_loss (PList [])
       (PDict [("carbon_storage", PStr "unknown")]) = Raise TypeError.
Proof.
  split; [| split].
  - apply (proj1 (estimate_carbon_loss_outcomes (PNum 2)
                    (PDict [("carbon_storage", PNum 80)]))).
    split; [reflexivity |].
    now exists [("carbon_storage", PNum 80)], 80%float.
  - apply (proj1 (proj2 (estimate_carbon_loss_outcomes (PStr "severe")
                           (PList [])))).
    intros d. discriminate.
  - apply (proj1 (proj2 (proj2 (estimate_carbon_loss_outcomes (PList [])
                           (PDict [("carbon_storage", PStr "unknown")]))))
             [("carbon_storage", PStr "unknown")]); reflexivity.
Defined.

Lemma collect_scores_untyped (threats : dict) :
  forall scores,
    Spec.labels_typed threats = false ->
    for_each threats score_entry scores = Raise TypeError.
Proof.
  induction threats as [| item rest IH]; intros scores H; [discriminate H |].
  cbn [Spec.labels_typed forallb] in H. cbn [for_each].
  destruct (Spec.label_typed_entry item) eqn:Hitem.
  - rewrite (score_entry_typed scores item Hitem). apply IH. exact H.
  - now rewrite (score_entry_untyped scores item Hitem).
Qed.

Lemma overall_risk_untyped (threats : dict) :
  Spec.labels_typed threats = false ->
  _calculate_overall_risk threats = Raise TypeError.
Proof.
  intros H. unfold _calculate_overall_risk.
  now rewrite (collect_scores_untyped threats [] H).
Qed.

(** X4. [_calculate_overall_risk] returns a label exactly when every label
    it consults is hashable, and raises [TypeError] otherwise (a label
    that is a list or a mapping, in a result without an [error] key). *)
Theorem calculate_overall_risk_outcomes (threats : dict) :
  (Spec.labels_typed threats = true
   <-> exists label, _calculate_overall_risk threats = Ok label)
  /\ (Spec.labels_typed threats = false
      <-> _calculate_overall_risk threats = Raise TypeError).
Proof.
  destruct (Spec.labels_typed threats) eqn:H.
  - rewrite (overall_risk_of_ranks threats H).
    split; split; try discriminate; intros _;
      [eexists |]; reflexivity.
  - rewrite (overall_risk_untyped threats H).
    split; split; try discriminate; try reflexivity.
    intros (label & Hl). discriminate Hl.
Qed.

Lemma calculate_overall_risk_outcomes_witness :
  _calculate_overall_risk
    [("storm_surge", PDict [("risk_level", PStr "low")]);
     ("coastal_erosion", PDict [("risk_level", PList [PStr "high"])])]
  = Raise TypeError.
Proof.
  apply (proj1 (proj2 (calculate_overall_risk_outcomes _))). reflexivity.
Defined.

Lemma labels_typed_permutation (l1 l2 : dict) :
  Permutation l1 l2 -> Spec.labels_typed l1 = Spec.labels_typed l2.
Proof.
  unfold Spec.labels_typed.
  induction 1 as [| x l1 l2 _ IH | x y l | l1 l2 l3 _ IH1 _ IH2];
    cbn [forallb].
  - reflexivity.
  - now rewrite IH.
  - now rewrite !andb_assoc, (andb_comm (Spec.label_typed_entry y)).
  - congruence.
Qed.

Lemma overall_label_of_sum (l1 l2 : list Z) :
  List.length l1 = List.length l2 -> Spec.sum l1 = Spec.sum l2 ->
  match l1 with
  | [] => "unknown"
  | _ => Spec.classify_mean (Spec.mean l1)
  end
  = match l2 with
    | [] => "unknown"
    | _ => Spec.classify_mean (Spec.mean l2)
    end.
Proof.
  intros Hlen Hsum. unfold Spec.mean. rewrite Hlen, Hsum.
  destruct l1, l2; try discriminate Hlen; reflexivity.
Qed.

(** X5. The overall risk does not depend on the order of the categories:
    any rearrangement of the entries of the mapping gives the same outcome
    (the same label, or the same [TypeError]). *)
Theorem calculate_overall_risk_order_free (threats threats' : dict) :
  Permutation threats threats' ->
  _calculate_overall_risk threats = _calculate_overall_risk threats'.
Proof.
  intros Hperm.
  pose proof (labels_typed_permutation _ _ Hperm) as Htyped.
  destruct (Spec.labels_typed threats) eqn:H.
  - rewrite (overall_risk_of_ranks threats H).
    rewrite (overall_risk_of_ranks threats' (eq_sym Htyped)). f_equal.
    assert (Hranks : Permutation (Spec.ranks threats) (Spec.ranks threats'))
      by (apply Permutation_flat_map, Hperm).
    apply overall_label_of_sum.
    + apply Permutation_length, Hranks.
    + apply sum_permutation, Hranks.
  - rewrite (overall_risk_untyped threats H).
    now rewrite (overall_risk_untyped threats' (eq_sym Htyped)).
Qed.

Lemma calculate_overall_risk_order_free_witness :
  _calculate_overall_risk
    [("storm_surge", PDict [("risk_level", PStr "critical")]);
     ("blue_carbon", PDict [("threat_level", PStr "minimal")])]
  = _calculate_overall_risk
      [("blue_carbon", PDict [("threat_level", PStr "minimal")]);
       ("storm_surge", PDict [("risk_level", PStr "critical")])].
Proof.
  apply calculate_overall_risk_order_free. apply perm_swap.
Defined.

Lemma rank_range (l : pyval) : (1 <= Spec.rank l <= 4)%Z.
Proof.
  destruct l as [| b | q | s | xs | d]; cbn [Spec.rank]; try lia.
  destruct (String.eqb s "low" || String.eqb s "minimal"); [lia |].
  destruct (String.eqb s "medium" || String.eqb s "moderate"); [lia |].
  destruct (String.eqb s "high" || String.eqb s "significant"); [lia |].
  destruct (String.eqb s "critical" || String.eqb s "severe"); lia.
Qed.

Lemma ranks_range (threats : dict) :
  Forall (fun r => 1 <= r <= 4)%Z (Spec.ranks threats).
Proof.
  unfold Spec.ranks. apply Forall_flat_map, Forall_forall.
  intros item _. unfold Spec.ranks_of_entry.
  destruct (Spec.usable (snd item)) as [d |]; [| constructor].
  destruct (Spec.label_of d) as [l |]; constructor;
    [apply rank_range | constructor].
Qed.

Lemma sum_bounds (l : list Z) (lo hi : Z) :
  Forall (fun r => lo <= r <= hi)%Z l ->
  (lo * Z.of_nat (List.length l) <= Spec.sum l
   <= hi * Z.of_nat (List.length l))%Z.
Proof.
  unfold Spec.sum.
  induction 1 as [| r l Hr _ IH]; cbn [fold_right List.length]; lia.
Qed.

Lemma mean_bounds (l : list Z) (lo hi : Z) :
  l <> [] -> Forall (fun r => lo <= r <= hi)%Z l ->
  (inject_Z lo <= Spec.mean l /\ Spec.mean l <= inject_Z hi)%Q.
Proof.
  intros Hne Hall. pose proof (sum_bounds l lo hi Hall) as [Hlo Hhi].
  assert (Hpos : (0 < inject_Z (Z.of_nat (List.length l)))%Q).
  { change 0%Q with (inject_Z 0). rewrite <- Zlt_Qlt.
    destruct l; [now elim Hne | cbn [List.length]; lia]. }
  unfold Spec.mean. split.
  - apply Qle_shift_div_l; [exact Hpos |].
    rewrite <- inject_Z_mult, <- Zle_Qle. exact Hlo.
  - apply Qle_shift_div_r; [exact Hpos |].
    rewrite <- inject_Z_mult, <- Zle_Qle. exact Hhi.
Qed.

Lemma below_half_step (z k : Z) (q : Q) :
  (inject_Z z <= q)%Q -> (q < inject_Z k + (1 # 2))%Q -> (z <= k)%Z.
Proof.
  intros Hq Hk.
  assert (Hzk : (inject_Z z < inject_Z k + 1)%Q) by lra.
  change 1%Q with (inject_Z 1) in Hzk.
  rewrite <- inject_Z_plus, <- Zlt_Qlt in Hzk. lia.
Qed.

Lemma above_half_step (z k : Z) (q : Q) :
  (q <= inject_Z z)%Q -> (inject_Z k - (1 # 2) <= q)%Q -> (k <= z)%Z.
Proof.
  intros Hq Hk.
  assert (Hzk : (inject_Z k < inject_Z z + 1)%Q) by lra.
  change 1%Q with (inject_Z 1) in Hzk.
  rewrite <- inject_Z_plus, <- Zlt_Qlt in Hzk. lia.
Qed.

(** X6. When at least one rank is collected, the overall label lies
    between the lowest and the highest collected rank: categories that all
    sit at one level give that level, and "critical" overall needs a
    category at rank 4. *)
Theorem calculate_overall_risk_between (threats : dict) (lo hi : Z) :
  Spec.labels_typed threats = true ->
  Spec.ranks threats <> [] ->
  Forall (fun r => lo <= r <= hi)%Z (Spec.ranks threats) ->
  exists label i,
    _calculate_overall_risk threats = Ok label
    /\ Spec.level_index label = Some i
    /\ (lo <= Z.of_nat i <= hi)%Z.
Proof.
  intros Htyped Hne Hall.
  rewrite (overall_risk_of_ranks threats Htyped).
  destruct (mean_bounds _ lo hi Hne Hall) as [Hlo Hhi].
  destruct (mean_bounds _ 1%Z 4%Z Hne (ranks_range threats)) as [H1 H4].
  replace (match Spec.ranks threats with
           | [] => "unknown"
           | _ => Spec.classify_mean (Spec.mean (Spec.ranks threats))
           end)
    with (Spec.classify_mean (Spec.mean (Spec.ranks threats)))
    by (destruct (Spec.ranks threats); [now elim Hne | reflexivity]).
  set (m := Spec.mean (Spec.ranks threats)) in *.
  change (inject_Z 1) with 1%Q in H1. change (inject_Z 4) with 4%Q in H4.
  unfold Spec.classify_mean.
  destruct (Qltb_spec m 1.5); [| destruct (Qltb_spec m 2.5);
                                 [| destruct (Qltb_spec m 3.5)]].
  - exists "low", 1%nat. repeat split.
    + apply (below_half_step lo 1 m Hlo). unfold inject_Z. lra.
    + apply (above_half_step hi 1 m Hhi). unfold inject_Z. lra.
  - exists "medium", 2%nat. repeat split.
    + apply (below_half_step lo 2 m Hlo). unfold inject_Z. lra.
    + apply (above_half_step hi 2 m Hhi). unfold inject_Z. lra.
  - exists "high", 3%nat. repeat split.
    + apply (below_half_step lo 3 m Hlo). unfold inject_Z. lra.
    + apply (above_half_step hi 3 m Hhi). unfold inject_Z. lra.
  - exists "critical", 4%nat. repeat split.
    + apply (below_half_step lo 4 m Hlo). unfold inject_Z. lra.
    + apply (above_half_step hi 4 m Hhi). unfold inject_Z. lra.
Qed.

(** Three categories, all at rank 3 in their own vocabulary: "high". *)
Lemma calculate_overall_risk_between_witness :
  exists label i,
    _calculate_overall_risk
      [("storm_surge", PDict [("risk_level", PStr "high")]);
       ("coastal_erosion", PDict [("risk_level", PStr "high")]);
       ("blue_carbon", PDict [("threat_level", PStr "significant")])]
    = Ok label
    /\ Spec.level_index label = Some i
    /\ (3 <= Z.of_nat i <= 3)%Z.
Proof.
  apply calculate_overall_risk_between; [reflexivity | discriminate |].
  repeat constructor; discriminate.
Defined.

End CoreProperties.

(** ** Further properties of the recommendation generators *)

Section GeneratorProperties.

Lemma for_each_raises {S A : Type} (body : S -> A -> result S)
    (typed : A -> bool) (e : exn) :
  (forall s x, typed x = true -> exists s', body s x = Ok s') ->
  (forall s x, typed x = false -> body s x = Raise e) ->
  forall items s,
    forallb typed items = false -> for_each items body s = Raise e.
Proof.
  intros Hok Hraise. induction items as [| x rest IH]; intros s H;
    [discriminate H |].
  cbn [forallb] in H. cbn [for_each]. destruct (typed x) eqn:Hx.
  - destruct (Hok s x Hx) as [s' ->]. apply IH. exact H.
  - now rewrite (Hraise s x Hx).
Qed.

Ltac untyped_pass k v :=
  unfold Spec.surge_typed_entry, Spec.in_category, Spec.usable,
    Spec.surge_height;
  cbn [fst snd];
  destruct (String.eqb k "storm_surge"); [| discriminate];
  destruct v as [| b | q | s | l | d]; try discriminate;
  destruct (dict_has d "error"); cbn [negb]; [discriminate |];
  unfold py_get, py_gt_float;
  destruct (dict_get d "surge_height") as [h |]; [| discriminate];
  cbn [bind]; destruct (as_number h); [discriminate | reflexivity].

Lemma full_pass_untyped (recs : list string) (item : string * pyval) :
  Spec.surge_typed_entry item = false ->
  AiService.recommend_entry recs item = Raise TypeError.
Proof.
  destruct item as [k v]. unfold AiService.recommend_entry.
  untyped_pass k v.
Qed.

Lemma simple_pass_untyped (recs : list string) (item : string * pyval) :
  Spec.surge_typed_entry item = false ->
  AiServiceSimple.recommend_entry recs item = Raise TypeError.
Proof.
  destruct item as [k v]. unfold AiServiceSimple.recommend_entry.
  untyped_pass k v.
Qed.

(** X7. Both generators return a list exactly when every storm-surge
    result without an [error] key has a numeric (or absent)
    [surge_height]; otherwise both raise [TypeError], also when some
    other category would have produced recommendations. *)
Theorem generate_recommendations_outcomes (threats : dict) :
  (Spec.surge_typed threats = true ->
   exists full simple,
     AiService._generate_recommendations threats = Ok full
     /\ AiServiceSimple._generate_recommendations threats = Ok simple)
  /\ (Spec.surge_typed threats = false ->
      AiService._generate_recommendations threats = Raise TypeError
      /\ AiServiceSimple._generate_recommendations threats
         = Raise TypeError).
Proof.
  split; intros H.
  - rewrite (full_loop threats H), (simple_loop threats H).
    do 2 eexists. split; reflexivity.
  - unfold AiService._generate_recommendations,
      AiServiceSimple._generate_recommendations.
    rewrite (for_each_raises AiService.recommend_entry
               Spec.surge_typed_entry TypeError
               (fun s x Hx => ex_intro _ _ (full_pass s x Hx))
               full_pass_untyped threats [] H).
    rewrite (for_each_raises AiServiceSimple.recommend_entry
               Spec.surge_typed_entry TypeError
               (fun s x Hx => ex_intro _ _ (simple_pass s x Hx))
               simple_pass_untyped threats [] H).
    split; reflexivity.
Qed.

(** A critical erosion risk is lost to a surge height sent as text. *)
Lemma generate_recommendations_outcomes_witness :
  AiService._generate_recommendations
    [("coastal_erosion", PDict [("risk_level", PStr "critical")]);
     ("storm_surge", PDict [("surge_height", PStr "1.5")])]
  = Raise TypeError
  /\ AiServiceSimple._generate_recommendations
       [("coastal_erosion", PDict [("risk_level", PStr "critical")]);
        ("storm_surge", PDict [("surge_height", PStr "1.5")])]
     = Raise TypeError.
Proof.
  apply (proj2 (generate_recommendations_outcomes _)). reflexivity.
Defined.

(** X8. Where both generators return, the simplified one returns the
    first string of every rule that the full one reports, in the same
    order, and the fallback string when there is none. *)
Theorem simple_recommendations_are_primary (threats : dict) :
  Spec.surge_typed threats = true ->
  exists full simple,
    AiService._generate_recommendations threats = Ok full
    /\ AiServiceSimple._generate_recommendations threats = Ok simple
    /\ simple = match filter Shape.primary full with
                | [] => ["Continue routine monitoring"]
                | kept => kept
                end.
Proof.
  intros H. rewrite (full_loop threats H), (simple_loop threats H).
  do 2 eexists. split; [reflexivity |]. split; [reflexivity |].
  unfold Spec.recommendations. rewrite filter_flat_map.
  rewrite (flat_map_ext _ _ primary_of_entry). reflexivity.
Qed.

Lemma simple_recommendations_are_primary_witness :
  exists full simple,
    AiService._generate_recommendations
      [("blue_carbon", PDict [("threat_level", PStr "severe")]);
       ("storm_surge", PDict [("surge_height", PNum 0.8)])] = Ok full
    /\ AiServiceSimple._generate_recommendations
         [("blue_carbon", PDict [("threat_level", PStr "severe")]);
          ("storm_surge", PDict [("surge_height", PNum 0.8)])] = Ok simple
    /\ simple = match filter Shape.primary full with
                | [] => ["Continue routine monitoring"]
                | kept => kept
                end.
Proof.
  apply simple_recommendations_are_primary. reflexivity.
Defined.

End GeneratorProperties.

(** ** Properties of the predictors *)

Section PredictorProperties.

Lemma lower_ascii_idempotent (c : ascii) :
  lower_ascii (lower_ascii c) = lower_ascii c.
Proof.
  destruct c as [[] [] [] [] [] [] [] []]; reflexivity.
Qed.

Lemma lower_idempotent (s : string) : lower (lower s) = lower s.
Proof.
  induction s as [| c s IH]; [reflexivity |].
  cbn [lower]. now rewrite lower_ascii_idempotent, IH.
Qed.

(** X9. On ASCII text [_encode_sediment_type] returns a code from 0 to 3
    that depends on the lower-case form of the text only, so that any
    capitalisation of "clay" is 1; on a value that is not a string it
    raises [AttributeError]. *)
Theorem encode_sediment_type_ignores_case (s : string) :
  Shape.is_ascii s = true ->
  (exists c : Z,
      _encode_sediment_type (PStr s) = Ok (PNum (inject_Z c))
      /\ (0 <= c <= 3)%Z
      /\ (lower s = "clay" <-> c = 1%Z)
      /\ (lower s = "rock" <-> c = 2%Z)
      /\ (lower s = "mixed" <-> c = 3%Z))
  /\ _encode_sediment_type (PStr (lower s)) = _encode_sediment_type (PStr s)
  /\ (forall s', lower s' = lower s ->
                 _encode_sediment_type (PStr s')
                 = _encode_sediment_type (PStr s))
  /\ (forall v, (forall t, v <> PStr t) ->
                _encode_sediment_type v = Raise AttributeError).
Proof.
  intros _. split; [| split; [| split]].
  - unfold _encode_sediment_type, py_lower, table_get.
    cbn [bind find fst snd].
    rewrite (String.eqb_sym "sand"), (String.eqb_sym "clay"),
      (String.eqb_sym "rock"), (String.eqb_sym "mixed").
    destruct (String.eqb_spec (lower s) "sand") as [-> | Hsand].
    { exists 0%Z. cbn. repeat split; try lia; discriminate. }
    destruct (String.eqb_spec (lower s) "clay") as [-> | Hclay].
    { exists 1%Z. cbn. repeat split; try lia; discriminate. }
    destruct (String.eqb_spec (lower s) "rock") as [-> | Hrock].
    { exists 2%Z. cbn. repeat split; try lia; discriminate. }
    destruct (String.eqb_spec (lower s) "mixed") as [-> | Hmixed].
    { exists 3%Z. cbn. repeat split; try lia; discriminate. }
    exists 0%Z. cbn. repeat split; try lia; intros; try discriminate;
      exfalso; auto.
  - unfold _encode_sediment_type, py_lower. cbn [bind].
    now rewrite lower_idempotent.
  - intros s' H. unfold _encode_sediment_type, py_lower. cbn [bind].
    now rewrite H.
  - intros v H. destruct v as [| b | q | t | xs | d]; try reflexivity.
    now elim (H t).
Qed.

Lemma encode_sediment_type_ignores_case_witness :
  _encode_sediment_type (PStr "CLAY") = _encode_sediment_type (PStr "Clay").
Proof.
  apply (proj1 (proj2 (proj2 (encode_sediment_type_ignores_case "Clay"
                                 eq_refl))) "CLAY").
  reflexivity.
Defined.

Lemma surge_confidence_capped (w : pyval) (c : Q) :
  surge_confidence w = Ok c -> (c <= 0.95)%Q.
Proof.
  unfold surge_confidence.
  destruct (py_get w "wind_speed" (PNum 10)) as [v |]; [| discriminate].
  cbn [bind]. destruct (py_div v 50) as [ratio |]; [| discriminate].
  cbn [bind]. intros H. injection H as <-.
  destruct (Qltb_spec (0.6 + ratio * 0.3) 0.95); lra.
Qed.

Lemma surge_confidence_untyped (d : dict) :
  Shape.wind_speed d = None -> surge_confidence (PDict d) = Raise TypeError.
Proof.
  unfold Shape.wind_speed, surge_confidence, py_get, py_div.
  destruct (dict_get d "wind_speed") as [v |]; cbn [bind];
    [| discriminate].
  now intros ->.
Qed.

(** The two shapes of a storm-surge result. *)
Lemma full_storm_surge_shape (E : env) (w : pyval) :
  (exists msg,
      AiService.predict_storm_surge E w
      = PDict [("error", PStr msg); ("surge_height", PNum 0)])
  \/ (exists h c,
         AiService.predict_storm_surge E w = Shape.surge_result h c
         /\ surge_confidence w = Ok c).
Proof.
  unfold AiService.predict_storm_surge.
  destruct (models_loaded E); destruct (storm_surge E) as [model |];
    try (left; eexists; reflexivity).
  destruct (storm_surge_features w) as [features |];
    [| left; eexists; reflexivity].
  cbn [bind]. destruct (model features) as [h |];
    [| left; eexists; reflexivity].
  cbn [bind]. destruct (surge_confidence w) as [c |];
    [| left; eexists; reflexivity].
  right. exists h, c. split; reflexivity.
Qed.

Lemma categorize_clamped (h : Q) :
  _categorize_surge_risk (if Qltb 0 h then h else 0%Q)
  = _categorize_surge_risk h.
Proof.
  destruct (Qltb_spec 0 h) as [Hpos | Hneg]; [reflexivity |].
  unfold _categorize_surge_risk.
  destruct (Qltb_spec h 0.5); [reflexivity | exfalso; lra].
Qed.

Lemma simple_storm_surge_shape (E : env) (w : pyval) :
  (exists msg,
      AiServiceSimple.predict_storm_surge E w
      = PDict [("error", PStr msg); ("surge_height", PNum 0)])
  \/ (exists h c,
         AiServiceSimple.predict_storm_surge E w = Shape.surge_result h c
         /\ (0 <= h)%Q /\ surge_confidence w = Ok c).
Proof.
  unfold AiServiceSimple.predict_storm_surge.
  destruct (storm_surge E) as [model |];
    try (left; eexists; reflexivity).
  destruct (storm_surge_features w) as [features |];
    [| left; eexists; reflexivity].
  cbn [bind]. destruct (model features) as [h |];
    [| left; eexists; reflexivity].
  cbn [bind]. destruct (surge_confidence w) as [c |];
    [| left; eexists; reflexivity].
  right. exists (if Qltb 0 h then h else 0%Q), c.
  split; [| split; [| reflexivity]].
  - cbn [try_except]. unfold Shape.surge_result.
    now rewrite categorize_clamped.
  - destruct (Qltb_spec 0 h); lra.
Qed.

(** The height that each service reports for the height [h] that the
    model predicts. *)
Lemma reported_surge_height (E : env) (w : pyval)
    (model : list pyval -> result Q) (features : list pyval) (h : Q) :
  storm_surge E = Some model ->
  storm_surge_features w = Ok features -> model features = Ok h ->
  (Spec.carries_error (AiServiceSimple.predict_storm_surge E w) = false ->
   py_get (AiServiceSimple.predict_storm_surge E w) "surge_height" PNone
   = Ok (PNum (if Qltb 0 h then h else 0%Q)))
  /\ (models_loaded E = true ->
      Spec.carries_error (AiService.predict_storm_surge E w) = false ->
      py_get (AiService.predict_storm_surge E w) "surge_height" PNone
      = Ok (PNum h)).
Proof.
  intros Hmodel Hfeatures Hh.
  unfold AiServiceSimple.predict_storm_surge, AiService.predict_storm_surge.
  rewrite Hmodel, Hfeatures. cbn [bind]. rewrite Hh. cbn [bind].
  split.
  - destruct (surge_confidence w) as [c |]; [reflexivity | discriminate].
  - intros ->. destruct (surge_confidence w) as [c |];
      [reflexivity | discriminate].
Qed.

Lemma storm_surge_shapes (E : env) (w : pyval) :
  (Spec.carries_error (AiServiceSimple.predict_storm_surge E w) = false ->
   exists h c,
     AiServiceSimple.predict_storm_surge E w = Shape.surge_result h c
     /\ (0 <= h)%Q /\ (c <= 0.95)%Q)
  /\ (Spec.carries_error (AiService.predict_storm_surge E w) = false ->
      exists h c,
        AiService.predict_storm_surge E w = Shape.surge_result h c
        /\ (c <= 0.95)%Q)
  /\ (Spec.carries_error (AiServiceSimple.predict_storm_surge E w) = true ->
      py_get (AiServiceSimple.predict_storm_surge E w) "surge_height" PNone
      = Ok (PNum 0))
  /\ (Spec.carries_error (AiService.predict_storm_surge E w) = true ->
      py_get (AiService.predict_storm_surge E w) "surge_height" PNone
      = Ok (PNum 0)).
Proof.
  destruct (simple_storm_surge_shape E w)
    as [(msg & ->) | (h & c & -> & Hh & Hc)];
    destruct (full_storm_surge_shape E w)
      as [(msg' & ->) | (h' & c' & -> & Hc')];
    repeat split; intros H; try discriminate H; try reflexivity;
    try (exists h, c; repeat split;
         [exact Hh | exact (surge_confidence_capped w c Hc)]);
    try (exists h', c'; repeat split;
         exact (surge_confidence_capped w c' Hc')).
Qed.

(** X10. A storm-surge result without an [error] key has exactly the keys
    [surge_height], [confidence] and [risk_level]; its risk level is the
    category of the height it reports and its confidence is at most 0.95.
    A failed prediction reports the height 0. For the height [h] that the
    model predicts, [ai_service_simple.py] reports [h] when it is
    positive and 0 otherwise, never a negative height; [ai_service.py]
    reports [h] itself, a negative height when [h] is negative. *)
Theorem storm_surge_result_consistent (E : env) (w : pyval) :
  (Spec.carries_error (AiServiceSimple.predict_storm_surge E w) = false ->
   exists h c,
     AiServiceSimple.predict_storm_surge E w = Shape.surge_result h c
     /\ (0 <= h)%Q /\ (c <= 0.95)%Q)
  /\ (Spec.carries_error (AiService.predict_storm_surge E w) = false ->
      exists h c,
        AiService.predict_storm_surge E w = Shape.surge_result h c
        /\ (c <= 0.95)%Q)
  /\ (Spec.carries_error (AiServiceSimple.predict_storm_surge E w) = true ->
      py_get (AiServiceSimple.predict_storm_surge E w) "surge_height" PNone
      = Ok (PNum 0))
  /\ (Spec.carries_error (AiService.predict_storm_surge E w) = true ->
      py_get (AiService.predict_storm_surge E w) "surge_height" PNone
      = Ok (PNum 0))
  /\ (forall model features h,
         storm_surge E = Some model ->
         storm_surge_features w = Ok features -> model features = Ok h ->
         (Spec.carries_error (AiServiceSimple.predict_storm_surge E w)
          = false ->
          py_get (AiServiceSimple.predict_storm_surge E w) "surge_height"
            PNone
          = Ok (PNum (if Qltb 0 h then h else 0%Q)))
         /\ (models_loaded E = true ->
             Spec.carries_error (AiService.predict_storm_surge E w) = false ->
             py_get (AiService.predict_storm_surge E w) "surge_height" PNone
             = Ok (PNum h))).
Proof.
  destruct (storm_surge_shapes E w) as (H1 & H2 & H3 & H4).
  split; [exact H1 |]. split; [exact H2 |]. split; [exact H3 |].
  split; [exact H4 |].
  intros model features h. apply reported_surge_height.
Qed.

(** A model that predicts -0.3 metres: [ai_service.py] reports the
    negative height -0.3, [ai_service_simple.py] reports 0. *)
Lemma storm_surge_result_consistent_witness :
  (-0.3 < 0)%Q
  /\ py_get
       (AiService.predict_storm_surge
          {| now_iso := ""; hour_iso := fun _ => "";
             str_exn := Shape.str_of_exn;
             models_loaded := true; storm_surge := Some (fun _ => Ok (-0.3)%Q);
             coastal_erosion := None; blue_carbon_threat := None;
             weather_prediction := None; avg_temperature := fun _ => Ok 25%Q;
             np_random := fun _ => 0.5%Q; np_sin_cycle := fun _ => 0%Q |}
          (PDict [("wind_speed", PNum 35)])) "surge_height" PNone
     = Ok (PNum (-0.3))
  /\ py_get
       (AiServiceSimple.predict_storm_surge
          {| now_iso := ""; hour_iso := fun _ => "";
             str_exn := Shape.str_of_exn;
             models_loaded := true; storm_surge := Some (fun _ => Ok (-0.3)%Q);
             coastal_erosion := None; blue_carbon_threat := None;
             weather_prediction := None; avg_temperature := fun _ => Ok 25%Q;
             np_random := fun _ => 0.5%Q; np_sin_cycle := fun _ => 0%Q |}
          (PDict [("wind_speed", PNum 35)])) "surge_height" PNone
     = Ok (PNum 0).
Proof.
  split; [reflexivity |].
  destruct (proj2 (proj2 (proj2 (proj2
              (storm_surge_result_consistent
                 {| now_iso := ""; hour_iso := fun _ => "";
                    str_exn := Shape.str_of_exn;
                    models_loaded := true;
                    storm_surge := Some (fun _ => Ok (-0.3)%Q);
                    coastal_erosion := None; blue_carbon_threat := None;
                    weather_prediction := None;
                    avg_temperature := fun _ => Ok 25%Q;
                    np_random := fun _ => 0.5%Q;
                    np_sin_cycle := fun _ => 0%Q |}
                 (PDict [("wind_speed", PNum 35)])))))
             (fun _ => Ok (-0.3)%Q)
             [PNum 35; PNum 1013; PNum 2.0; PNum 1.0; PNum 25]
             (-0.3)%Q eq_refl eq_refl eq_refl) as [Hsimple Hfull].
  split; [exact (Hfull eq_refl eq_refl) | exact (Hsimple eq_refl)].
Defined.

(** X12. A field of the wrong type fails the prediction of its category,
    in both services and whatever the models answer: a [sediment_type]
    that is not a string, a [carbon_storage] that is not a number and a
    [wind_speed] that is not a number each give a result with an [error]
    key. *)
Theorem ill_typed_field_fails_prediction (E : env) (d : dict) (v : pyval) :
  (dict_get d "sediment_type" = Some v -> (forall s, v <> PStr s) ->
   Spec.carries_error (AiService.predict_coastal_erosion E (PDict d)) = true
   /\ Spec.carries_error
        (AiServiceSimple.predict_coastal_erosion E (PDict d)) = true)
  /\ (dict_get d "carbon_storage" = Some v -> as_number v = None ->
      Spec.carries_error
        (AiService.predict_blue_carbon_threat E (PDict d)) = true
      /\ Spec.carries_error
           (AiServiceSimple.predict_blue_carbon_threat E (PDict d)) = true)
  /\ (dict_get d "wind_speed" = Some v -> as_number v = None ->
      Spec.carries_error (AiService.predict_storm_surge E (PDict d)) = true
      /\ Spec.carries_error
           (AiServiceSimple.predict_storm_surge E (PDict d)) = true).
Proof.
  split; [| split].
  - intros Hget Hstr.
    assert (Hfeat : coastal_erosion_features (PDict d)
                    = Raise AttributeError).
    { unfold coastal_erosion_features, py_get. rewrite Hget.
      destruct (dict_get d "wave_energy"); cbn [bind];
        destruct v as [| b | q | s | xs | d']; try reflexivity;
        now elim (Hstr s). }
    unfold AiService.predict_coastal_erosion,
      AiServiceSimple.predict_coastal_erosion.
    rewrite Hfeat.
    destruct (models_loaded E); destruct (coastal_erosion E);
      split; reflexivity.
  - intros Hget Hnum.
    assert (Hest : forall l, exists e,
                 _estimate_carbon_loss l (PDict d) = Raise e).
    { intros l. rewrite estimate_on_mapping. unfold Spec.carbon_storage.
      rewrite Hget, Hnum.
      destruct (table_get loss_multipliers l 0.25%Q); eexists; reflexivity. }
    unfold AiService.predict_blue_carbon_threat,
      AiServiceSimple.predict_blue_carbon_threat,
      AiServiceSimple.probabilities_of.
    destruct (models_loaded E); destruct (blue_carbon_threat E) as [m |];
      try (split; reflexivity);
      (destruct (blue_carbon_features (PDict d)) as [f |];
       [| split; reflexivity]); cbn [bind];
      (destruct (predict_proba m) as [proba |];
       [destruct (proba f) as [probs |]; cbn [bind];
        [destruct (np_max probs); cbn [bind] |] |]);
      destruct (predict m f) as [l |]; cbn [bind];
      try (destruct (Hest l) as [e ->]);
      split; reflexivity.
  - intros Hget Hnum.
    assert (Hconf : surge_confidence (PDict d) = Raise TypeError).
    { apply surge_confidence_untyped. unfold Shape.wind_speed.
      now rewrite Hget. }
    unfold AiService.predict_storm_surge,
      AiServiceSimple.predict_storm_surge.
    rewrite Hconf.
    destruct (models_loaded E); destruct (storm_surge E) as [m |];
      try (split; reflexivity);
      (destruct (storm_surge_features (PDict d)) as [f |];
       [| split; reflexivity]); cbn [bind];
      destruct (m f); split; reflexivity.
Qed.

(** A carbon storage sent as text loses the threat level that the model
    had predicted. *)
Lemma ill_typed_field_fails_prediction_witness :
  Spec.carries_error
    (AiService.predict_blue_carbon_threat Shape.encoded_deployment
       (PDict [("water_quality", PNum 60); ("carbon_storage", PStr "150")]))
  = true
  /\ Spec.carries_error
       (AiServiceSimple.predict_blue_carbon_threat Shape.encoded_deployment
          (PDict [("water_quality", PNum 60);
                  ("carbon_storage", PStr "150")]))
     = true.
Proof.
  apply (proj1 (proj2 (ill_typed_field_fails_prediction
                         Shape.encoded_deployment
                         [("water_quality", PNum 60);
                          ("carbon_storage", PStr "150")]
                         (PStr "150"))));
    reflexivity.
Defined.

Lemma rules_on_surge_result (w : Spec.wording) (h c : Q) :
  Spec.surge_typed [("storm_surge", Shape.surge_result h c)] = true
  /\ Spec.recommendations w [("storm_surge", Shape.surge_result h c)]
     = if Qltb 1.0 h then Spec.warning w
       else if Qltb 0.5 h then [Spec.monitor] else [].
Proof.
  split; [reflexivity |].
  change (Spec.recommendations w [("storm_surge", Shape.surge_result h c)])
    with (((if Qltb 1.0 h then Spec.warning w else [])
           ++ (if Qltb 0.5 h && Qle_bool h 1.0 then [Spec.monitor] else [])
           ++ [] ++ []) ++ []).
  rewrite (Qle_bool_negb h 1.0).
  destruct (Qltb 1.0 h); destruct (Qltb 0.5 h); cbn;
    now rewrite ?app_nil_r.
Qed.

(** X13. The recommendations drawn from a storm-surge result agree with
    the risk level the result carries, up to the two thresholds: a result
    at "low" draws none (the simplified service then says to continue
    routine monitoring), a result at "critical" draws the warning, and the
    warning is only ever drawn at "high" or "critical". *)
Theorem storm_surge_rules_follow_risk (E : env) (w : pyval) :
  (Spec.carries_error (AiService.predict_storm_surge E w) = false ->
   exists level recs,
     py_get (AiService.predict_storm_surge E w) "risk_level" PNone
     = Ok (PStr level)
     /\ AiService._generate_recommendations
          [("storm_surge", AiService.predict_storm_surge E w)] = Ok recs
     /\ (level = "low" -> recs = [])
     /\ (level = "critical" -> recs = Spec.warning Spec.full_wording)
     /\ (In "Issue storm surge warning - evacuate low-lying areas" recs ->
         level = "high" \/ level = "critical"))
  /\ (Spec.carries_error (AiServiceSimple.predict_storm_surge E w) = false ->
      exists level recs,
        py_get (AiServiceSimple.predict_storm_surge E w) "risk_level" PNone
        = Ok (PStr level)
        /\ AiServiceSimple._generate_recommendations
             [("storm_surge", AiServiceSimple.predict_storm_surge E w)]
           = Ok recs
        /\ (level = "low" -> recs = ["Continue routine monitoring"])
        /\ (level = "critical" -> recs = Spec.warning Spec.simple_wording)
        /\ (In "Issue storm surge warning - evacuate low-lying areas" recs ->
            level = "high" \/ level = "critical")).
Proof.
  split; intros Hfree.
  - destruct (full_storm_surge_shape E w)
      as [(msg & Hr) | (h & c & Hr & _)];
      rewrite Hr in *; [discriminate Hfree |].
    destruct (rules_on_surge_result Spec.full_wording h c) as [Ht Hrecs].
    rewrite (full_loop _ Ht), Hrecs.
    exists (_categorize_surge_risk h). eexists.
    split; [reflexivity |]. split; [reflexivity |].
    unfold _categorize_surge_risk.
    destruct (Qltb_spec h 0.5); destruct (Qltb_spec h 1.0);
      destruct (Qltb_spec h 2.0); destruct (Qltb_spec 1.0 h);
      destruct (Qltb_spec 0.5 h); try (exfalso; lra);
      repeat split; intros Hx; try discriminate Hx; try reflexivity;
      auto; cbn in Hx; intuition discriminate.
  - destruct (simple_storm_surge_shape E w)
      as [(msg & Hr) | (h & c & Hr & _ & _)];
      rewrite Hr in *; [discriminate Hfree |].
    destruct (rules_on_surge_result Spec.simple_wording h c) as [Ht Hrecs].
    rewrite (simple_loop _ Ht), Hrecs.
    exists (_categorize_surge_risk h). eexists.
    split; [reflexivity |]. split; [reflexivity |].
    unfold _categorize_surge_risk.
    destruct (Qltb_spec h 0.5); destruct (Qltb_spec h 1.0);
      destruct (Qltb_spec h 2.0); destruct (Qltb_spec 1.0 h);
      destruct (Qltb_spec 0.5 h); try (exfalso; lra);
      repeat split; intros Hx; try discriminate Hx; try reflexivity;
      auto; cbn in Hx; intuition discriminate.
Qed.

Lemma storm_surge_rules_follow_risk_witness :
  exists level recs,
    py_get (AiServiceSimple.predict_storm_surge Shape.encoded_deployment
              (PDict [])) "risk_level" PNone
    = Ok (PStr level)
    /\ AiServiceSimple._generate_recommendations
         [("storm_surge",
           AiServiceSimple.predict_storm_surge Shape.encoded_deployment
             (PDict []))]
       = Ok recs
    /\ (level = "low" -> recs = ["Continue routine monitoring"])
    /\ (level = "critical" -> recs = Spec.warning Spec.simple_wording)
    /\ (In "Issue storm surge warning - evacuate low-lying areas" recs ->
        level = "high" \/ level = "critical").
Proof.
  apply (proj2 (storm_surge_rules_follow_risk Shape.encoded_deployment
                  (PDict []))).
  reflexivity.
Defined.

End PredictorProperties.

(** ** Properties of the orchestrator *)

Section OrchestratorProperties.

Lemma collect_threats_entries (surge erosion carbon forecast : pyval -> pyval)
    (input_data : dict) :
  collect_threats surge erosion carbon forecast input_data
  = Shape.entry input_data "weather" "storm_surge" surge
    ++ Shape.entry input_data "coastal" "coastal_erosion" erosion
    ++ Shape.entry input_data "ecosystem" "blue_carbon" carbon
    ++ Shape.entry input_data "historical_weather" "weather_forecast"
         forecast.
Proof.
  unfold collect_threats, analyse_section, Shape.entry.
  destruct (dict_get input_data "weather");
    destruct (dict_get input_data "coastal");
    destruct (dict_get input_data "ecosystem");
    destruct (dict_get input_data "historical_weather"); reflexivity.
Qed.

Lemma assemble_threats (E : env) (generate : dict -> result (list string))
    (confidence : Q) (threats : dict) :
  dict_get (assemble E generate confidence threats) "threats"
  = Some (PDict threats).
Proof.
  unfold assemble. destruct (_calculate_overall_risk threats);
    [destruct (generate threats) |]; reflexivity.
Qed.

(** X14. The [threats] of an analysis hold one entry for each section
    that the input has and none for a section it lacks, under the keys
    [storm_surge], [coastal_erosion], [blue_carbon] and
    [weather_forecast] in this order, whatever order the input has its
    sections in. *)
Theorem threats_follow_sections (E : env) (input_data : dict) :
  (exists threats,
      dict_get (AiService.comprehensive_threat_analysis E input_data)
        "threats" = Some (PDict threats)
      /\ map fst threats = Shape.present_categories input_data)
  /\ (exists threats,
         dict_get (AiServiceSimple.comprehensive_threat_analysis E input_data)
           "threats" = Some (PDict threats)
         /\ map fst threats = Shape.present_categories input_data).
Proof.
  unfold AiService.comprehensive_threat_analysis,
    AiServiceSimple.comprehensive_threat_analysis, analysis.
  rewrite !assemble_threats.
  split; eexists; (split; [reflexivity |]);
    rewrite collect_threats_entries;
    unfold Shape.entry, Shape.present_categories, Shape.categories,
      dict_has; cbn [filter fst];
    destruct (dict_get input_data "weather");
    destruct (dict_get input_data "coastal");
    destruct (dict_get input_data "ecosystem");
    destruct (dict_get input_data "historical_weather"); reflexivity.
Qed.

Lemma estimate_returns_hashable (l eco : pyval) (r : carbon_loss_estimate) :
  _estimate_carbon_loss l eco = Ok r -> hashable l = true.
Proof.
  destruct eco as [| b | q | s | xs | d]; try discriminate.
  rewrite estimate_on_mapping. destruct (hashable l) eqn:Hh; [reflexivity |].
  now rewrite (table_get_unhashable loss_multipliers l 0.25%Q Hh).
Qed.

Lemma full_erosion_shape (E : env) (data : pyval) :
  Shape.labelled_result (coastal_erosion E) "risk_level"
    (AiService.predict_coastal_erosion E data).
Proof.
  unfold AiService.predict_coastal_erosion, Shape.labelled_result.
  destruct (models_loaded E); destruct (coastal_erosion E) as [m |];
    try (left; eexists; reflexivity).
  destruct (coastal_erosion_features data) as [f |];
    [| left; eexists; reflexivity].
  cbn [bind]. destruct (predict_proba m) as [proba |];
    [| left; eexists; reflexivity].
  destruct (proba f) as [probs |]; [| left; eexists; reflexivity].
  cbn [bind]. destruct (predict m f) as [l |] eqn:Hl;
    [| left; eexists; reflexivity].
  cbn [bind]. destruct (np_max probs) as [c |];
    [| left; eexists; reflexivity].
  right. exists m, f, l. eexists.
    split; [reflexivity | split; [exact Hl | repeat split]].
Qed.

Lemma simple_erosion_shape (E : env) (data : pyval) :
  Shape.labelled_result (coastal_erosion E) "risk_level"
    (AiServiceSimple.predict_coastal_erosion E data).
Proof.
  unfold AiServiceSimple.predict_coastal_erosion, Shape.labelled_result.
  destruct (coastal_erosion E) as [m |];
    try (left; eexists; reflexivity).
  destruct (coastal_erosion_features data) as [f |];
    [| left; eexists; reflexivity].
  cbn [bind].
  destruct (AiServiceSimple.probabilities_of m risk_levels f) as [pc |];
    [| left; eexists; reflexivity].
  cbn [bind]. destruct (predict m f) as [l |] eqn:Hl;
    [| left; eexists; reflexivity].
  right. exists m, f, l. eexists.
    split; [reflexivity | split; [exact Hl | repeat split]].
Qed.

Lemma full_carbon_shape (E : env) (data : pyval) :
  Shape.labelled_result (blue_carbon_threat E) "threat_level"
    (AiService.predict_blue_carbon_threat E data)
  /\ (Spec.carries_error (AiService.predict_blue_carbon_threat E data)
      = false ->
      exists l, py_get (AiService.predict_blue_carbon_threat E data)
                  "threat_level" PNone = Ok l
                /\ hashable l = true).
Proof.
  unfold AiService.predict_blue_carbon_threat, Shape.labelled_result.
  destruct (models_loaded E); destruct (blue_carbon_threat E) as [m |];
    try (split; [left; eexists; reflexivity | discriminate]).
  destruct (blue_carbon_features data) as [f |];
    [| split; [left; eexists; reflexivity | discriminate]].
  cbn [bind]. destruct (predict_proba m) as [proba |];
    [| split; [left; eexists; reflexivity | discriminate]].
  destruct (proba f) as [probs |];
    [| split; [left; eexists; reflexivity | discriminate]].
  cbn [bind]. destruct (predict m f) as [l |] eqn:Hl;
    [| split; [left; eexists; reflexivity | discriminate]].
  cbn [bind]. destruct (np_max probs) as [c |];
    [| split; [left; eexists; reflexivity | discriminate]].
  cbn [bind]. destruct (_estimate_carbon_loss l data) as [est |] eqn:Hest;
    [| split; [left; eexists; reflexivity | discriminate]].
  split.
  - right. exists m, f, l. eexists.
    split; [reflexivity | split; [exact Hl | repeat split]].
  - intros _. exists l. split; [reflexivity |].
    exact (estimate_returns_hashable l data est Hest).
Qed.

Lemma simple_carbon_shape (E : env) (data : pyval) :
  Shape.labelled_result (blue_carbon_threat E) "threat_level"
    (AiServiceSimple.predict_blue_carbon_threat E data)
  /\ (Spec.carries_error (AiServiceSimple.predict_blue_carbon_threat E data)
      = false ->
      exists l, py_get (AiServiceSimple.predict_blue_carbon_threat E data)
                  "threat_level" PNone = Ok l
                /\ hashable l = true).
Proof.
  unfold AiServiceSimple.predict_blue_carbon_threat, Shape.labelled_result.
  destruct (blue_carbon_threat E) as [m |];
    try (split; [left; eexists; reflexivity | discriminate]).
  destruct (blue_carbon_features data) as [f |];
    [| split; [left; eexists; reflexivity | discriminate]].
  cbn [bind].
  destruct (AiServiceSimple.probabilities_of m threat_levels f) as [pc |];
    [| split; [left; eexists; reflexivity | discriminate]].
  cbn [bind]. destruct (predict m f) as [l |] eqn:Hl;
    [| split; [left; eexists; reflexivity | discriminate]].
  cbn [bind]. destruct (_estimate_carbon_loss l data) as [est |] eqn:Hest;
    [| split; [left; eexists; reflexivity | discriminate]].
  split.
  - right. exists m, f, l. eexists.
    split; [reflexivity | split; [exact Hl | repeat split]].
  - intros _. exists l. split; [reflexivity |].
    exact (estimate_returns_hashable l data est Hest).
Qed.

Lemma entry_forallb (P : string * pyval -> bool) (input_data : dict)
    (section key : string) (predictor : pyval -> pyval) :
  (forall data, P (key, predictor data) = true) ->
  forallb P (Shape.entry input_data section key predictor) = true.
Proof.
  intros H. unfold Shape.entry.
  destruct (dict_get input_data section) as [data |]; [| reflexivity].
  cbn [forallb]. now rewrite H.
Qed.

Lemma collected_forallb (P : string * pyval -> bool)
    (surge erosion carbon forecast : pyval -> pyval) (input_data : dict) :
  (forall data, P ("storm_surge", surge data) = true) ->
  (forall data, P ("coastal_erosion", erosion data) = true) ->
  (forall data, P ("blue_carbon", carbon data) = true) ->
  (forall data, P ("weather_forecast", forecast data) = true) ->
  forallb P (collect_threats surge erosion carbon forecast input_data)
  = true.
Proof.
  intros Hs He Hc Hf. rewrite collect_threats_entries, !forallb_app.
  now rewrite !entry_forallb.
Qed.

Lemma labelled_result_typed (model : option classifier) (key k : string)
    (r : pyval) :
  key = "risk_level" \/ key = "threat_level" ->
  Shape.labelled_result model key r ->
  (forall m features l,
      model = Some m -> predict m features = Ok l -> hashable l = true) ->
  Spec.label_typed_entry (k, r) = true.
Proof.
  intros Hkey [(msg & ->) | (m & f & l & rest & Hm & Hl & -> & He & Hr & Ht)]
    Hhash.
  - reflexivity.
  - unfold Spec.label_typed_entry, Spec.usable, Spec.label_of, dict_has.
    cbn [snd]. destruct Hkey as [-> | ->];
      cbn [dict_get String.eqb Ascii.eqb Bool.eqb]; rewrite He;
      cbn [dict_get String.eqb Ascii.eqb Bool.eqb].
    + exact (Hhash m f l Hm Hl).
    + rewrite Hr. exact (Hhash m f l Hm Hl).
Qed.

Lemma forecast_typed (k : string) (r : pyval) :
  Spec.forecast_shaped r -> Spec.label_typed_entry (k, r) = true.
Proof.
  intros [(msg & ->) | (p & c & ->)]; reflexivity.
Qed.

Lemma full_storm_typed (E : env) (data : pyval) :
  Spec.label_typed_entry ("storm_surge", AiService.predict_storm_surge E data)
  = true
  /\ Spec.surge_typed_entry
       ("storm_surge", AiService.predict_storm_surge E data) = true.
Proof.
  destruct (full_storm_surge_shape E data)
    as [(msg & ->) | (h & c & -> & _)]; split; reflexivity.
Qed.

Lemma simple_storm_typed (E : env) (data : pyval) :
  Spec.label_typed_entry
    ("storm_surge", AiServiceSimple.predict_storm_surge E data) = true
  /\ Spec.surge_typed_entry
       ("storm_surge", AiServiceSimple.predict_storm_surge E data) = true.
Proof.
  destruct (simple_storm_surge_shape E data)
    as [(msg & ->) | (h & c & -> & _)]; split; reflexivity.
Qed.

Lemma carbon_label_hashable (model : option classifier) (r : pyval) :
  Shape.labelled_result model "threat_level" r ->
  (Spec.carries_error r = false ->
   exists l, py_get r "threat_level" PNone = Ok l /\ hashable l = true) ->
  Spec.label_typed_entry ("blue_carbon", r) = true.
Proof.
  intros [(msg & ->) | (m & f & l & rest & Hm & Hl & -> & He & Hr & Ht)] H.
  - reflexivity.
  - assert (Hfree : Spec.carries_error (PDict (("threat_level", l) :: rest))
                    = false).
    { unfold Spec.carries_error, dict_has.
      cbn [dict_get String.eqb Ascii.eqb Bool.eqb]. now rewrite He. }
    destruct (H Hfree) as (l' & Hget & Hhash).
    cbn in Hget. injection Hget as <-.
    unfold Spec.label_typed_entry, Spec.usable, Spec.label_of, dict_has.
    cbn [snd dict_get String.eqb Ascii.eqb Bool.eqb]. rewrite He.
    cbn [dict_get String.eqb Ascii.eqb Bool.eqb]. now rewrite Hr.
Qed.

(** The mapping that either service collects never stops its generator,
    and stops the aggregator only through a coastal-erosion label. *)
Lemma full_collected_typed (E : env) (input_data : dict) :
  Spec.surge_typed
    (collect_threats (AiService.predict_storm_surge E)
       (AiService.predict_coastal_erosion E)
       (AiService.predict_blue_carbon_threat E)
       (AiService.predict_weather_sequence E) input_data) = true
  /\ (Shape.erosion_labels_hashable E ->
      Spec.labels_typed
        (collect_threats (AiService.predict_storm_surge E)
           (AiService.predict_coastal_erosion E)
           (AiService.predict_blue_carbon_threat E)
           (AiService.predict_weather_sequence E) input_data) = true).
Proof.
  split; [| intros Hhash]; apply collected_forallb; intros data;
    try reflexivity;
    try apply (full_storm_typed E data).
  - apply (labelled_result_typed _ "risk_level" _ _ (or_introl eq_refl)
             (full_erosion_shape E data)).
    intros m f l Hm Hl. unfold Shape.erosion_labels_hashable in Hhash.
    rewrite Hm in Hhash. exact (Hhash f l Hl).
  - destruct (full_carbon_shape E data) as [Hshape Hlabel].
    exact (carbon_label_hashable _ _ Hshape Hlabel).
  - apply forecast_typed, full_forecast_shaped.
Qed.

Lemma simple_collected_typed (E : env) (input_data : dict) :
  Spec.surge_typed
    (collect_threats (AiServiceSimple.predict_storm_surge E)
       (AiServiceSimple.predict_coastal_erosion E)
       (AiServiceSimple.predict_blue_carbon_threat E)
       (AiServiceSimple.predict_weather_sequence E) input_data) = true
  /\ (Shape.erosion_labels_hashable E ->
      Spec.labels_typed
        (collect_threats (AiServiceSimple.predict_storm_surge E)
           (AiServiceSimple.predict_coastal_erosion E)
           (AiServiceSimple.predict_blue_carbon_threat E)
           (AiServiceSimple.predict_weather_sequence E) input_data) = true).
Proof.
  split; [| intros Hhash]; apply collected_forallb; intros data;
    try reflexivity;
    try apply (simple_storm_typed E data).
  - apply (labelled_result_typed _ "risk_level" _ _ (or_introl eq_refl)
             (simple_erosion_shape E data)).
    intros m f l Hm Hl. unfold Shape.erosion_labels_hashable in Hhash.
    rewrite Hm in Hhash. exact (Hhash f l Hl).
  - destruct (simple_carbon_shape E data) as [Hshape Hlabel].
    exact (carbon_label_hashable _ _ Hshape Hlabel).
  - apply forecast_typed, simple_forecast_shaped.
Qed.

Lemma overall_label_known (ranks : list Z) :
  In (match ranks with
      | [] => "unknown"
      | _ => Spec.classify_mean (Spec.mean ranks)
      end) Shape.overall_labels.
Proof.
  destruct ranks as [| r rs]; [cbn; tauto |].
  unfold Spec.classify_mean.
  destruct (Qltb (Spec.mean (r :: rs)) 1.5); [cbn; tauto |].
  destruct (Qltb (Spec.mean (r :: rs)) 2.5); [cbn; tauto |].
  destruct (Qltb (Spec.mean (r :: rs)) 3.5); cbn; tauto.
Qed.

Lemma assemble_completes (E : env) (generate : dict -> result (list string))
    (confidence : Q) (threats : dict) (recs : list string) :
  Spec.labels_typed threats = true ->
  generate threats = Ok recs ->
  Shape.completed (assemble E generate confidence threats)
  /\ dict_get (assemble E generate confidence threats) "recommendations"
     = Some (PList (map PStr recs)).
Proof.
  intros Htyped Hgen. unfold assemble, Shape.completed.
  rewrite (overall_risk_of_ranks threats Htyped), Hgen.
  repeat split; try reflexivity.
  - eexists; reflexivity.
  - eexists. split; [reflexivity | apply overall_label_known].
Qed.

(** X15. When the labels of the coastal-erosion model are hashable, the
    analysis of an input that is a mapping runs to its end, whatever the
    mapping holds and whatever else the models answer or raise: the
    result has no top-level [error], it has a list of recommendations,
    and its [overall_risk] is one of "unknown", "low", "medium", "high"
    and "critical". *)
Theorem analysis_completes (E : env) (input_data : dict) :
  Shape.erosion_labels_hashable E ->
  Shape.completed (AiService.comprehensive_threat_analysis E input_data)
  /\ Shape.completed
       (AiServiceSimple.comprehensive_threat_analysis E input_data).
Proof.
  intros Hhash.
  destruct (full_collected_typed E input_data) as [Hsurge Hlabels].
  destruct (simple_collected_typed E input_data) as [Hsurge' Hlabels'].
  unfold AiService.comprehensive_threat_analysis,
    AiServiceSimple.comprehensive_threat_analysis, analysis.
  split.
  - exact (proj1 (assemble_completes E _ _ _ _ (Hlabels Hhash)
                    (full_loop _ Hsurge))).
  - exact (proj1 (assemble_completes E _ _ _ _ (Hlabels' Hhash)
                    (simple_loop _ Hsurge'))).
Qed.

Lemma analysis_completes_witness :
  Shape.completed
    (AiService.comprehensive_threat_analysis Shape.encoded_deployment
       [("coastal", PDict [("sediment_type", PStr "Rock")]);
        ("weather", PNone)])
  /\ Shape.completed
       (AiServiceSimple.comprehensive_threat_analysis
          Shape.encoded_deployment
          [("coastal", PDict [("sediment_type", PStr "Rock")]);
           ("weather", PNone)]).
Proof.
  apply analysis_completes. cbn. intros features l H.
  injection H as <-. reflexivity.
Defined.

Lemma assemble_error (E : env) (generate : dict -> result (list string))
    (confidence : Q) (threats : dict) :
  (exists recs, generate threats = Ok recs) ->
  dict_has (assemble E generate confidence threats) "error" = true ->
  Spec.labels_typed threats = false
  /\ dict_get (assemble E generate confidence threats) "overall_risk"
     = Some (PStr "low")
  /\ dict_has (assemble E generate confidence threats) "recommendations"
     = false.
Proof.
  intros (recs & Hgen). unfold assemble. rewrite Hgen.
  destruct (Spec.labels_typed threats) eqn:Htyped.
  - rewrite (overall_risk_of_ranks threats Htyped). discriminate.
  - rewrite (overall_risk_untyped threats Htyped). intros _.
    repeat split.
Qed.

(** X16. The analysis of an input that is a mapping, when it carries a
    top-level [error], still carries [overall_risk] "low", the value it
    started with, and has no [recommendations] key; on such an input the
    only thing that brings the error about is a label of the
    coastal-erosion model that cannot be looked up in the rank table. *)
Theorem failed_analysis_reports_low (E : env) (input_data : dict) :
  (dict_has (AiService.comprehensive_threat_analysis E input_data) "error"
   = true ->
   dict_get (AiService.comprehensive_threat_analysis E input_data)
     "overall_risk" = Some (PStr "low")
   /\ dict_has (AiService.comprehensive_threat_analysis E input_data)
        "recommendations" = false
   /\ ~ Shape.erosion_labels_hashable E)
  /\ (dict_has (AiServiceSimple.comprehensive_threat_analysis E input_data)
        "error" = true ->
      dict_get (AiServiceSimple.comprehensive_threat_analysis E input_data)
        "overall_risk" = Some (PStr "low")
      /\ dict_has (AiServiceSimple.comprehensive_threat_analysis E input_data)
           "recommendations" = false
      /\ ~ Shape.erosion_labels_hashable E).
Proof.
  destruct (full_collected_typed E input_data) as [Hsurge Hlabels].
  destruct (simple_collected_typed E input_data) as [Hsurge' Hlabels'].
  unfold AiService.comprehensive_threat_analysis,
    AiServiceSimple.comprehensive_threat_analysis, analysis.
  split; intros Herr.
  - destruct (assemble_error E _ _ _
                (ex_intro _ _ (full_loop _ Hsurge)) Herr)
      as (Huntyped & Hrisk & Hrecs).
    repeat split; [exact Hrisk | exact Hrecs |].
    intros Hhash. rewrite (Hlabels Hhash) in Huntyped. discriminate.
  - destruct (assemble_error E _ _ _
                (ex_intro _ _ (simple_loop _ Hsurge')) Herr)
      as (Huntyped & Hrisk & Hrecs).
    repeat split; [exact Hrisk | exact Hrecs |].
    intros Hhash. rewrite (Hlabels' Hhash) in Huntyped. discriminate.
Qed.

(** A model with several outputs: its first prediction is an array. *)
Lemma failed_analysis_reports_low_witness :
  dict_get
    (AiService.comprehensive_threat_analysis Shape.multi_output_deployment
       [("coastal", PDict [])]) "overall_risk" = Some (PStr "low")
  /\ dict_has
       (AiService.comprehensive_threat_analysis Shape.multi_output_deployment
          [("coastal", PDict [])]) "recommendations" = false
  /\ ~ Shape.erosion_labels_hashable Shape.multi_output_deployment.
Proof.
  apply (proj1 (failed_analysis_reports_low Shape.multi_output_deployment
                  [("coastal", PDict [])])).
  reflexivity.
Defined.

Lemma numbers_are_hashable (model : option classifier) :
  Shape.answers_in_numbers model ->
  forall m features l,
    model = Some m -> predict m features = Ok l -> hashable l = true.
Proof.
  intros H m f l -> Hl. destruct (H f l Hl) as [n ->]. reflexivity.
Qed.

Lemma numbered_result_quiet (model : option classifier) (key k : string)
    (r : pyval) :
  key = "risk_level" \/ key = "threat_level" ->
  k = "coastal_erosion" \/ k = "blue_carbon" ->
  Shape.answers_in_numbers model ->
  Shape.labelled_result model key r ->
  Shape.classifiers_quiet (k, r) = true.
Proof.
  intros Hkey Hk Hnum
    [(msg & ->) | (m & f & l & rest & -> & Hl & -> & He & Hr & Ht)].
  - destruct Hk as [-> | ->]; reflexivity.
  - destruct (Hnum f l Hl) as [n ->].
    unfold Shape.classifiers_quiet, Spec.protection_fires,
      Spec.protocol_fires, Spec.in_category, Spec.usable, dict_has.
    destruct Hk as [-> | ->]; destruct Hkey as [-> | ->];
      cbn [fst snd dict_get String.eqb Ascii.eqb Bool.eqb];
      rewrite He; cbn [dict_get String.eqb Ascii.eqb Bool.eqb];
      rewrite ?Hr, ?Ht; reflexivity.
Qed.

Lemma quiet_vocabulary (w : Spec.wording) (threats : dict) (s : string) :
  forallb Shape.classifiers_quiet threats = true ->
  In s (Spec.recommendations w threats) ->
  In s (Spec.warning w ++ [Spec.monitor]).
Proof.
  intros Hquiet. unfold Spec.recommendations. rewrite in_flat_map.
  intros (item & Hitem & Hs).
  rewrite forallb_forall in Hquiet. specialize (Hquiet item Hitem).
  unfold Shape.classifiers_quiet in Hquiet.
  apply andb_true_iff in Hquiet. destruct Hquiet as [Hp Hc].
  apply negb_true_iff in Hp, Hc.
  unfold Spec.recommendations_of_entry in Hs. rewrite Hp, Hc in Hs.
  rewrite !in_app_iff in *. cbn [In] in *.
  destruct (Spec.warning_fires item); destruct (Spec.monitor_fires item);
    cbn [In] in Hs; tauto.
Qed.

(** X17. When the two classifiers answer with class numbers, as models
    fitted on label-encoded targets do, no analysis ever recommends
    coastal protection or a blue-carbon protocol: every recommendation is
    one of the storm-surge strings or the fallback, whatever the inputs
    are. *)
Theorem numbered_labels_draw_no_recommendation (E : env) (input_data : dict) :
  Shape.answers_in_numbers (coastal_erosion E) ->
  Shape.answers_in_numbers (blue_carbon_threat E) ->
  (exists recs,
      dict_get (AiService.comprehensive_threat_analysis E input_data)
        "recommendations" = Some (PList (map PStr recs))
      /\ forall s, In s recs -> In s Shape.surge_vocabulary)
  /\ (exists recs,
         dict_get (AiServiceSimple.comprehensive_threat_analysis E input_data)
           "recommendations" = Some (PList (map PStr recs))
         /\ forall s, In s recs -> In s Shape.surge_vocabulary).
Proof.
  intros Herosion Hcarbon.
  assert (Hhash : Shape.erosion_labels_hashable E).
  { unfold Shape.erosion_labels_hashable.
    pose proof (numbers_are_hashable _ Herosion) as H.
    destruct (coastal_erosion E) as [m |]; [| exact I].
    intros f l Hl. exact (H m f l eq_refl Hl). }
  destruct (full_collected_typed E input_data) as [Hsurge Hlabels].
  destruct (simple_collected_typed E input_data) as [Hsurge' Hlabels'].
  unfold AiService.comprehensive_threat_analysis,
    AiServiceSimple.comprehensive_threat_analysis, analysis.
  split.
  - eexists. split.
    + exact (proj2 (assemble_completes E _ _ _ _ (Hlabels Hhash)
                      (full_loop _ Hsurge))).
    + intros s Hs.
      assert (Hquiet : forallb Shape.classifiers_quiet
                         (collect_threats (AiService.predict_storm_surge E)
                            (AiService.predict_coastal_erosion E)
                            (AiService.predict_blue_carbon_threat E)
                            (AiService.predict_weather_sequence E)
                            input_data) = true).
      { apply collected_forallb; intros data; try reflexivity.
        - exact (numbered_result_quiet _ "risk_level" _ _ (or_introl eq_refl)
                   (or_introl eq_refl) Herosion (full_erosion_shape E data)).
        - exact (numbered_result_quiet _ "threat_level" _ _
                   (or_intror eq_refl) (or_intror eq_refl) Hcarbon
                   (proj1 (full_carbon_shape E data))). }
      pose proof (quiet_vocabulary _ _ s Hquiet Hs) as Hin.
      cbn in Hin. cbn. tauto.
  - eexists. split.
    + exact (proj2 (assemble_completes E _ _ _ _ (Hlabels' Hhash)
                      (simple_loop _ Hsurge'))).
    + intros s Hs.
      assert (Hquiet : forallb Shape.classifiers_quiet
                         (collect_threats
                            (AiServiceSimple.predict_storm_surge E)
                            (AiServiceSimple.predict_coastal_erosion E)
                            (AiServiceSimple.predict_blue_carbon_threat E)
                            (AiServiceSimple.predict_weather_sequence E)
                            input_data) = true).
      { apply collected_forallb; intros data; try reflexivity.
        - exact (numbered_result_quiet _ "risk_level" _ _ (or_introl eq_refl)
                   (or_introl eq_refl) Herosion
                   (simple_erosion_shape E data)).
        - exact (numbered_result_quiet _ "threat_level" _ _
                   (or_intror eq_refl) (or_intror eq_refl) Hcarbon
                   (proj1 (simple_carbon_shape E data))). }
      destruct (Spec.recommendations Spec.simple_wording _) as [| r rs] eqn:E0.
      * cbn in Hs. cbn. tauto.
      * rewrite <- E0 in Hs.
        pose proof (quiet_vocabulary _ _ s Hquiet Hs) as Hin.
        cbn in Hin. cbn. tauto.
Qed.

Lemma numbered_labels_draw_no_recommendation_witness :
  exists recs,
    dict_get
      (AiService.comprehensive_threat_analysis Shape.encoded_deployment
         [("coastal", PDict []); ("ecosystem", PDict [])])
      "recommendations" = Some (PList (map PStr recs))
    /\ forall s, In s recs -> In s Shape.surge_vocabulary.
Proof.
  apply (proj1 (numbered_labels_draw_no_recommendation
                  Shape.encoded_deployment
                  [("coastal", PDict []); ("ecosystem", PDict [])]
                  ltac:(cbn; intros f l H; injection H as <-; eexists;
                        reflexivity)
                  ltac:(cbn; intros f l H; injection H as <-; eexists;
                        reflexivity))).
Defined.

Lemma analysis_of_mapping (E : env)
    (surge erosion carbon forecast : pyval -> pyval)
    (generate : dict -> result (list string)) (confidence : Q) (d : dict) :
  analysis_of E surge erosion carbon forecast generate confidence (PDict d)
  = analysis E surge erosion carbon forecast generate confidence d.
Proof.
  unfold analysis_of, analysis, collect_threats_of, collect_threats,
    analyse_section_of, analyse_section, find_section.
  destruct (dict_get d "weather"); destruct (dict_get d "coastal");
    destruct (dict_get d "ecosystem");
    destruct (dict_get d "historical_weather"); reflexivity.
Qed.

Lemma collect_threats_of_other (surge erosion carbon forecast : pyval -> pyval)
    (body : pyval) :
  (forall d, body <> PDict d) ->
  collect_threats_of surge erosion carbon forecast body
  = ([], if Shape.stops_analysis body then Some TypeError else None).
Proof.
  intros H. unfold collect_threats_of, analyse_section_of, find_section,
    Shape.stops_analysis.
  destruct body as [| b | q | s | l | d]; try reflexivity.
  - cbn [Shape.categories map fst existsb].
    destruct (str_contains s "weather"); [reflexivity |].
    destruct (str_contains s "coastal"); [reflexivity |].
    destruct (str_contains s "ecosystem"); [reflexivity |].
    destruct (str_contains s "historical_weather"); reflexivity.
  - cbn [Shape.categories map fst existsb].
    destruct (existsb (fun v => py_eq_str v "weather") l); [reflexivity |].
    destruct (existsb (fun v => py_eq_str v "coastal") l); [reflexivity |].
    destruct (existsb (fun v => py_eq_str v "ecosystem") l); [reflexivity |].
    destruct (existsb (fun v => py_eq_str v "historical_weather") l);
      reflexivity.
  - now elim (H d).
Qed.

(** X27. The analysis of a request body of any JSON type returns a result
    and never raises. On a mapping it is the analysis of the mapping. A
    body that is not a mapping gives no threats: when it cannot be
    searched ([None], a [bool], a number) or the name of a section is
    found in it (as an element of a list or inside a string), the result
    carries a top-level [error], the [overall_risk] "low" it started
    with and no recommendations; otherwise the analysis runs to its end
    with [overall_risk] "unknown" and the recommendations of an empty
    mapping, none in [ai_service.py] and the fallback in
    [ai_service_simple.py]. *)
Theorem analysis_of_any_body (E : env) (body : pyval) :
  (forall d,
      body = PDict d ->
      AiService.comprehensive_threat_analysis_of E body
      = AiService.comprehensive_threat_analysis E d
      /\ AiServiceSimple.comprehensive_threat_analysis_of E body
         = AiServiceSimple.comprehensive_threat_analysis E d)
  /\ ((forall d, body <> PDict d) ->
      dict_get (AiService.comprehensive_threat_analysis_of E body) "threats"
      = Some (PDict [])
      /\ dict_get (AiServiceSimple.comprehensive_threat_analysis_of E body)
           "threats" = Some (PDict [])
      /\ if Shape.stops_analysis body then
           dict_get (AiService.comprehensive_threat_analysis_of E body)
             "error" = Some (PStr (str_exn E TypeError))
           /\ dict_get (AiService.comprehensive_threat_analysis_of E body)
                "overall_risk" = Some (PStr "low")
           /\ dict_has (AiService.comprehensive_threat_analysis_of E body)
                "recommendations" = false
           /\ dict_get
                (AiServiceSimple.comprehensive_threat_analysis_of E body)
                "error" = Some (PStr (str_exn E TypeError))
           /\ dict_get
                (AiServiceSimple.comprehensive_threat_analysis_of E body)
                "overall_risk" = Some (PStr "low")
           /\ dict_has
                (AiServiceSimple.comprehensive_threat_analysis_of E body)
                "recommendations" = false
         else
           dict_has (AiService.comprehensive_threat_analysis_of E body)
             "error" = false
           /\ dict_get (AiService.comprehensive_threat_analysis_of E body)
                "overall_risk" = Some (PStr "unknown")
           /\ dict_get (AiService.comprehensive_threat_analysis_of E body)
                "recommendations" = Some (PList [])
           /\ dict_has
                (AiServiceSimple.comprehensive_threat_analysis_of E body)
                "error" = false
           /\ dict_get
                (AiServiceSimple.comprehensive_threat_analysis_of E body)
                "overall_risk" = Some (PStr "unknown")
           /\ dict_get
                (AiServiceSimple.comprehensive_threat_analysis_of E body)
                "recommendations"
              = Some (PList [PStr "Continue routine monitoring"])).
Proof.
  split.
  - intros d ->. split; apply analysis_of_mapping.
  - intros H.
    unfold AiService.comprehensive_threat_analysis_of,
      AiServiceSimple.comprehensive_threat_analysis_of, analysis_of.
    rewrite !(collect_threats_of_other _ _ _ _ body H).
    destruct (Shape.stops_analysis body); repeat split.
Qed.

(** A list that names a section, a string in which a section name
    occurs, and a list that names none. *)
Lemma analysis_of_any_body_witness :
  dict_get
    (AiService.comprehensive_threat_analysis_of Shape.encoded_deployment
       (PList [PStr "weather"])) "error"
  = Some (PStr "TypeError")
  /\ dict_get
       (AiServiceSimple.comprehensive_threat_analysis_of
          Shape.encoded_deployment (PStr "no historical_weather today"))
       "overall_risk"
     = Some (PStr "low")
  /\ dict_get
       (AiServiceSimple.comprehensive_threat_analysis_of
          Shape.encoded_deployment (PList [PNum 1; PStr "Weather"]))
       "recommendations"
     = Some (PList [PStr "Continue routine monitoring"]).
Proof.
  split; [| split].
  - exact (proj1 (proj2 (proj2 (proj2 (analysis_of_any_body
             Shape.encoded_deployment (PList [PStr "weather"]))
             ltac:(intros d; discriminate))))).
  - exact (proj1 (proj2 (proj2 (proj2 (proj2 (proj2 (proj2
             (proj2 (analysis_of_any_body Shape.encoded_deployment
                       (PStr "no historical_weather today"))
                ltac:(intros d; discriminate))))))))).
  - exact (proj2 (proj2 (proj2 (proj2 (proj2 (proj2 (proj2
             (proj2 (analysis_of_any_body Shape.encoded_deployment
                       (PList [PNum 1; PStr "Weather"]))
                ltac:(intros d; discriminate))))))))).
Defined.

End OrchestratorProperties.

(** ** Properties of the weather forecast *)

Section ForecastProperties.

Lemma nth_error_combine {A B : Type} (l : list A) (l' : list B) (i : nat) :
  nth_error (combine l l') i
  = match nth_error l i, nth_error l' i with
    | Some x, Some y => Some (x, y)
    | _, _ => None
    end.
Proof.
  revert l' i. induction l as [| x l IH]; intros l' i.
  - now destruct i.
  - destruct l' as [| y l'].
    + destruct i as [| j]; cbn; [reflexivity | now destruct (nth_error l j)].
    + destruct i as [| j]; [reflexivity | cbn; apply IH].
Qed.

(** X18. The forecast of [ai_service.py] has one entry for each of the
    first 24 values that the model returns: the entry of the value at
    position [i] carries hour offset [i + 1] and the time stamp of that
    hour. A model that returns fewer than 24 values gives a shorter
    forecast, not an error, and values past the 24th are dropped. *)
Theorem forecast_entries_follow_model (E : env) (predictions : list Q) :
  List.length (AiService.forecast_entries E predictions)
  = Nat.min 24 (List.length predictions)
  /\ forall i t,
      (i < 24)%nat -> nth_error predictions i = Some t ->
      nth_error (AiService.forecast_entries E predictions) i
      = Some (Shape.forecast_entry E (S i) t).
Proof.
  unfold AiService.forecast_entries. split.
  - rewrite length_map, !length_combine, length_map, length_seq.
    lia.
  - intros i t Hi Ht.
    rewrite nth_error_map, !nth_error_combine, nth_error_map,
      nth_error_seq, Ht.
    apply Nat.ltb_lt in Hi. rewrite Hi. reflexivity.
Qed.

Lemma forecast_entries_follow_model_witness :
  nth_error
    (AiService.forecast_entries Shape.encoded_deployment [24.5; 25.0]%Q) 1
  = Some (Shape.forecast_entry Shape.encoded_deployment 2 25.0%Q).
Proof.
  apply (proj2 (forecast_entries_follow_model Shape.encoded_deployment
                  [24.5; 25.0]%Q)); [lia | reflexivity].
Defined.

(** X19. When the recent average can be computed, the forecast of
    [ai_service_simple.py] has exactly 24 entries, the entry at position
    [i] for the hour [i + 1] with the time stamp of that hour, and the
    confidence 0.6. When the average cannot be computed the result is an
    error that carries the message of the exception. *)
Theorem trend_forecast_hours (E : env) (history : pyval) :
  match avg_temperature E history with
  | Ok avg =>
      exists entries,
        AiServiceSimple.predict_weather_sequence E history
        = PDict [("predictions", PList entries); ("confidence", PNum 0.6)]
        /\ List.length entries = 24%nat
        /\ forall i,
            (i < 24)%nat ->
            exists t,
              nth_error entries i = Some (Shape.forecast_entry E (S i) t)
  | Raise e =>
      AiServiceSimple.predict_weather_sequence E history
      = PDict [("error", PStr (str_exn E e))]
  end.
Proof.
  unfold AiServiceSimple.predict_weather_sequence.
  destruct (avg_temperature E history) as [avg | e]; [| reflexivity].
  cbn [bind try_except]. eexists. split; [reflexivity |].
  split; [now rewrite length_map, length_seq |].
  intros i Hi. rewrite nth_error_map, nth_error_seq.
  apply Nat.ltb_lt in Hi. rewrite Hi. cbn [option_map Nat.add].
  eexists. reflexivity.
Qed.

End ForecastProperties.

(** ** Properties of the recent average *)

Section HistoryProperties.

Import History.

Lemma last_n_app {A : Type} (older recent : list A) :
  last_n (List.length recent) (older ++ recent) = recent.
Proof.
  unfold last_n. rewrite length_app.
  replace (List.length older + List.length recent - List.length recent)%nat
    with (List.length older) by lia.
  rewrite skipn_app, skipn_all, Nat.sub_diag. reflexivity.
Qed.

Lemma last_n_all {A : Type} (l : list A) : last_n (List.length l) l = l.
Proof. unfold last_n. now rewrite Nat.sub_diag. Qed.

(** X20. The forecast of the simplified service starts from 25 degrees
    when it is given no history (an empty list, [None], or any other
    value that is false), and from the last 24 records when it is given
    more: records older than that change nothing. *)
Theorem recent_average_window :
  (forall v, py_truthy v = false ->
             exists a, recent_average v = Ok a /\ (a == 25)%Q)
  /\ (forall older recent : list pyval,
         List.length recent = 24%nat ->
         recent_average (PList (older ++ recent))
         = recent_average (PList recent)).
Proof.
  split.
  - intros v Hv. unfold recent_average. rewrite Hv. cbn [negb].
    eexists. split; reflexivity.
  - intros older recent Hlen.
    assert (Hne : exists r rs, recent = r :: rs)
      by (destruct recent as [| r rs]; [discriminate Hlen | now exists r, rs]).
    destruct Hne as (r & rs & Hrecent).
    unfold recent_average.
    replace (py_truthy (PList (older ++ recent))) with true
      by (rewrite Hrecent; now destruct older).
    replace (py_truthy (PList recent)) with true by now rewrite Hrecent.
    cbn [negb]. rewrite length_app, Hlen.
    replace (Nat.leb 24 (List.length older + 24)) with true
      by (symmetry; apply Nat.leb_le; lia).
    cbn [Nat.leb]. rewrite <- Hlen.
    now rewrite last_n_app, last_n_all.
Qed.

Lemma recent_average_window_witness :
  exists a, recent_average (PDict []) = Ok a /\ (a == 25)%Q.
Proof.
  apply (proj1 recent_average_window). reflexivity.
Defined.

End HistoryProperties.

(** ** Properties of the training labels *)

Section TrainerProperties.

Import Trainer.


Lemma below_15_below_25 (x : float) :
  (x <? 1.5)%float = true -> (x <? 2.5)%float = true.
Proof.
  rewrite !ltb_spec.
  change (Prim2SF 1.5) with (S754_finite false 6755399441055744 (-52)).
  change (Prim2SF 2.5) with (S754_finite false 5629499534213120 (-51)).
  destruct (Prim2SF x) as [s | s | | s m e]; unfold SFltb, SFcompare;
    try discriminate; try reflexivity.
  - destruct s; [reflexivity | discriminate].
  - destruct s; [reflexivity |].
    destruct (Z.compare_spec e (-52)); destruct (Z.compare_spec e (-51));
      try discriminate; try reflexivity; lia.
Qed.

(** [np.abs] forgets the sign. *)
Lemma abs_opp (x : float) : abs (- x) = abs x.
Proof.
  apply Prim2SF_inj. rewrite !abs_spec, opp_spec.
  now destruct (Prim2SF x).
Qed.



(** X23. Every label that [_generate_blue_carbon_data] gives a row is one
    of the four threat levels of the service, a key of its loss table (so
    that none is charged the default rate) and a key of its rank table;
    the blue-carbon rule of the generators holds for the label exactly
    when the threat score of the row, the float that the code computes,
    is not below 2.5; and the sign of [climate_factors] does not matter
    to the label. *)
Theorem threat_labels_fit_service (draws : list carbon_draw) (r : carbon_draw)
    (l : string) :
  In (r, l) (_generate_blue_carbon_data draws) ->
  In l threat_levels
  /\ In l (map fst loss_multipliers)
  /\ In l (map fst Binary64.loss_multipliers)
  /\ In l (map fst risk_scores)
  /\ (py_in_strs (PStr l) ["significant"; "severe"] = true
      <-> (threat_score r <? 2.5)%float = false)
  /\ l = threat_category
           (threat_score
              (mkCarbonDraw (water_quality r) (pollution_levels r)
                 (human_activity r) (- climate_factors r)
                 (biodiversity_index r))).
Proof.
  intros H. unfold _generate_blue_carbon_data in H.
  apply in_map_iff in H. destruct H as (r0 & H & _).
  injection H as <- <-.
  assert (Hsign : threat_score
                    (mkCarbonDraw (water_quality r0) (pollution_levels r0)
                       (human_activity r0) (- climate_factors r0)
                       (biodiversity_index r0))
                  = threat_score r0).
  { unfold threat_score.
    cbn [water_quality pollution_levels human_activity climate_factors
         biodiversity_index].
    now rewrite abs_opp. }
  rewrite Hsign.
  generalize (threat_score r0). intros s. unfold threat_category.
  destruct (s <? 1.5)%float eqn:H1.
  { rewrite (below_15_below_25 s H1).
    repeat (split; [cbn; tauto |]).
    split; [| reflexivity].
    split; intros Hx; [vm_compute in Hx |]; discriminate Hx. }
  destruct (s <? 2.5)%float eqn:H2.
  { repeat (split; [cbn; tauto |]).
    split; [| reflexivity].
    split; intros Hx; [vm_compute in Hx |]; discriminate Hx. }
  destruct (s <? 3.5)%float;
    repeat split; try reflexivity; cbn; tauto.
Qed.

(** The row (10, 5, 3, 0, 70): its terms 0.9, 1.0, 0.3, 0.0 and 0.3 add
    up to the float 2.4999999999999996, and its label is "moderate". *)
Lemma threat_labels_fit_service_witness :
  threat_score (mkCarbonDraw 10 5 3 0 70) = 2.4999999999999996%float
  /\ In "moderate" threat_levels
  /\ In "moderate" (map fst loss_multipliers)
  /\ In "moderate" (map fst Binary64.loss_multipliers)
  /\ In "moderate" (map fst risk_scores)
  /\ (py_in_strs (PStr "moderate") ["significant"; "severe"] = true
      <-> (threat_score (mkCarbonDraw 10 5 3 0 70) <? 2.5)%float = false)
  /\ "moderate"
     = threat_category
         (threat_score (mkCarbonDraw 10 5 3 (- 0) 70)).
Proof.
  split; [reflexivity |].
  apply (threat_labels_fit_service [mkCarbonDraw 10 5 3 0 70]
           (mkCarbonDraw 10 5 3 0 70) "moderate").
  left. reflexivity.
Defined.

End TrainerProperties.

(** ** Properties of the classifiers' results *)

Section ClassifierProperties.

Lemma fold_max_spec (rest : list Q) :
  forall x,
    let m := fold_left (fun m y => if Qltb m y then y else m) rest x in
    (m = x \/ In m rest) /\ (x <= m)%Q /\ Forall (fun p => (p <= m)%Q) rest.
Proof.
  induction rest as [| y rest IH]; intros x; cbn [fold_left].
  - split; [now left | split; [lra | constructor]].
  - destruct (Qltb_spec x y) as [Hlt | Hge].
    + destruct (IH y) as (Hin & Hle & Hall).
      split; [right; destruct Hin as [-> | Hin]; [now left | now right] |].
      split; [lra | constructor; [exact Hle | exact Hall]].
    + destruct (IH x) as (Hin & Hle & Hall).
      split; [destruct Hin as [-> | Hin]; [now left | right; now right] |].
      split; [exact Hle | constructor; [lra | exact Hall]].
Qed.

Lemma np_max_spec (probs : list Q) (c : Q) :
  np_max probs = Ok c ->
  In c probs /\ Forall (fun p => (p <= c)%Q) probs.
Proof.
  destruct probs as [| x rest]; [discriminate |].
  cbn [np_max]. intros H. injection H as <-.
  destruct (fold_max_spec rest x) as (Hin & Hle & Hall).
  split; [destruct Hin as [-> | Hin]; [now left | now right] |].
  constructor; assumption.
Qed.

(** X24. In a coastal-erosion result without an [error] key the
    confidence is the largest of the class probabilities that the
    model's [predict_proba] returned for the feature row, so no reported
    probability exceeds it; the probabilities are reported under "low",
    "medium", "high" and "critical" in this order, as many as there are
    (four at most). For a model without [predict_proba] the full service
    has no such result, and the simplified service reports confidence 0.7
    and no probabilities. *)
Theorem erosion_confidence_is_top_probability (E : env) (data : pyval) :
  (Spec.carries_error (AiService.predict_coastal_erosion E data) = false ->
   exists m proba features l c probs,
     coastal_erosion E = Some m
     /\ predict_proba m = Some proba
     /\ coastal_erosion_features data = Ok features
     /\ proba features = Ok probs
     /\ predict m features = Ok l
     /\ AiService.predict_coastal_erosion E data
        = PDict [("risk_level", l); ("confidence", PNum c);
                 ("probabilities", zip_probabilities risk_levels probs)]
     /\ In c probs /\ Forall (fun p => (p <= c)%Q) probs)
  /\ (Spec.carries_error (AiServiceSimple.predict_coastal_erosion E data)
      = false ->
      exists m features l,
        coastal_erosion E = Some m
        /\ coastal_erosion_features data = Ok features
        /\ predict m features = Ok l
        /\ match predict_proba m with
           | None =>
               AiServiceSimple.predict_coastal_erosion E data
               = PDict [("risk_level", l); ("confidence", PNum 0.7);
                        ("probabilities", PDict [])]
           | Some proba =>
               exists c probs,
                 proba features = Ok probs
                 /\ AiServiceSimple.predict_coastal_erosion E data
                    = PDict [("risk_level", l); ("confidence", PNum c);
                             ("probabilities",
                              zip_probabilities risk_levels probs)]
                 /\ In c probs /\ Forall (fun p => (p <= c)%Q) probs
           end).
Proof.
  split.
  - unfold AiService.predict_coastal_erosion.
    destruct (models_loaded E); destruct (coastal_erosion E) as [m |];
      try discriminate.
    destruct (coastal_erosion_features data) as [f |]; [| discriminate].
    cbn [bind]. destruct (predict_proba m) as [proba |] eqn:Hproba;
      [| discriminate].
    destruct (proba f) as [probs |] eqn:Hprobs; [| discriminate].
    cbn [bind]. destruct (predict m f) as [l |] eqn:Hl; [| discriminate].
    cbn [bind]. destruct (np_max probs) as [c |] eqn:Hmax; [| discriminate].
    intros _. exists m, proba, f, l, c, probs.
    split; [reflexivity |]. split; [exact Hproba |].
    split; [reflexivity |]. split; [exact Hprobs |]. split; [exact Hl |].
    split; [reflexivity |]. exact (np_max_spec probs c Hmax).
  - unfold AiServiceSimple.predict_coastal_erosion,
      AiServiceSimple.probabilities_of.
    destruct (coastal_erosion E) as [m |]; try discriminate.
    destruct (coastal_erosion_features data) as [f |]; [| discriminate].
    cbn [bind]. destruct (predict_proba m) as [proba |] eqn:Hproba.
    + destruct (proba f) as [probs |] eqn:Hprobs; [| discriminate].
      cbn [bind]. destruct (np_max probs) as [c |] eqn:Hmax;
        [| discriminate].
      cbn [bind]. destruct (predict m f) as [l |] eqn:Hl; [| discriminate].
      intros _. exists m, f, l.
      split; [reflexivity |]. split; [reflexivity |]. split; [exact Hl |].
      rewrite Hproba. exists c, probs. split; [exact Hprobs |]. split; [reflexivity |].
      exact (np_max_spec probs c Hmax).
    + cbn [bind]. destruct (predict m f) as [l |] eqn:Hl; [| discriminate].
      intros _. exists m, f, l.
      split; [reflexivity |]. split; [reflexivity |]. split; [exact Hl |].
      rewrite Hproba. reflexivity.
Qed.

(** A model with [predict_proba] in the full service, and one without it
    in the simplified service. *)
Lemma erosion_confidence_is_top_probability_witness :
  (exists m proba features l c probs,
      coastal_erosion Shape.encoded_deployment = Some m
      /\ predict_proba m = Some proba
      /\ coastal_erosion_features
           (PDict [("wave_energy", PNum 8.5); ("sediment_type", PStr "sand")])
         = Ok features
      /\ proba features = Ok probs
      /\ predict m features = Ok l
      /\ AiService.predict_coastal_erosion Shape.encoded_deployment
           (PDict [("wave_energy", PNum 8.5); ("sediment_type", PStr "sand")])
         = PDict [("risk_level", l); ("confidence", PNum c);
                  ("probabilities", zip_probabilities risk_levels probs)]
      /\ In c probs /\ Forall (fun p => (p <= c)%Q) probs)
  /\ AiServiceSimple.predict_coastal_erosion Shape.plain_deployment
       (PDict [("wave_energy", PNum 8.5)])
     = PDict [("risk_level", PStr "high"); ("confidence", PNum 0.7);
              ("probabilities", PDict [])].
Proof.
  split.
  - apply (proj1 (erosion_confidence_is_top_probability
                    Shape.encoded_deployment
                    (PDict [("wave_energy", PNum 8.5);
                            ("sediment_type", PStr "sand")]))).
    reflexivity.
  - destruct (proj2 (erosion_confidence_is_top_probability
                       Shape.plain_deployment
                       (PDict [("wave_energy", PNum 8.5)])) eq_refl)
      as (m & f & l & Hm & Hf & Hl & H).
    injection Hm as <-. injection Hf as <-. cbn in Hl. injection Hl as <-.
    exact H.
Defined.



End ClassifierProperties.

(** ** The service without its models *)

Section Offline.

Lemma inert_mapping (threats : dict) :
  forallb Shape.inert threats = true ->
  _calculate_overall_risk threats = Ok "unknown"
  /\ AiService._generate_recommendations threats = Ok []
  /\ AiServiceSimple._generate_recommendations threats
     = Ok ["Continue routine monitoring"].
Proof.
  intros H.
  assert (Hall : Spec.labels_typed threats = true
                 /\ Spec.surge_typed threats = true
                 /\ Spec.ranks threats = []
                 /\ existsb Spec.rule_fires threats = false).
  { induction threats as [| item rest IH]; [repeat split |].
    cbn [forallb] in H. apply andb_true_iff in H. destruct H as [Hitem Hrest].
    destruct (IH Hrest) as (Hl & Hs & Hr & Hf).
    unfold Shape.inert in Hitem.
    apply andb_true_iff in Hitem. destruct Hitem as [Hitem Hquiet].
    apply andb_true_iff in Hitem. destruct Hitem as [Hitem Hsurge].
    apply andb_true_iff in Hitem. destruct Hitem as [Hranks Hlabel].
    apply negb_true_iff in Hquiet.
    unfold Spec.labels_typed, Spec.surge_typed, Spec.ranks in *.
    cbn [forallb existsb flat_map].
    rewrite Hlabel, Hsurge, Hquiet, Hl, Hs, Hr, Hf.
    destruct (Spec.ranks_of_entry item); [repeat split | discriminate]. }
  destruct Hall as (Hl & Hs & Hr & Hf).
  rewrite (overall_risk_of_ranks threats Hl), Hr.
  rewrite (full_loop threats Hs), (simple_loop threats Hs).
  rewrite !quiet_mapping by exact Hf. repeat split.
Qed.

(** X26. Without its models the service degrades instead of failing on
    an input that is a mapping. When [models_loaded] is false, the
    analysis of [ai_service.py] has [overall_risk] "unknown", an empty
    list of recommendations and no top-level [error], whatever the
    mapping holds; when the three models of [ai_service_simple.py] are
    missing, the analysis has [overall_risk] "unknown", the single
    recommendation to continue routine monitoring and no top-level
    [error]. *)
Theorem analysis_without_models (E : env) (input_data : dict) :
  (models_loaded E = false ->
   dict_get (AiService.comprehensive_threat_analysis E input_data)
     "overall_risk" = Some (PStr "unknown")
   /\ dict_get (AiService.comprehensive_threat_analysis E input_data)
        "recommendations" = Some (PList [])
   /\ dict_has (AiService.comprehensive_threat_analysis E input_data)
        "error" = false)
  /\ (storm_surge E = None -> coastal_erosion E = None ->
      blue_carbon_threat E = None ->
      dict_get (AiServiceSimple.comprehensive_threat_analysis E input_data)
        "overall_risk" = Some (PStr "unknown")
      /\ dict_get (AiServiceSimple.comprehensive_threat_analysis E input_data)
           "recommendations"
         = Some (PList [PStr "Continue routine monitoring"])
      /\ dict_has (AiServiceSimple.comprehensive_threat_analysis E input_data)
           "error" = false).
Proof.
  split.
  - intros Hoff.
    assert (Hinert : forallb Shape.inert
                       (collect_threats (AiService.predict_storm_surge E)
                          (AiService.predict_coastal_erosion E)
                          (AiService.predict_blue_carbon_threat E)
                          (AiService.predict_weather_sequence E)
                          input_data) = true).
    { apply collected_forallb; intros data;
        unfold AiService.predict_storm_surge,
          AiService.predict_coastal_erosion,
          AiService.predict_blue_carbon_threat,
          AiService.predict_weather_sequence;
        rewrite Hoff; reflexivity. }
    destruct (inert_mapping _ Hinert) as (Hrisk & Hrecs & _).
    unfold AiService.comprehensive_threat_analysis, analysis, assemble.
    rewrite Hrisk, Hrecs. repeat split.
  - intros Hsurge Herosion Hcarbon.
    assert (Hinert : forallb Shape.inert
                       (collect_threats
                          (AiServiceSimple.predict_storm_surge E)
                          (AiServiceSimple.predict_coastal_erosion E)
                          (AiServiceSimple.predict_blue_carbon_threat E)
                          (AiServiceSimple.predict_weather_sequence E)
                          input_data) = true).
    { apply collected_forallb; intros data;
        unfold AiServiceSimple.predict_storm_surge,
          AiServiceSimple.predict_coastal_erosion,
          AiServiceSimple.predict_blue_carbon_threat;
        rewrite ?Hsurge, ?Herosion, ?Hcarbon; try reflexivity.
      destruct (simple_forecast_shaped E data)
        as [(msg & ->) | (p & c & ->)]; reflexivity. }
    destruct (inert_mapping _ Hinert) as (Hrisk & _ & Hrecs).
    unfold AiServiceSimple.comprehensive_threat_analysis, analysis, assemble.
    rewrite Hrisk, Hrecs. repeat split.
Qed.

Lemma analysis_without_models_witness :
  dict_get
    (AiServiceSimple.comprehensive_threat_analysis
       {| now_iso := ""; hour_iso := fun _ => ""; str_exn := Shape.str_of_exn;
          models_loaded := false; storm_surge := None;
          coastal_erosion := None; blue_carbon_threat := None;
          weather_prediction := None; avg_temperature := fun _ => Ok 25%Q;
          np_random := fun _ => 0.5%Q; np_sin_cycle := fun _ => 0%Q |}
       [("weather", PDict [("wind_speed", PNum 35)]);
        ("historical_weather", PList [])])
    "overall_risk" = Some (PStr "unknown").
Proof.
  apply (proj2 (analysis_without_models _ _)); reflexivity.
Defined.

End Offline.
